(** * FileServer: access control and caching core of the document service

    A shallow embedding of [internal/models], of the document service
    ([internal/services/document/service.go]), of the cache adapter
    ([internal/cache/redis], [internal/repositories/cache/docs]) and of the
    document repository queries ([internal/repositories/db/document]).

    Calls to the three collaborators of the service (metadata repository,
    cache, file storage) are the operations of a small free monad; a handler
    interprets them over a state and the interpreter records every call with
    its answer.  Logging has no influence on results and is left out. *)

From Stdlib Require Import ZArith String Ascii List Lia Bool Permutation Sorted.
From stdpp Require Import base tactics option list strings gmap pretty.

Import ListNotations.
Local Open Scope string_scope.
Local Open Scope list_scope.


(** ** [internal/models] *)

(** [time.Time]: the instant, counted in nanoseconds since the Unix epoch. *)
Definition Time := Z.

(** [[]byte] and the contents behind [io.Reader] / [io.ReadCloser]. *)
Definition Bytes := string.

Module User.
Record t := mk { ID : string; Login : string; PassHash : string }.
End User.

Module Document.
Record t := mk {
  ID : string;
  OwnerID : string;
  Name : string;
  Mime : string;
  IsFile : bool;
  IsPublic : bool;
  Path : string;
  JSONData : Bytes;
  Grants : list string;
  CreatedAt : Time
}.

(** [doc.ID = id; doc.CreatedAt = now] on the caller's struct. *)
Definition stamp (doc : t) (id : string) (now : Time) : t :=
  mk id (OwnerID doc) (Name doc) (Mime doc) (IsFile doc) (IsPublic doc)
     (Path doc) (JSONData doc) (Grants doc) now.
End Document.

Module DocumentFilter.
Record t := mk { Key : string; Value : string; Limit : Z }.

(** [allowedKeys]: a missing key reads as [false]. *)
Definition allowedKeys (k : string) : bool :=
  if String.eqb k "name" then true
  else if String.eqb k "mime" then true
  else false.

Definition IsValid (f : t) : bool :=
  if String.eqb (Key f) "" && negb (String.eqb (Value f) "") then false
  else if negb (String.eqb (Key f) "") && negb (allowedKeys (Key f)) then false
  else true.
End DocumentFilter.

(** The sentinel errors of [models/errors.go]. *)
Inductive sentinel :=
| ErrNoRows | ErrUNIQUEConstraintFailed | ErrFailedToAddUser
| ErrFailedToGetUser | ErrInternal | ErrMethodNotAllowed | ErrForbidden
| ErrInvalidParams | ErrUserNotFound | ErrUserExists | ErrDocumentNotFound
| ErrSessionNotFound | ErrInvalidCredentials.

Definition sentinel_eqb (a b : sentinel) : bool :=
  match a, b with
  | ErrNoRows, ErrNoRows
  | ErrUNIQUEConstraintFailed, ErrUNIQUEConstraintFailed
  | ErrFailedToAddUser, ErrFailedToAddUser
  | ErrFailedToGetUser, ErrFailedToGetUser
  | ErrInternal, ErrInternal
  | ErrMethodNotAllowed, ErrMethodNotAllowed
  | ErrForbidden, ErrForbidden
  | ErrInvalidParams, ErrInvalidParams
  | ErrUserNotFound, ErrUserNotFound
  | ErrUserExists, ErrUserExists
  | ErrDocumentNotFound, ErrDocumentNotFound
  | ErrSessionNotFound, ErrSessionNotFound
  | ErrInvalidCredentials, ErrInvalidCredentials => true
  | _, _ => false
  end.

(** A Go [error] value: a sentinel, an error made elsewhere (driver, Redis
    client, file system, [errors.New]), or [fmt.Errorf("%s: %w", op, err)]. *)
Inductive error :=
| Sentinel (s : sentinel)
| Foreign (msg : string)
| Errorf (op : string) (err : error).

Coercion Sentinel : sentinel >-> error.

(** [errors.Is(err, target)] for a sentinel target: walks the [%w] chain. *)
Fixpoint errors_Is (err : error) (target : sentinel) : bool :=
  match err with
  | Sentinel s => sentinel_eqb s target
  | Foreign _ => false
  | Errorf _ inner => errors_Is inner target
  end.

(** A Go [(T, error)] result with the convention of this code base: the value
    is meaningful exactly when the error is nil. *)
Inductive result (A : Type) :=
| Ok (a : A)
| Err (e : error).
Arguments Ok {A} a.
Arguments Err {A} e.

(** ** Access decisions, [service.go] lines 366-376 *)

(** [slices.Contains] on strings. *)
Definition slices_Contains (s : list string) (v : string) : bool :=
  existsb (fun x => String.eqb x v) s.

Definition hasReadAccess (doc : Document.t) (userID userLogin : string) : bool :=
  Document.IsPublic doc
  || String.eqb (Document.OwnerID doc) userID
  || slices_Contains (Document.Grants doc) userLogin.

Definition hasDeleteAccess (doc : Document.t) (userID : string) : bool :=
  String.eqb (Document.OwnerID doc) userID.

Definition hasGrantAccess (doc : Document.t) (userID : string) : bool :=
  String.eqb (Document.OwnerID doc) userID.

Lemma slices_Contains_In (s : list string) (v : string) :
  slices_Contains s v = true <-> In v s.
Proof.
  unfold slices_Contains. rewrite existsb_exists. split.
  - intros (x & Hx & Heq). apply String.eqb_eq in Heq. now subst.
  - intros Hin. exists v. split; [assumption | apply String.eqb_refl].
Qed.

(** C1. Read access is granted exactly to the public, to the owner (compared
    by ID) and to the logins listed in [Grants] (compared by login). *)
Theorem hasReadAccess_iff (D : Document.t) (R : User.t) :
  hasReadAccess D (User.ID R) (User.Login R) = true <->
  (Document.IsPublic D = true
   \/ Document.OwnerID D = User.ID R
   \/ In (User.Login R) (Document.Grants D)).
Proof.
  unfold hasReadAccess.
  rewrite !orb_true_iff, String.eqb_eq, slices_Contains_In. tauto.
Qed.

(** C2. Delete access and grant-management access hold exactly for the owner
    (compared by ID); any other requester is refused both, whatever [Grants]
    lists, so also when the requester's login is granted. *)
Theorem owner_only_delete_and_grant (D : Document.t) (R : User.t) :
  (hasDeleteAccess D (User.ID R) = true <-> Document.OwnerID D = User.ID R)
  /\ (hasGrantAccess D (User.ID R) = true <-> Document.OwnerID D = User.ID R)
  /\ (Document.OwnerID D <> User.ID R ->
      hasDeleteAccess D (User.ID R) = false
      /\ hasGrantAccess D (User.ID R) = false
      /\ (In (User.Login R) (Document.Grants D) ->
          hasReadAccess D (User.ID R) (User.Login R) = true
          /\ hasDeleteAccess D (User.ID R) = false
          /\ hasGrantAccess D (User.ID R) = false)).
Proof.
  unfold hasDeleteAccess, hasGrantAccess.
  rewrite String.eqb_eq. repeat split; try tauto.
  - now apply String.eqb_neq.
  - now apply String.eqb_neq.
  - unfold hasReadAccess. rewrite !orb_true_iff, slices_Contains_In. tauto.
  - now apply String.eqb_neq.
  - now apply String.eqb_neq.
Qed.

(** ** Collaborators of the service

    [DocumentRepository], [Cache] and [FileStorage] are interfaces of the
    service package; [uuid.NewV4] and [time.Now] are the two other sources
    of outside input.  An operation is indexed by the Go type it returns;
    a nil [error] is [None]. *)

Inductive Op : Type -> Type :=
| uuid_NewV4 : Op string
| time_Now : Op Time
| cache_Get (key : string) : Op (string * option error)
| cache_Set (key value : string) : Op (option error)
| cache_Del (keys : list string) : Op (option error)
| docRepo_CreateDocument (doc : Document.t) : Op (option error)
| docRepo_DocumentByID (id : string) : Op (result Document.t)
| docRepo_Delete (id : string) : Op (option error)
| docRepo_GrantAccess (docID : string) (userIDs : list string) : Op (option error)
| docRepo_FilteredDocuments (login requesterID : string)
    (filter : DocumentFilter.t) : Op (result (list Document.t))
| fileStorage_SaveFile (doc : Document.t) (content : Bytes) : Op (option error)
| fileStorage_LoadFile (doc : Document.t) : Op (result Bytes)
| fileStorage_DeleteFile (doc : Document.t) : Op (option error).

(** One entry of the call log: the operation and what it answered. *)
Inductive Event :=
| EvNewV4 (id : string)
| EvNow (now : Time)
| EvCacheGet (key : string) (r : string * option error)
| EvCacheSet (key value : string) (r : option error)
| EvCacheDel (keys : list string) (r : option error)
| EvCreateDocument (doc : Document.t) (r : option error)
| EvDocumentByID (id : string) (r : result Document.t)
| EvDelete (id : string) (r : option error)
| EvGrantAccess (docID : string) (userIDs : list string) (r : option error)
| EvFilteredDocuments (login requesterID : string) (filter : DocumentFilter.t)
    (r : result (list Document.t))
| EvSaveFile (doc : Document.t) (content : Bytes) (r : option error)
| EvLoadFile (doc : Document.t) (r : result Bytes)
| EvDeleteFile (doc : Document.t) (r : option error).

Definition event_of {X} (op : Op X) : X -> Event :=
  match op in Op X return X -> Event with
  | uuid_NewV4 => EvNewV4
  | time_Now => EvNow
  | cache_Get key => EvCacheGet key
  | cache_Set key value => EvCacheSet key value
  | cache_Del keys => EvCacheDel keys
  | docRepo_CreateDocument doc => EvCreateDocument doc
  | docRepo_DocumentByID id => EvDocumentByID id
  | docRepo_Delete id => EvDelete id
  | docRepo_GrantAccess docID userIDs => EvGrantAccess docID userIDs
  | docRepo_FilteredDocuments login requesterID filter =>
      EvFilteredDocuments login requesterID filter
  | fileStorage_SaveFile doc content => EvSaveFile doc content
  | fileStorage_LoadFile doc => EvLoadFile doc
  | fileStorage_DeleteFile doc => EvDeleteFile doc
  end.

Definition is_LoadFile (e : Event) : bool :=
  match e with EvLoadFile _ _ => true | _ => false end.

Definition is_fileStorage (e : Event) : bool :=
  match e with
  | EvSaveFile _ _ _ | EvLoadFile _ _ | EvDeleteFile _ _ => true
  | _ => false
  end.

Definition is_docRepo (e : Event) : bool :=
  match e with
  | EvCreateDocument _ _ | EvDocumentByID _ _ | EvDelete _ _
  | EvGrantAccess _ _ _ | EvFilteredDocuments _ _ _ _ => true
  | _ => false
  end.

Definition is_cache (e : Event) : bool :=
  match e with
  | EvCacheGet _ _ | EvCacheSet _ _ _ | EvCacheDel _ _ => true
  | _ => false
  end.

(** Service code: a tree of collaborator calls ending in the returned value. *)
Inductive Prog (A : Type) : Type :=
| Ret (a : A)
| Vis {X : Type} (op : Op X) (k : X -> Prog A).
Arguments Ret {A} a.
Arguments Vis {A X} op k.

Fixpoint bind {A B} (f : A -> Prog B) (p : Prog A) : Prog B :=
  match p with
  | Ret a => f a
  | Vis op k => Vis op (fun x => bind f (k x))
  end.

#[global] Instance Prog_ret : MRet Prog := @Ret.
#[global] Instance Prog_bind : MBind Prog := @bind.

Definition call {X} (op : Op X) : Prog X := Vis op Ret.

(** [for _, x := range xs { body(x) }] where the body's outcome is only logged. *)
Fixpoint for_range {A B} (xs : list A) (body : A -> Prog B) : Prog unit :=
  match xs with
  | [] => Ret tt
  | x :: xs' => _ ← body x; for_range xs' body
  end.

(** An implementation of the collaborators over a state [S]. *)
Definition Handler (S : Type) := forall X, Op X -> S -> X * S.

(** Runs a program: the value returned, the final state and the call log. *)
Fixpoint run {S A} (h : Handler S) (p : Prog A) (s : S) : A * S * list Event :=
  match p with
  | Ret a => (a, s, [])
  | Vis op k =>
      let '(x, s1) := h _ op s in
      let '(a, s2, tr) := run h (k x) s1 in
      (a, s2, event_of op x :: tr)
  end.

(** ** The document service, [service.go] *)

Definition pkg : string := "documentService/".

(** [fmt.Sprintf("docs:%s", login)]: the key deleted by upload, delete and
    grant for the requester and for each entry of [Grants]. *)
Definition userDocsKey (login : string) : string := "docs:" +:+ login.

(** [fmt.Sprintf("docs:%s:%s:%s:%s:%v", requester.Login, login, filter.Key,
    filter.Value, filter.Limit)]: the key under which [ListDocuments] reads
    and writes a list; [%v] prints the [int] in decimal. *)
Definition listCacheKey (requesterLogin login : string) (filter : DocumentFilter.t)
  : string :=
  "docs:" +:+ requesterLogin +:+ ":" +:+ login +:+ ":"
  +:+ DocumentFilter.Key filter +:+ ":" +:+ DocumentFilter.Value filter +:+ ":"
  +:+ pretty (DocumentFilter.Limit filter).

Definition is_nil (err : option error) : bool :=
  match err with None => true | Some _ => false end.

Section Service.
(** [encoding/json] on the two types the service serialises. *)
Context (json_Marshal_doc : Document.t -> result string)
        (json_Unmarshal_doc : string -> result Document.t)
        (json_Marshal_docs : list Document.t -> result string)
        (json_Unmarshal_docs : string -> result (list Document.t)).

Definition jsonToDocs (s : string) : result (list Document.t) :=
  if Nat.eqb (String.length s) 0 then Err (Foreign "empty json string")
  else match json_Unmarshal_docs s with
       | Err err => Err err
       | Ok docs => Ok docs
       end.

Definition docsToJSON (docs : list Document.t) : result string :=
  match json_Marshal_docs docs with
  | Err err => Err err
  | Ok res => Ok res
  end.

Definition docToJSON (doc : Document.t) : result string :=
  match json_Marshal_doc doc with
  | Err err => Err err
  | Ok jsonSlice => Ok jsonSlice
  end.

Definition jsonToDoc (s : string) : result Document.t :=
  if Nat.eqb (String.length s) 0 then Err (Foreign "empty json string")
  else match json_Unmarshal_doc s with
       | Err err => Err err
       | Ok doc => Ok doc
       end.

Definition documentMetaByID (docID : string) : Prog (result Document.t) :=
  let op := pkg +:+ "documentMetaByID" in
  '(docJSON, err) ← call (cache_Get docID);
  if negb (is_nil err) || String.eqb docJSON "" then
    r ← call (docRepo_DocumentByID docID);
    match r with
    | Err err =>
        if errors_Is err ErrDocumentNotFound
        then mret (Err (Errorf op ErrDocumentNotFound))
        else mret (Err (Errorf op ErrInternal))
    | Ok doc =>
        match docToJSON doc with
        | Err _ => mret (Ok doc)
        | Ok docJSON => _ ← call (cache_Set docID docJSON); mret (Ok doc)
        end
    end
  else
    match jsonToDoc docJSON with
    | Err _ => mret (Err (Sentinel ErrInternal))
    | Ok doc => mret (Ok doc)
    end.

(** Returns the new ID and the error; [doc] is stamped in place. *)
Definition UploadDocument (requester : User.t) (doc : Document.t)
    (content : Bytes) : Prog (string * option error) :=
  let op := pkg +:+ "UploadDocument" in
  id ← call uuid_NewV4;
  now ← call time_Now;
  let doc := Document.stamp doc id now in
  err ← (if Document.IsFile doc
         then call (fileStorage_SaveFile doc content) else mret None);
  if negb (is_nil err) then mret ("", Some (Errorf op ErrInternal)) else
  err ← call (docRepo_CreateDocument doc);
  if negb (is_nil err) then
    _ ← (if Document.IsFile doc
         then call (fileStorage_DeleteFile doc) else mret None);
    mret ("", Some (Errorf op ErrInternal))
  else
  let invalidate_owner :=
    _ ← call (cache_Del [userDocsKey (User.Login requester)]);
    mret (Document.ID doc, None) in
  if Nat.ltb 0 (length (Document.Grants doc)) then
    err ← call (docRepo_GrantAccess (Document.ID doc) (Document.Grants doc));
    if negb (is_nil err) then
      _ ← call (docRepo_Delete (Document.ID doc));
      _ ← (if Document.IsFile doc
           then call (fileStorage_DeleteFile doc) else mret None);
      mret ("", Some (Errorf op ErrInternal))
    else
      _ ← for_range (Document.Grants doc)
            (fun grant => call (cache_Del [userDocsKey grant]));
      invalidate_owner
  else invalidate_owner.

(** Returns the metadata and, for a file, its content. *)
Definition DocumentByID (docID : string) (requester : User.t)
  : Prog (result (Document.t * option Bytes)) :=
  r ← documentMetaByID docID;
  match r with
  | Err err => mret (Err err)
  | Ok doc =>
      if negb (hasReadAccess doc (User.ID requester) (User.Login requester))
      then mret (Err (Sentinel ErrForbidden))
      else if Document.IsFile doc then
        f ← call (fileStorage_LoadFile doc);
        match f with
        | Err _ => mret (Err (Sentinel ErrInternal))
        | Ok file => mret (Ok (doc, Some file))
        end
      else mret (Ok (doc, None))
  end.

Definition DeleteDocument (docID : string) (requester : User.t)
  : Prog (option error) :=
  r ← documentMetaByID docID;
  match r with
  | Err err => mret (Some err)
  | Ok doc =>
      if negb (hasDeleteAccess doc (User.ID requester))
      then mret (Some (Sentinel ErrForbidden)) else
      err ← call (docRepo_Delete docID);
      if match err with
         | Some e => negb (errors_Is e ErrDocumentNotFound)
         | None => false
         end
      then mret (Some (Sentinel ErrInternal)) else
      let cacheKey := userDocsKey (User.Login requester) in
      _ ← call (cache_Del [Document.ID doc; cacheKey]);
      if Document.IsFile doc then
        err ← call (fileStorage_DeleteFile doc);
        match err with
        | Some e =>
            if errors_Is e ErrDocumentNotFound
            then mret (Some (Sentinel ErrDocumentNotFound))
            else mret (Some (Sentinel ErrInternal))
        | None => mret None
        end
      else mret None
  end.

Definition GrantAccess (docID : string) (requester : User.t)
    (grants : list string) : Prog (option error) :=
  r ← documentMetaByID docID;
  match r with
  | Err err => mret (Some err)
  | Ok doc =>
      if negb (hasGrantAccess doc (User.ID requester))
      then mret (Some (Sentinel ErrForbidden)) else
      err ← call (docRepo_GrantAccess docID grants);
      if negb (is_nil err) then mret (Some (Sentinel ErrInternal)) else
      let cacheKey := userDocsKey (User.Login requester) in
      _ ← call (cache_Del [Document.ID doc; cacheKey]);
      _ ← for_range (Document.Grants doc)
            (fun grant => call (cache_Del [userDocsKey grant]));
      mret None
  end.

Definition ListDocuments (requester : User.t) (login : string)
    (filter : DocumentFilter.t) : Prog (result (list Document.t)) :=
  let op := pkg +:+ "ListDocuments" in
  let cacheKey := listCacheKey (User.Login requester) login filter in
  '(docsJSON, err) ← call (cache_Get cacheKey);
  if negb (is_nil err) || String.eqb docsJSON "" then
    if negb (DocumentFilter.IsValid filter)
    then mret (Err (Sentinel ErrInvalidParams)) else
    r ← call (docRepo_FilteredDocuments login (User.ID requester) filter);
    match r with
    | Err err =>
        if errors_Is err ErrDocumentNotFound then mret (Ok [])
        else mret (Err (Errorf op ErrInternal))
    | Ok docs =>
        match docsToJSON docs with
        | Err _ => mret (Ok docs)
        | Ok docsJSON => _ ← call (cache_Set cacheKey docsJSON); mret (Ok docs)
        end
    end
  else
    match jsonToDocs docsJSON with
    | Err _ => mret (Err (Sentinel ErrInternal))
    | Ok docs => mret (Ok docs)
    end.
End Service.

(** ** The document repository, [internal/repositories/db/document]

    The three tables the statements read and write, as lists of rows, with
    the constraints of their [CREATE TABLE] statements, and the statements as
    functions on them.  A value is the answer of a statement the database
    executed; a failure of the connection is an error of the caller's
    handler.  Identifiers are [UUID] values; a string of the model stands
    for one. *)

Module documentrepo.

Definition pkg : string := "documentRepo/".

(** A row of [documents] ([entities.Document]); a null [json_data] is read
    as the empty slice. *)
Record DocumentRow := mkDocumentRow {
  id : string;
  owner_id : string;
  name : string;
  mime : string;
  is_file : bool;
  is_public : bool;
  path : string;
  json_data : Bytes;
  created_at : Time
}.

(** A row of [grants]. *)
Record GrantRow := mkGrantRow { document_id : string; user_id : string }.

(** What the statements and the schema leave to the database server.
    [jsonb] is what a [JSONB] column keeps and gives back of a text, or the
    error for a text that is no JSON.  [timestamp] is the instant a
    [TIMESTAMP] column gives back for an instant written to it.
    [order_rows] is the order in which [ORDER BY d.name ASC, d.created_at
    DESC] returns rows: names are compared under the collation of the
    database and the order among ties is the executor's, so no more is taken
    of it than that it rearranges the rows. *)
Record Engine := mkEngine {
  jsonb : Bytes -> result Bytes;
  timestamp : Time -> Time;
  order_rows : list DocumentRow -> list DocumentRow;
  order_rows_perm : forall l, Permutation (order_rows l) l
}.

(** [users] holds [entities.User] rows: id, login, pass_hash. *)
Record DB := mkDB {
  engine : Engine;
  users : list User.t;
  documents : list DocumentRow;
  grants : list GrantRow
}.

(** The errors of the driver for a statement that breaks a constraint; they
    are none of the sentinels. *)
Definition unique_violation : error :=
  Foreign "pq: duplicate key value violates unique constraint".
Definition foreign_key_violation : error :=
  Foreign "pq: violates foreign key constraint".

Definition has_user (db : DB) (userID : string) : bool :=
  existsb (fun u => String.eqb (User.ID u) userID) (users db).

Definition has_document (db : DB) (docID : string) : bool :=
  existsb (fun d => String.eqb (id d) docID) (documents db).

Definition has_grant (gs : list GrantRow) (docID userID : string) : bool :=
  existsb (fun g => String.eqb (document_id g) docID
                    && String.eqb (user_id g) userID) gs.

Definition is_granted (db : DB) (docID : string) : bool :=
  existsb (fun g => String.eqb (document_id g) docID) (grants db).

(** [SELECT u.login FROM grants g INNER JOIN users u ON g.user_id = u.id
    WHERE g.document_id = $1] *)
Definition getGrants (db : DB) (docID : string) : list string :=
  flat_map (fun g =>
    flat_map (fun u =>
      if String.eqb (user_id g) (User.ID u) && String.eqb (document_id g) docID
      then [User.Login u] else [])
    (users db))
  (grants db).

(** The [models.Document] built from a row and its grants. *)
Definition toDocument (db : DB) (rawDoc : DocumentRow) : Document.t :=
  Document.mk (id rawDoc) (owner_id rawDoc) (name rawDoc) (mime rawDoc)
    (is_file rawDoc) (is_public rawDoc) (path rawDoc) (json_data rawDoc)
    (getGrants db (id rawDoc)) (created_at rawDoc).

(** [INSERT INTO documents ...]; the grants of [doc] are not written here.
    An empty [JSONData] is written as null.  The statement fails, and
    writes nothing, on a text that is no JSON, on an [id] some row has
    ([id UUID PRIMARY KEY]) and on an [owner_id] of no user
    ([FOREIGN KEY(owner_id) REFERENCES users(id)]). *)
Definition CreateDocument (db : DB) (doc : Document.t) : option error * DB :=
  let op := pkg +:+ "CreateDocument" in
  let jsonData :=
    if Nat.ltb 0 (String.length (Document.JSONData doc))
    then jsonb (engine db) (Document.JSONData doc)
    else Ok "" in
  match jsonData with
  | Err err => (Some (Errorf op err), db)
  | Ok jsonData =>
      if has_document db (Document.ID doc)
      then (Some (Errorf op unique_violation), db)
      else if negb (has_user db (Document.OwnerID doc))
      then (Some (Errorf op foreign_key_violation), db)
      else
        (None,
         mkDB (engine db) (users db)
              (documents db ++
               [mkDocumentRow (Document.ID doc) (Document.OwnerID doc)
                  (Document.Name doc) (Document.Mime doc) (Document.IsFile doc)
                  (Document.IsPublic doc) (Document.Path doc) jsonData
                  (timestamp (engine db) (Document.CreatedAt doc))])
              (grants db))
  end.

(** [SELECT ... FROM documents d WHERE d.id = $1] read with [GetContext]:
    the first row, [sql.ErrNoRows] turned into [ErrDocumentNotFound]. *)
Definition DocumentByID (db : DB) (docID : string) : result Document.t :=
  match List.filter (fun d => String.eqb (id d) docID) (documents db) with
  | [] => Err (Errorf (pkg +:+ "DocumentByID") ErrDocumentNotFound)
  | rawDoc :: _ => Ok (toDocument db rawDoc)
  end.

(** [DELETE FROM documents WHERE id = $1]: no error when no row matches.
    A row that a [grants] row refers to cannot be deleted
    ([FOREIGN KEY(document_id) REFERENCES documents(id)], no cascade): the
    statement fails and deletes nothing. *)
Definition Delete (db : DB) (docID : string) : option error * DB :=
  if has_document db docID && is_granted db docID
  then (Some (Errorf (pkg +:+ "Delete") foreign_key_violation), db)
  else
    (None,
     mkDB (engine db) (users db)
          (List.filter (fun d => negb (String.eqb (id d) docID)) (documents db))
          (grants db)).

(** The [INSERT INTO grants (document_id, user_id) VALUES ($1, $2)] of the
    loop, on the rows [gs] the transaction has so far: an insert fails on a
    pair that is there ([PRIMARY KEY (document_id, user_id)]) and on a
    document or user ID of no row (the two foreign keys). *)
Fixpoint insert_grants (db : DB) (docID : string) (userIDs : list string)
    (gs : list GrantRow) : result (list GrantRow) :=
  match userIDs with
  | [] => Ok gs
  | uID :: userIDs' =>
      if has_grant gs docID uID then Err unique_violation
      else if negb (has_document db docID && has_user db uID)
      then Err foreign_key_violation
      else insert_grants db docID userIDs' (gs ++ [mkGrantRow docID uID])
  end.

(** One transaction: [DELETE FROM grants WHERE document_id = $1], then an
    [INSERT INTO grants (document_id, user_id)] per element.  A failing
    insert returns its error and the deferred [tx.Rollback()] undoes the
    transaction. *)
Definition GrantAccess (db : DB) (docID : string) (userIDs : list string)
  : option error * DB :=
  let op := pkg +:+ "GrantAccess" in
  match insert_grants db docID userIDs
          (List.filter (fun g => negb (String.eqb (document_id g) docID))
                       (grants db)) with
  | Err err => (Some (Errorf op err), db)
  | Ok gs => (None, mkDB (engine db) (users db) (documents db) gs)
  end.

(** [FROM documents d INNER JOIN users u ON d.owner_id = u.id
     LEFT JOIN grants g ON g.document_id = d.id]: a document with no grant
    row is kept once, with [g] null. *)
Definition joined (db : DB) : list (DocumentRow * User.t * option GrantRow) :=
  flat_map (fun d =>
    flat_map (fun u =>
      match List.filter (fun g => String.eqb (document_id g) (id d)) (grants db) with
      | [] => [(d, u, None)]
      | gs => map (fun g => (d, u, Some g)) gs
      end)
    (List.filter (fun u => String.eqb (owner_id d) (User.ID u)) (users db)))
  (documents db).

(** The [WHERE] clause; [$1 = filter.Key], [$2 = filter.Value],
    [$3 = requesterID], [$4 = login].  A comparison with the null [g] of
    the left join is not true. *)
Definition where_clause (login requesterID : string) (f : DocumentFilter.t)
    (row : DocumentRow * User.t * option GrantRow) : bool :=
  let '(d, u, g) := row in
  (is_public d
   || String.eqb (owner_id d) requesterID
   || match g with
      | Some g => String.eqb (user_id g) requesterID
      | None => false
      end)
  && ((String.eqb (DocumentFilter.Key f) "name"
       && String.eqb (name d) (DocumentFilter.Value f))
      || (String.eqb (DocumentFilter.Key f) "mime"
          && String.eqb (mime d) (DocumentFilter.Value f))
      || (String.eqb (DocumentFilter.Key f) "" && true))
  && (String.eqb login "" || String.eqb (User.Login u) login).

(** [ORDER BY d.name ASC, d.created_at DESC], as the database orders. *)
Definition order_by (db : DB) (l : list DocumentRow) : list DocumentRow :=
  order_rows (engine db) l.

(** [LIMIT $5] is appended only when [filter.Limit > 0]. *)
Definition limit (f : DocumentFilter.t) (l : list DocumentRow) : list DocumentRow :=
  if Z.ltb 0 (DocumentFilter.Limit f)
  then firstn (Z.to_nat (DocumentFilter.Limit f)) l else l.

Definition FilteredDocuments (db : DB) (login requesterID : string)
    (f : DocumentFilter.t) : list Document.t :=
  let rawDocs :=
    limit f (order_by db
      (map (fun row => fst (fst row))
         (List.filter (where_clause login requesterID f) (joined db)))) in
  map (toDocument db) rawDocs.

End documentrepo.

(** ** The cache adapter, [internal/cache/redis] and
    [internal/repositories/cache/docs]

    Redis as a finite map.  [redisResponse.Result] turns [redis.Nil] into the
    zero value with a nil error, so a missing key reads as the empty string.
    Expiry of an entry after its TTL is not part of the model. *)

Module cachedocsrepo.
Definition Get (m : gmap string string) (key : string) : string :=
  default "" (m !! key).

Definition Set_ (m : gmap string string) (key value : string)
  : gmap string string := <[key := value]> m.

Definition Del (m : gmap string string) (keys : list string)
  : gmap string string := foldr delete m keys.
End cachedocsrepo.

(** ** An in-memory implementation of the collaborators

    The state behind the three interfaces, with a fault plan: the call
    numbered [n] (counting from 0) fails with [faults !! n] when that is set,
    and leaves the stores as they were. *)

Record World := mkWorld {
  next_uuid : nat;
  clock : Time;
  redis : gmap string string;
  db : documentrepo.DB;
  files : gmap string Bytes;
  calls : nat;
  faults : gmap nat error
}.

Definition set_redis (w : World) (m : gmap string string) : World :=
  mkWorld (next_uuid w) (clock w) m (db w) (files w) (calls w) (faults w).

Definition set_db (w : World) (d : documentrepo.DB) : World :=
  mkWorld (next_uuid w) (clock w) (redis w) d (files w) (calls w) (faults w).

Definition set_files (w : World) (f : gmap string Bytes) : World :=
  mkWorld (next_uuid w) (clock w) (redis w) (db w) f (calls w) (faults w).

Definition tick (w : World) : World :=
  mkWorld (next_uuid w) (clock w) (redis w) (db w) (files w) (S (calls w)) (faults w).

(** The answer of a failing call; [uuid.NewV4] and [time.Now] cannot fail. *)
Definition refuse {X} (op : Op X) (e : error) : option X :=
  match op in Op X return option X with
  | uuid_NewV4 => None
  | time_Now => None
  | cache_Get _ => Some ("", Some e)
  | cache_Set _ _ => Some (Some e)
  | cache_Del _ => Some (Some e)
  | docRepo_CreateDocument _ =>
      Some (Some (Errorf (documentrepo.pkg +:+ "CreateDocument") e))
  | docRepo_DocumentByID _ =>
      Some (Err (Errorf (documentrepo.pkg +:+ "DocumentByID") e))
  | docRepo_Delete _ => Some (Some (Errorf (documentrepo.pkg +:+ "Delete") e))
  | docRepo_GrantAccess _ _ =>
      Some (Some (Errorf (documentrepo.pkg +:+ "GrantAccess") e))
  | docRepo_FilteredDocuments _ _ _ =>
      Some (Err (Errorf (documentrepo.pkg +:+ "FilteredOrders") e))
  | fileStorage_SaveFile _ _ => Some (Some e)
  | fileStorage_LoadFile _ => Some (Err e)
  | fileStorage_DeleteFile _ => Some (Some e)
  end.

(** Modelled from the spec: the file storage implementation
    ([repositories/storage/file]) is not among the sources; content is kept
    per document ID, and loading or deleting an absent blob reports
    [ErrDocumentNotFound]. *)
Definition files_Load (f : gmap string Bytes) (doc : Document.t) : result Bytes :=
  match f !! Document.ID doc with
  | Some content => Ok content
  | None => Err (Sentinel ErrDocumentNotFound)
  end.

Definition files_Delete (f : gmap string Bytes) (doc : Document.t)
  : option error * gmap string Bytes :=
  match f !! Document.ID doc with
  | Some _ => (None, delete (Document.ID doc) f)
  | None => (Some (Sentinel ErrDocumentNotFound), f)
  end.

(** The answer of a call that reaches its store; a write the database
    refuses on a constraint answers the error of the statement. *)
Definition answer {X} (op : Op X) (w : World) : X * World :=
  match op in Op X return X * World with
  | uuid_NewV4 =>
      ("uuid-" +:+ pretty (next_uuid w),
       mkWorld (S (next_uuid w)) (clock w) (redis w) (db w) (files w)
               (calls w) (faults w))
  | time_Now =>
      (clock w,
       mkWorld (next_uuid w) (clock w + 1)%Z (redis w) (db w) (files w)
               (calls w) (faults w))
  | cache_Get key => ((cachedocsrepo.Get (redis w) key, None), w)
  | cache_Set key value =>
      (None, set_redis w (cachedocsrepo.Set_ (redis w) key value))
  | cache_Del keys => (None, set_redis w (cachedocsrepo.Del (redis w) keys))
  | docRepo_CreateDocument doc =>
      let '(err, d) := documentrepo.CreateDocument (db w) doc in (err, set_db w d)
  | docRepo_DocumentByID id => (documentrepo.DocumentByID (db w) id, w)
  | docRepo_Delete id =>
      let '(err, d) := documentrepo.Delete (db w) id in (err, set_db w d)
  | docRepo_GrantAccess docID userIDs =>
      let '(err, d) := documentrepo.GrantAccess (db w) docID userIDs in
      (err, set_db w d)
  | docRepo_FilteredDocuments login requesterID filter =>
      (Ok (documentrepo.FilteredDocuments (db w) login requesterID filter), w)
  | fileStorage_SaveFile doc content =>
      (None, set_files w (<[Document.ID doc := content]> (files w)))
  | fileStorage_LoadFile doc => (files_Load (files w) doc, w)
  | fileStorage_DeleteFile doc =>
      let '(r, f) := files_Delete (files w) doc in (r, set_files w f)
  end.

Definition world : Handler World := fun X op w =>
  match faults w !! calls w with
  | Some e =>
      match refuse op e with
      | Some x => (x, tick w)
      | None => answer op (tick w)
      end
  | None => answer op (tick w)
  end.

(** ** A stand-in for [encoding/json] in closed examples

    [text] prints a document the way [json.Marshal] lays out the struct, for
    field values that need no escaping; decoding looks the text up among the
    documents of a table and rejects every other input. *)

Module samplejson.
(** The double quote character, code 34. *)
Definition dquote : string := String (Ascii.ascii_of_nat 34) EmptyString.

Definition quote (s : string) : string := dquote +:+ s +:+ dquote.

Definition bool_text (b : bool) : string := if b then "true" else "false".

Fixpoint join (sep : string) (l : list string) : string :=
  match l with
  | [] => ""
  | [x] => x
  | x :: l' => x +:+ sep +:+ join sep l'
  end.

Definition text (d : Document.t) : string :=
  "{" +:+ quote "id" +:+ ":" +:+ quote (Document.ID d)
  +:+ "," +:+ quote "owner_id" +:+ ":" +:+ quote (Document.OwnerID d)
  +:+ "," +:+ quote "name" +:+ ":" +:+ quote (Document.Name d)
  +:+ "," +:+ quote "mime" +:+ ":" +:+ quote (Document.Mime d)
  +:+ "," +:+ quote "is_file" +:+ ":" +:+ bool_text (Document.IsFile d)
  +:+ "," +:+ quote "is_public" +:+ ":" +:+ bool_text (Document.IsPublic d)
  +:+ "," +:+ quote "path" +:+ ":" +:+ quote (Document.Path d)
  +:+ "," +:+ quote "json_data" +:+ ":" +:+ quote (Document.JSONData d)
  +:+ "," +:+ quote "grants" +:+ ":["
  +:+ join "," (map quote (Document.Grants d)) +:+ "]"
  +:+ "," +:+ quote "created_at" +:+ ":" +:+ pretty (Document.CreatedAt d)
  +:+ "}".

Definition texts (ds : list Document.t) : string :=
  "[" +:+ join "," (map text ds) +:+ "]".

Definition Marshal_doc (d : Document.t) : result string := Ok (text d).

Definition Unmarshal_doc (table : list Document.t) (s : string)
  : result Document.t :=
  match List.find (fun d => String.eqb (text d) s) table with
  | Some d => Ok d
  | None => Err (Foreign "invalid character")
  end.

Definition Marshal_docs (ds : list Document.t) : result string := Ok (texts ds).

Definition Unmarshal_docs (table : list (list Document.t)) (s : string)
  : result (list Document.t) :=
  match List.find (fun ds => String.eqb (texts ds) s) table with
  | Some ds => Ok ds
  | None => Err (Foreign "invalid character")
  end.
End samplejson.

(** ** A stand-in for the database server in closed examples

    A database with the bytewise collation whose executor sorts by
    insertion, with a [JSONB] type that knows two texts and a [TIMESTAMP]
    type that keeps whole microseconds. *)

Module samplepg.
Import documentrepo.

Definition order_le (a b : DocumentRow) : bool :=
  match String.compare (name a) (name b) with
  | Lt => true
  | Gt => false
  | Eq => Z.leb (created_at b) (created_at a)
  end.

Fixpoint insert_row (x : DocumentRow) (l : list DocumentRow) : list DocumentRow :=
  match l with
  | [] => [x]
  | y :: l' => if order_le x y then x :: l else y :: insert_row x l'
  end.

Definition sort_rows (l : list DocumentRow) : list DocumentRow :=
  foldr insert_row [] l.

Lemma insert_row_perm (x : DocumentRow) (l : list DocumentRow) :
  Permutation (insert_row x l) (x :: l).
Proof.
  induction l as [| y l IH]; cbn; [reflexivity |].
  destruct (order_le x y); [reflexivity |].
  etransitivity; [apply perm_skip, IH | apply perm_swap].
Qed.

Lemma sort_rows_perm (l : list DocumentRow) : Permutation (sort_rows l) l.
Proof.
  induction l as [| x l IH]; cbn; [reflexivity |].
  etransitivity; [apply insert_row_perm | apply perm_skip, IH].
Qed.

Definition jsonb_text (s : Bytes) : result Bytes :=
  if String.eqb s "{}" then Ok "{}"
  else if String.eqb s "[1,2]" then Ok "[1, 2]"
  else Err (Foreign "pq: invalid input syntax for type json").

Definition microseconds (t : Time) : Time := (t / 1000 * 1000)%Z.

Definition pg : Engine := mkEngine jsonb_text microseconds sort_rows sort_rows_perm.
End samplepg.

(** ** Running programs *)

Lemma run_bind {S A B} (h : Handler S) (p : Prog A) (f : A -> Prog B) (s : S) :
  run h (p ≫= f) s =
  let '(a, s1, t1) := run h p s in
  let '(b, s2, t2) := run h (f a) s1 in
  (b, s2, t1 ++ t2).
Proof.
  revert s. induction p as [a | X op k IH]; intros s; simpl.
  - destruct (run h (f a) s) as [[b s2] t2]. reflexivity.
  - destruct (h X op s) as [x s1].
    change (bind f (k x)) with (k x ≫= f). rewrite IH.
    destruct (run h (k x) s1) as [[a s2] t1].
    destruct (run h (f a) s2) as [[b s3] t2]. reflexivity.
Qed.

Lemma run_call {S X} (h : Handler S) (op : Op X) (s : S) :
  run h (call op) s = (fst (h X op s), snd (h X op s), [event_of op (fst (h X op s))]).
Proof. simpl. destruct (h X op s). reflexivity. Qed.

Lemma run_call_bind {S X B} (h : Handler S) (op : Op X) (f : X -> Prog B) (s : S) :
  run h (call op ≫= f) s =
  let '(x, s1) := h X op s in
  let '(b, s2, tr) := run h (f x) s1 in
  (b, s2, event_of op x :: tr).
Proof. reflexivity. Qed.

Lemma run_ret {S A} (h : Handler S) (a : A) (s : S) : run h (mret a) s = (a, s, []).
Proof. reflexivity. Qed.

Section Resolution.
Context (json_Marshal_doc : Document.t -> result string)
        (json_Unmarshal_doc : string -> result Document.t).

Context {S : Type} (h : Handler S).

Lemma is_nil_false (err : option error) : negb (is_nil err) = true <-> err <> None.
Proof. destruct err; simpl; split; congruence. Qed.

(** The cache-miss test [err != nil || docJSON == ""]. *)
Lemma miss_test (docJSON : string) (err : option error) :
  negb (is_nil err) || String.eqb docJSON "" = true <-> (err <> None \/ docJSON = "").
Proof. rewrite orb_true_iff, is_nil_false, String.eqb_eq. tauto. Qed.

Lemma hit_test (docJSON : string) (err : option error) :
  err = None -> docJSON <> "" -> negb (is_nil err) || String.eqb docJSON "" = false.
Proof.
  intros -> Hne. simpl. now apply String.eqb_neq.
Qed.

(** Resolution never touches the file storage. *)
Lemma documentMetaByID_no_fileStorage (docID : string) (s : S) :
  Forall (fun e => is_fileStorage e = false) (snd (run h (documentMetaByID json_Marshal_doc json_Unmarshal_doc docID) s)).
Proof.
  unfold documentMetaByID.
  cbn [run mbind Prog_bind bind call].
  destruct (h _ (cache_Get docID) s) as [[docJSON err] s1].
  destruct (negb (is_nil err) || String.eqb docJSON "").
  - cbn [run mbind Prog_bind bind call].
    destruct (h _ (docRepo_DocumentByID docID) s1) as [[doc | e] s2].
    + destruct (docToJSON json_Marshal_doc doc) as [j | e']; cbn.
      * destruct (h _ (cache_Set docID j) s2); cbn. repeat constructor.
      * repeat constructor.
    + destruct (errors_Is e ErrDocumentNotFound); cbn; repeat constructor.
  - destruct (jsonToDoc json_Unmarshal_doc docJSON); cbn; repeat constructor.
Qed.

(** C7. Single-document resolution.  When the cache read fails or gives the
    empty string the repository is asked next: its not-found error comes
    back as [ErrDocumentNotFound], any other error as [ErrInternal], both
    without a cache write.  When the cache read gives a nonempty string that
    does not deserialise, the result is [ErrInternal] and the cache read is
    the only call made. *)
Theorem documentMetaByID_miss_and_corrupt_hit
    (docID : string) (s s1 : S) (cached : string) (cerr : option error) :
  h _ (cache_Get docID) s = ((cached, cerr), s1) ->
  ((cerr <> None \/ cached = "") ->
   forall r s2, h _ (docRepo_DocumentByID docID) s1 = (r, s2) ->
     exists res s3 tr,
       run h (documentMetaByID json_Marshal_doc json_Unmarshal_doc docID) s =
         (res, s3, EvCacheGet docID (cached, cerr) :: EvDocumentByID docID r :: tr)
       /\ match r with
          | Err e =>
              tr = [] /\ s3 = s2 /\
              res = Err (Errorf (pkg +:+ "documentMetaByID")
                           (if errors_Is e ErrDocumentNotFound
                            then Sentinel ErrDocumentNotFound
                            else Sentinel ErrInternal))
          | Ok d => res = Ok d
          end)
  /\ (cerr = None -> cached <> "" ->
      forall e, jsonToDoc json_Unmarshal_doc cached = Err e ->
        run h (documentMetaByID json_Marshal_doc json_Unmarshal_doc docID) s =
          (Err (Sentinel ErrInternal), s1, [EvCacheGet docID (cached, cerr)])).
Proof.
  intros Hget. split.
  - intros Hmiss r s2 Hrepo. apply miss_test in Hmiss.
    unfold documentMetaByID.
    cbn [run mbind Prog_bind bind call]. rewrite Hget. cbn [event_of].
    rewrite Hmiss. cbn [run mbind Prog_bind bind call]. rewrite Hrepo.
    cbn [event_of]. destruct r as [d | e].
    + destruct (docToJSON json_Marshal_doc d) as [j | e'].
      * cbn [run mbind Prog_bind bind call mret Prog_ret].
        destruct (h _ (cache_Set docID j) s2) as [x s3].
        do 3 eexists. split; [reflexivity | reflexivity].
      * do 3 eexists. split; [reflexivity | reflexivity].
    + destruct (errors_Is e ErrDocumentNotFound);
        do 3 eexists; (split; [reflexivity | auto]).
  - intros Hnil Hne e Hbad.
    unfold documentMetaByID.
    cbn [run mbind Prog_bind bind call]. rewrite Hget. cbn [event_of].
    rewrite (hit_test _ _ Hnil Hne), Hbad. reflexivity.
Qed.

(** C10. [DocumentByID]: every [LoadFile] in the call log is the last call,
    made for the resolved document after the read-access test passed and
    only for a file.  For a resolved document the requester may not read,
    the result is [ErrForbidden] and the log, that of the resolution alone,
    has no [LoadFile].  A failing [LoadFile], whatever its error, gives
    [ErrInternal], which is not a not-found error. *)
Theorem DocumentByID_guards_LoadFile (docID : string) (R : User.t) (s : S) :
  (forall d r,
     In (EvLoadFile d r) (snd (run h (DocumentByID json_Marshal_doc json_Unmarshal_doc docID R) s)) ->
     exists s1 tr0,
       run h (documentMetaByID json_Marshal_doc json_Unmarshal_doc docID) s = (Ok d, s1, tr0)
       /\ hasReadAccess d (User.ID R) (User.Login R) = true
       /\ Document.IsFile d = true
       /\ fst (h _ (fileStorage_LoadFile d) s1) = r
       /\ snd (run h (DocumentByID json_Marshal_doc json_Unmarshal_doc docID R) s)
          = tr0 ++ [EvLoadFile d r])
  /\ (forall D s1 tr0,
        run h (documentMetaByID json_Marshal_doc json_Unmarshal_doc docID) s = (Ok D, s1, tr0) ->
        (hasReadAccess D (User.ID R) (User.Login R) = false ->
         run h (DocumentByID json_Marshal_doc json_Unmarshal_doc docID R) s
           = (Err (Sentinel ErrForbidden), s1, tr0)
         /\ Forall (fun e => is_LoadFile e = false) tr0)
        /\ (hasReadAccess D (User.ID R) (User.Login R) = true ->
            Document.IsFile D = true ->
            forall e s2,
              h _ (fileStorage_LoadFile D) s1 = (Err e, s2) ->
              run h (DocumentByID json_Marshal_doc json_Unmarshal_doc docID R) s
                = (Err (Sentinel ErrInternal), s2, tr0 ++ [EvLoadFile D (Err e)])
              /\ errors_Is (Sentinel ErrInternal) ErrDocumentNotFound = false)).
Proof.
  pose proof (documentMetaByID_no_fileStorage docID s) as Hno.
  unfold DocumentByID. rewrite run_bind.
  destruct (run h (documentMetaByID json_Marshal_doc json_Unmarshal_doc docID) s) as [[r0 s1] tr0] eqn:Hres.
  cbn [snd] in Hno.
  assert (Hnot : forall d r, ~ In (EvLoadFile d r) tr0).
  { intros d r Hin. rewrite List.Forall_forall in Hno.
    specialize (Hno _ Hin). discriminate. }
  split.
  - intros d r. destruct r0 as [d' | e].
    + destruct (hasReadAccess d' (User.ID R) (User.Login R)) eqn:Hacc; cbn.
      * destruct (Document.IsFile d') eqn:Hfile; cbn.
        -- destruct (h _ (fileStorage_LoadFile d') s1) as [f s2] eqn:Hload.
           destruct f as [file | e]; cbn; intros Hin;
             apply in_app_or in Hin as [Hin | [Heq | []]];
             try (now apply Hnot in Hin);
             injection Heq as <- <-;
             exists s1, tr0; rewrite Hload; auto.
        -- rewrite app_nil_r. intros Hin. now apply Hnot in Hin.
      * rewrite app_nil_r. intros Hin. now apply Hnot in Hin.
    + cbn. rewrite app_nil_r. intros Hin. now apply Hnot in Hin.
  - intros D s1' tr0' [= -> -> ->]. split.
    + intros Hacc. rewrite Hacc. cbn. rewrite app_nil_r. split; [reflexivity |].
      rewrite List.Forall_forall in *. intros e He. specialize (Hno e He).
      destruct e; simpl in *; congruence.
    + intros Hacc Hfile e s2 Hload. rewrite Hacc, Hfile. cbn.
      rewrite Hload. split; reflexivity.
Qed.
End Resolution.

Section Orchestration.
Context {S : Type} (h : Handler S).

(** The blob step of upload and its compensation: one call for a file, none
    for an inline JSON document. *)
Definition save_blob (doc : Document.t) (content : Bytes) : Prog (option error) :=
  if Document.IsFile doc then call (fileStorage_SaveFile doc content) else mret None.

Definition delete_blob (doc : Document.t) : Prog (option error) :=
  if Document.IsFile doc then call (fileStorage_DeleteFile doc) else mret None.

Lemma run_delete_blob (doc : Document.t) (s : S) :
  run h (delete_blob doc) s =
  if Document.IsFile doc
  then (fst (h _ (fileStorage_DeleteFile doc) s),
        snd (h _ (fileStorage_DeleteFile doc) s),
        [EvDeleteFile doc (fst (h _ (fileStorage_DeleteFile doc) s))])
  else (None, s, []).
Proof.
  unfold delete_blob. destruct (Document.IsFile doc); [apply run_call | reflexivity].
Qed.

Ltac reduce := cbn beta iota zeta; cbn [negb is_nil length Nat.ltb Nat.leb].
Ltac op_step H := rewrite run_call_bind, H; reduce.

(** C6. Upload under partial failure.  (1) A failing blob save of a file
    ends the upload with [ErrInternal] after three calls: no repository or
    cache call is made.  (2) A failing metadata write is followed by the
    blob delete (for a file, by nothing otherwise) and [ErrInternal],
    whatever the delete answers.  (3) With a non-empty [Grants], a failing
    grant write is followed by the metadata delete, then the blob delete
    (for a file), and [ErrInternal], whatever the two deletes answer. *)
Theorem UploadDocument_rollback (R : User.t) (doc : Document.t) (content : Bytes)
    (s s1 s2 : S) (id : string) (now : Time) :
  h _ uuid_NewV4 s = (id, s1) ->
  h _ time_Now s1 = (now, s2) ->
  let doc' := Document.stamp doc id now in
  let internal := ("", Some (Errorf (pkg +:+ "UploadDocument") ErrInternal)) in
  (Document.IsFile doc = true ->
   forall e s3,
     h _ (fileStorage_SaveFile doc' content) s2 = (Some e, s3) ->
     run h (UploadDocument R doc content) s
     = (internal, s3, [EvNewV4 id; EvNow now; EvSaveFile doc' content (Some e)])
     /\ Forall (fun ev => is_docRepo ev = false /\ is_cache ev = false)
               (snd (run h (UploadDocument R doc content) s)))
  /\ (forall s3 tr1,
        run h (save_blob doc' content) s2 = (None, s3, tr1) ->
        forall e s4,
          h _ (docRepo_CreateDocument doc') s3 = (Some e, s4) ->
          forall r s5 tr2,
            run h (delete_blob doc') s4 = (r, s5, tr2) ->
            run h (UploadDocument R doc content) s
            = (internal, s5,
               [EvNewV4 id; EvNow now] ++ tr1
               ++ [EvCreateDocument doc' (Some e)] ++ tr2)
            /\ tr2 = if Document.IsFile doc then [EvDeleteFile doc' r] else [])
  /\ (forall s3 tr1,
        run h (save_blob doc' content) s2 = (None, s3, tr1) ->
        forall s4,
          h _ (docRepo_CreateDocument doc') s3 = (None, s4) ->
          Document.Grants doc <> [] ->
          forall e s5,
            h _ (docRepo_GrantAccess id (Document.Grants doc)) s4 = (Some e, s5) ->
            forall r1 s6,
              h _ (docRepo_Delete id) s5 = (r1, s6) ->
              forall r2 s7 tr2,
                run h (delete_blob doc') s6 = (r2, s7, tr2) ->
                run h (UploadDocument R doc content) s
                = (internal, s7,
                   [EvNewV4 id; EvNow now] ++ tr1
                   ++ [EvCreateDocument doc' None;
                       EvGrantAccess id (Document.Grants doc) (Some e);
                       EvDelete id r1] ++ tr2)
                /\ tr2 = if Document.IsFile doc then [EvDeleteFile doc' r2] else []).
Proof.
  intros Hid Hnow doc' internal.
  assert (HF : Document.IsFile doc' = Document.IsFile doc) by reflexivity.
  assert (HG : Document.Grants doc' = Document.Grants doc) by reflexivity.
  assert (HI : Document.ID doc' = id) by reflexivity.
  split; [| split].
  - intros Hfile e s3 Hsave.
    unfold UploadDocument. reduce. op_step Hid. op_step Hnow. fold doc'.
    rewrite HF, Hfile. op_step Hsave. rewrite run_ret.
    split; [reflexivity | repeat constructor].
  - intros s3 tr1 Hsave e s4 Hcreate r s5 tr2 Hdel. split.
    + unfold UploadDocument. reduce. op_step Hid. op_step Hnow. fold doc'.
      fold (save_blob doc' content). fold (delete_blob doc').
      rewrite run_bind, Hsave. reduce. op_step Hcreate.
      rewrite run_bind, Hdel. reduce. rewrite run_ret, app_nil_r. reflexivity.
    + rewrite run_delete_blob, HF in Hdel.
      destruct (Document.IsFile doc); injection Hdel as <- <- <-; reflexivity.
  - intros s3 tr1 Hsave s4 Hcreate Hgrants e s5 Hgrant r1 s6 Hdelete r2 s7 tr2 Hdel.
    split.
    + unfold UploadDocument. reduce. op_step Hid. op_step Hnow. fold doc'.
      fold (save_blob doc' content). fold (delete_blob doc').
      rewrite run_bind, Hsave. reduce. op_step Hcreate.
      rewrite HG, HI.
      destruct (Document.Grants doc) as [| g gs] eqn:Hg; [congruence |].
      reduce. op_step Hgrant. op_step Hdelete.
      rewrite run_bind, Hdel. reduce. rewrite run_ret, app_nil_r. reflexivity.
    + rewrite run_delete_blob, HF in Hdel.
      destruct (Document.IsFile doc); injection Hdel as <- <- <-; reflexivity.
Qed.
End Orchestration.

Section Deletion.
Context (json_Marshal_doc : Document.t -> result string)
        (json_Unmarshal_doc : string -> result Document.t).
Context {S : Type} (h : Handler S).

Abbreviation resolve := (documentMetaByID json_Marshal_doc json_Unmarshal_doc).
Abbreviation delete_doc := (DeleteDocument json_Marshal_doc json_Unmarshal_doc).

(** [docRepo.Delete] answered nil or a not-found error: the delete goes on. *)
Definition metadata_gone (r : option error) : bool :=
  match r with
  | None => true
  | Some e => errors_Is e ErrDocumentNotFound
  end.

(** What the blob delete's answer becomes for the caller. *)
Definition blob_outcome (r : option error) : option error :=
  match r with
  | None => None
  | Some e =>
      if errors_Is e ErrDocumentNotFound
      then Some (Sentinel ErrDocumentNotFound)
      else Some (Sentinel ErrInternal)
  end.

Ltac reduce := cbn beta iota zeta; cbn [negb is_nil].
Ltac op_step H := rewrite run_call_bind, H; reduce.

(** C8. Delete by a requester with delete access, after the document [D]
    was resolved.  A metadata delete that fails with anything but not-found
    ends the operation with [ErrInternal]; nothing is called afterwards, so
    the blob stays.  Otherwise (nil or not-found) the cache keys are
    deleted and, for a file, the blob: its not-found error comes back as
    [ErrDocumentNotFound], any other as [ErrInternal].  The result is nil
    exactly when the metadata delete was nil or not-found and the blob
    delete, when there is one, was nil. *)
Theorem DeleteDocument_outcomes (docID : string) (R : User.t) (D : Document.t)
    (s s1 s2 : S) (tr0 : list Event) (mr : option error) :
  run h (resolve docID) s = (Ok D, s1, tr0) ->
  hasDeleteAccess D (User.ID R) = true ->
  h _ (docRepo_Delete docID) s1 = (mr, s2) ->
  let keys := [Document.ID D; userDocsKey (User.Login R)] in
  (metadata_gone mr = false ->
   run h (delete_doc docID R) s
   = (Some (Sentinel ErrInternal), s2, tr0 ++ [EvDelete docID mr])
   /\ Forall (fun e => is_fileStorage e = false) (tr0 ++ [EvDelete docID mr]))
  /\ (metadata_gone mr = true ->
      forall cr s3,
        h _ (cache_Del keys) s2 = (cr, s3) ->
        (Document.IsFile D = false ->
         run h (delete_doc docID R) s
         = (None, s3, tr0 ++ [EvDelete docID mr; EvCacheDel keys cr]))
        /\ (Document.IsFile D = true ->
            forall fr s4,
              h _ (fileStorage_DeleteFile D) s3 = (fr, s4) ->
              run h (delete_doc docID R) s
              = (blob_outcome fr, s4,
                 tr0 ++ [EvDelete docID mr; EvCacheDel keys cr; EvDeleteFile D fr])))
  /\ (fst (fst (run h (delete_doc docID R) s)) = None <->
      metadata_gone mr = true
      /\ (Document.IsFile D = true ->
          fst (h _ (fileStorage_DeleteFile D) (snd (h _ (cache_Del keys) s2))) = None)).
Proof.
  intros Hres Hacc Hdel keys.
  assert (Hrun : run h (delete_doc docID R) s =
    let '(a, s', tr) :=
      run h (err ← call (docRepo_Delete docID);
             if match err with
                | Some e => negb (errors_Is e ErrDocumentNotFound)
                | None => false
                end
             then mret (Some (Sentinel ErrInternal)) else
             _ ← call (cache_Del keys);
             if Document.IsFile D then
               err ← call (fileStorage_DeleteFile D);
               match err with
               | Some e =>
                   if errors_Is e ErrDocumentNotFound
                   then mret (Some (Sentinel ErrDocumentNotFound))
                   else mret (Some (Sentinel ErrInternal))
               | None => mret None
               end
             else mret None) s1 in
    (a, s', tr0 ++ tr)).
  { unfold DeleteDocument. rewrite run_bind, Hres. rewrite Hacc. reflexivity. }
  rewrite Hrun. clear Hrun. op_step Hdel.
  assert (Hgone : match mr with
                  | Some e => negb (errors_Is e ErrDocumentNotFound)
                  | None => false
                  end = negb (metadata_gone mr)).
  { destruct mr; reflexivity. }
  rewrite Hgone. clear Hgone.
  split; [| split].
  - intros Hm. rewrite Hm. cbn [negb]. rewrite run_ret. split; [reflexivity |].
    apply Forall_app. split.
    + pose proof (documentMetaByID_no_fileStorage json_Marshal_doc
                    json_Unmarshal_doc h docID s) as Hno.
      rewrite Hres in Hno. exact Hno.
    + repeat constructor.
  - intros Hm cr s3 Hcache. rewrite Hm. cbn [negb]. op_step Hcache. split.
    + intros ->. rewrite run_ret. reflexivity.
    + intros -> fr s4 Hfile. op_step Hfile.
      destruct fr as [e |]; cbn [blob_outcome].
      * destruct (errors_Is e ErrDocumentNotFound); rewrite run_ret; reflexivity.
      * rewrite run_ret. reflexivity.
  - destruct (metadata_gone mr); cbn [negb].
    + rewrite run_call_bind.
      destruct (h _ (cache_Del keys) s2) as [cr s3]. reduce. cbn [snd].
      destruct (Document.IsFile D).
      * rewrite run_call_bind.
        destruct (h _ (fileStorage_DeleteFile D) s3) as [fr s4]. reduce.
        destruct fr as [e |]; cbn [fst].
        -- destruct (errors_Is e ErrDocumentNotFound); rewrite run_ret; cbn [fst];
             (split; [discriminate | intros [_ H]; specialize (H eq_refl); discriminate]).
        -- rewrite run_ret. cbn [fst]. tauto.
      * rewrite run_ret. cbn [fst]. split; [| reflexivity].
        intros _. split; [reflexivity | discriminate].
    + rewrite run_ret. cbn [fst]. split; [discriminate | intros [H _]; discriminate].
Qed.
End Deletion.

(** ** The list cache key *)

Section CacheKey.

(** Number of [':'] characters of a string. *)
Fixpoint colons (s : string) : nat :=
  match s with
  | EmptyString => 0
  | String c s' => (if Ascii.eqb c ":" then 1 else 0) + colons s'
  end.

Lemma colons_app (s t : string) : colons (s +:+ t) = colons s + colons t.
Proof.
  induction s as [| c s IH]; simpl; [reflexivity |]. rewrite IH. lia.
Qed.

Lemma pretty_N_char_not_colon (n : N) : Ascii.eqb (pretty_N_char n) ":" = false.
Proof. unfold pretty_N_char. repeat case_match; reflexivity. Qed.

Lemma colons_pretty_N_go (x : N) (s : string) :
  colons (pretty_N_go x s) = colons s.
Proof.
  revert s. induction (N.lt_wf_0 x) as [x _ IH]. intros s.
  destruct (decide (x = 0%N)) as [-> | Hx].
  - rewrite pretty_N_go_0. reflexivity.
  - rewrite pretty_N_go_step by lia.
    rewrite IH by (apply N.div_lt; lia).
    cbn [colons]. rewrite pretty_N_char_not_colon. reflexivity.
Qed.

Lemma colons_pretty_Z (z : Z) : colons (pretty z) = 0.
Proof.
  assert (HN : forall n : N, colons (pretty n) = 0).
  { intros n. unfold pretty, pretty_N. case_decide; [reflexivity |].
    apply colons_pretty_N_go. }
  destruct z as [| p | p]; [reflexivity | apply (HN (Npos p)) |].
  change (pretty (Z.neg p)) with ("-" +:+ pretty (Npos p)).
  rewrite colons_app, HN. reflexivity.
Qed.

(** Cutting at the first colon of a text whose head has none. *)
Lemma cut_at_colon (a a' r r' : string) :
  colons a = 0 -> colons a' = 0 ->
  a +:+ ":" +:+ r = a' +:+ ":" +:+ r' -> a = a' /\ r = r'.
Proof.
  revert a'. induction a as [| c a IH]; intros [| c' a'] Ha Ha' Heq;
    cbn [String.append colons] in *.
  - injection Heq as Heq. auto.
  - injection Heq as Hc _. subst c'. discriminate Ha'.
  - injection Heq as Hc _. subst c. discriminate Ha.
  - injection Heq as Hc Heq. subst c'.
    destruct (Ascii.eqb c ":"); [discriminate |].
    destruct (IH a' Ha Ha' Heq) as [-> ->]. auto.
Qed.

Lemma listCacheKey_colons (a b : string) (f : DocumentFilter.t) :
  colons (listCacheKey a b f)
  = 5 + colons a + colons b
    + colons (DocumentFilter.Key f) + colons (DocumentFilter.Value f).
Proof.
  unfold listCacheKey. rewrite !colons_app, colons_pretty_Z. simpl. lia.
Qed.

(** The key deleted for a user is shorter in colons than any list key. *)
Lemma userDocsKey_is_no_list_key (g a b : string) (f : DocumentFilter.t) :
  colons g < 4 -> userDocsKey g <> listCacheKey a b f.
Proof.
  intros Hg Heq. apply (f_equal colons) in Heq.
  rewrite listCacheKey_colons in Heq. unfold userDocsKey in Heq.
  rewrite colons_app in Heq. simpl in Heq. lia.
Qed.

(** C5, the part that fails: the arguments
    [("u", "o", {name, "mime:v", 0})] and [("u", "o:name", {mime, "v", 0})],
    both with a valid filter, differ and give the same key. *)
Lemma listCacheKey_collision :
  ~ (forall a b f a' b' f',
       listCacheKey a b f = listCacheKey a' b' f' -> (a, b, f) = (a', b', f')).
Proof.
  intros H.
  specialize (H "u" "o" (DocumentFilter.mk "name" "mime:v" 0)
                "u" "o:name" (DocumentFilter.mk "mime" "v" 0) eq_refl).
  discriminate H.
Qed.

(** C5, as the code has it.  The key is a function of the five arguments,
    and arguments whose four strings hold no [':'] share their key with no
    other arguments at all. *)
Theorem listCacheKey_injective_without_colon
    (a b : string) (f : DocumentFilter.t) (a' b' : string) (f' : DocumentFilter.t) :
  ((a, b, f) = (a', b', f') -> listCacheKey a b f = listCacheKey a' b' f')
  /\ (colons a = 0 -> colons b = 0 ->
      colons (DocumentFilter.Key f) = 0 -> colons (DocumentFilter.Value f) = 0 ->
      listCacheKey a b f = listCacheKey a' b' f' -> (a, b, f) = (a', b', f')).
Proof.
  split; [intros [= -> -> ->]; reflexivity |].
  intros Ha Hb Hk Hv Heq.
  pose proof (f_equal colons Heq) as Hc. rewrite !listCacheKey_colons in Hc.
  assert (colons a' = 0 /\ colons b' = 0
          /\ colons (DocumentFilter.Key f') = 0
          /\ colons (DocumentFilter.Value f') = 0) as (Ha' & Hb' & Hk' & Hv') by lia.
  unfold listCacheKey in Heq. simpl in Heq. injection Heq as Heq.
  apply cut_at_colon in Heq as [-> Heq]; [| assumption ..].
  apply cut_at_colon in Heq as [-> Heq]; [| assumption ..].
  apply cut_at_colon in Heq as [Hkey Heq]; [| assumption ..].
  apply cut_at_colon in Heq as [Hval Heq]; [| assumption ..].
  apply (inj pretty) in Heq.
  destruct f, f'; simpl in *; subst. reflexivity.
Qed.

End CacheKey.

(** [ListDocuments] starts by reading the cache under [listCacheKey]. *)
Lemma ListDocuments_first_call {S} (h : Handler S)
    (json_Marshal_docs : list Document.t -> result string)
    (json_Unmarshal_docs : string -> result (list Document.t))
    (R : User.t) (login : string) (f : DocumentFilter.t) (s : S) :
  exists r rest,
    snd (run h (ListDocuments json_Marshal_docs json_Unmarshal_docs R login f) s)
    = EvCacheGet (listCacheKey (User.Login R) login f) r :: rest.
Proof.
  unfold ListDocuments. cbn beta iota zeta. rewrite run_call_bind.
  destruct (h _ (cache_Get (listCacheKey (User.Login R) login f)) s) as [r s1].
  destruct (run h _ s1) as [[a s2] tr]. cbn. eauto.
Qed.

(** ** Reading back what resolution cached *)

Section ReadBack.
Context (json_Marshal_doc : Document.t -> result string)
        (json_Unmarshal_doc : string -> result Document.t).

Lemma world_cache_Set_nil (k v : string) (w w' : World) :
  world _ (cache_Set k v) w = (None, w') -> redis w' !! k = Some v.
Proof.
  unfold world. destruct (faults w !! calls w); cbn; intros [= <-]; cbn.
  apply lookup_insert_eq.
Qed.

Lemma world_cache_Get_up (k : string) (w : World) :
  faults w !! calls w = None ->
  world _ (cache_Get k) w = ((cachedocsrepo.Get (redis w) k, None), tick w).
Proof. unfold world. intros ->. reflexivity. Qed.

(** A document that [encoding/json] gives back from its own encoding:
    [json.Marshal] writes a text, never empty, that [json.Unmarshal] reads
    as the same document.  The library is not among the sources; this is
    what is taken of it, for the document at hand. *)
Definition json_round_trips (d : Document.t) : Prop :=
  forall j, json_Marshal_doc d = Ok j -> j <> "" /\ json_Unmarshal_doc j = Ok d.

(** [jsonToDoc] undoes [docToJSON] on such a document. *)
Lemma docToJSON_jsonToDoc (d : Document.t) (j : string) :
  json_round_trips d ->
  docToJSON json_Marshal_doc d = Ok j ->
  jsonToDoc json_Unmarshal_doc j = Ok d.
Proof.
  intros Hrt Hj. unfold docToJSON in Hj.
  destruct (json_Marshal_doc d) as [j' |] eqn:Hm; [| discriminate].
  injection Hj as ->. destruct (Hrt j Hm) as [Hne Hu].
  unfold jsonToDoc. destruct j as [| c j]; [congruence |].
  cbn [String.length Nat.eqb]. rewrite Hu. reflexivity.
Qed.

(** What a first resolution that went to the repository wrote to the
    cache: the text [docToJSON] made of the document it returned. *)
Lemma documentMetaByID_wrote (docID : string) (w w1 : World)
    (d : Document.t) (j : string) (r0 : string * option error) :
  run world (documentMetaByID json_Marshal_doc json_Unmarshal_doc docID) w
  = (Ok d, w1,
     [EvCacheGet docID r0; EvDocumentByID docID (Ok d); EvCacheSet docID j None]) ->
  docToJSON json_Marshal_doc d = Ok j /\ redis w1 !! docID = Some j.
Proof.
  intros Hfirst. unfold documentMetaByID in Hfirst.
  cbn [run mbind Prog_bind bind call] in Hfirst.
  destruct (world _ (cache_Get docID) w) as [[cj ce] wa].
  destruct (negb (is_nil ce) || String.eqb cj "").
  - cbn [run mbind Prog_bind bind call] in Hfirst.
    destruct (world _ (docRepo_DocumentByID docID) wa) as [[d' | e] wb].
    + destruct (docToJSON json_Marshal_doc d') as [j' | e'] eqn:Hj.
      * cbn [run mbind Prog_bind bind call] in Hfirst.
        destruct (world _ (cache_Set docID j') wb) as [x wc] eqn:Hset.
        cbn [run mret Prog_ret event_of] in Hfirst. simplify_eq.
        split; [assumption | eapply world_cache_Set_nil, Hset].
      * discriminate Hfirst.
    + destruct (errors_Is e ErrDocumentNotFound); discriminate Hfirst.
  - destruct (jsonToDoc json_Unmarshal_doc cj); discriminate Hfirst.
Qed.

(** C9. Over the in-memory collaborators: when a first resolution missed the
    cache, got [d] from the repository and wrote a text to the cache without
    error, that text is the serialisation [docToJSON] made of [d]; for a
    [d] that [encoding/json] gives back from its encoding, [jsonToDoc]
    reads the text as [d], and a resolution of the same ID in any later
    state with that cache content whose cache read goes through returns [d]
    again from the cache read alone; the repository's tables and the faults
    planned for later calls are arbitrary. *)
Theorem documentMetaByID_reads_back (docID : string) (w w1 : World)
    (d : Document.t) (j : string) (r0 : string * option error) :
  run world (documentMetaByID json_Marshal_doc json_Unmarshal_doc docID) w
  = (Ok d, w1,
     [EvCacheGet docID r0; EvDocumentByID docID (Ok d); EvCacheSet docID j None]) ->
  json_round_trips d ->
  docToJSON json_Marshal_doc d = Ok j
  /\ jsonToDoc json_Unmarshal_doc j = Ok d
  /\ forall w2 : World,
       redis w2 = redis w1 ->
       faults w2 !! calls w2 = None ->
       run world (documentMetaByID json_Marshal_doc json_Unmarshal_doc docID) w2
       = (Ok d, tick w2, [EvCacheGet docID (j, None)]).
Proof.
  intros Hfirst Hrt.
  destruct (documentMetaByID_wrote _ _ _ _ _ _ Hfirst) as [Hj Hcached].
  pose proof (docToJSON_jsonToDoc d j Hrt Hj) as Hback.
  split; [exact Hj |]. split; [exact Hback |].
  intros w2 Hredis Hup.
  unfold documentMetaByID. cbn [run mbind Prog_bind bind call].
  rewrite (world_cache_Get_up docID w2 Hup). unfold cachedocsrepo.Get.
  rewrite Hredis, Hcached. cbn [default from_option id event_of is_nil negb orb].
  assert (Hne : j <> "") by (intros ->; discriminate Hback).
  apply String.eqb_neq in Hne. rewrite Hne, Hback. reflexivity.
Qed.
End ReadBack.

(** ** Visibility at the repository *)

Section StoreVisibility.
Import documentrepo.

Lemma In_order_by (db : DB) (y : DocumentRow) (l : list DocumentRow) :
  In y (order_by db l) -> In y l.
Proof. apply Permutation_in, order_rows_perm. Qed.

Lemma In_limit (f : DocumentFilter.t) (y : DocumentRow) (l : list DocumentRow) :
  In y (limit f l) -> In y l.
Proof.
  unfold limit. destruct (Z.ltb 0 (DocumentFilter.Limit f)); [| tauto].
  intros H. rewrite <- (firstn_skipn (Z.to_nat (DocumentFilter.Limit f)) l).
  apply in_or_app. now left.
Qed.

(** A joined row with a grant carries a grant row of that document. *)
Lemma joined_grant (db : DB) (d : DocumentRow) (u : User.t) (g : GrantRow) :
  In (d, u, Some g) (joined db) ->
  In g (grants db) /\ document_id g = id d.
Proof.
  unfold joined. rewrite in_flat_map. intros (d0 & _ & H).
  rewrite in_flat_map in H. destruct H as (u0 & _ & H).
  destruct (List.filter (fun g => String.eqb (document_id g) (id d0)) (grants db))
    as [| g0 gs] eqn:Hf.
  - destruct H as [[=] | []].
  - rewrite in_map_iff in H. destruct H as (g1 & [= <- <- <-] & Hin).
    rewrite <- Hf in Hin. apply filter_In in Hin as [Hin Heq].
    apply String.eqb_eq in Heq. auto.
Qed.

Lemma getGrants_In (db : DB) (g : GrantRow) (u : User.t) :
  In g (grants db) -> In u (users db) -> user_id g = User.ID u ->
  In (User.Login u) (getGrants db (document_id g)).
Proof.
  intros Hg Hu Hid. unfold getGrants. rewrite in_flat_map. exists g.
  split; [assumption |]. rewrite in_flat_map. exists u.
  split; [assumption |]. rewrite Hid, !String.eqb_refl. now left.
Qed.

(** Every document of the result comes from a joined row that passed the
    [WHERE] clause. *)
Lemma FilteredDocuments_row (db : DB) (login requesterID : string)
    (f : DocumentFilter.t) (doc : Document.t) :
  In doc (FilteredDocuments db login requesterID f) ->
  exists d u g,
    doc = toDocument db d
    /\ In (d, u, g) (joined db)
    /\ where_clause login requesterID f (d, u, g) = true.
Proof.
  unfold FilteredDocuments. rewrite in_map_iff. intros (d & <- & Hin).
  apply In_limit, In_order_by in Hin. rewrite in_map_iff in Hin.
  destruct Hin as ([[d0 u] g] & Hd & Hin). simpl in Hd. subst d0.
  apply filter_In in Hin as [Hin Hw]. eauto 6.
Qed.

(** C3, the part that fails: the query is given the requester's ID only
    and compares it with [grants.user_id].  With bob ([u2]) granted, a
    requester that presents ID [u2] under another login gets the document,
    whose [Grants] lists ["bob"]: the service predicate refuses it. *)
Lemma FilteredDocuments_matches_grants_by_ID :
  ~ (forall (db : DB) (R : User.t) (login : string) (f : DocumentFilter.t),
       Forall (fun doc => hasReadAccess doc (User.ID R) (User.Login R) = true)
              (FilteredDocuments db login (User.ID R) f)).
Proof.
  intros H.
  specialize (H (mkDB samplepg.pg
                      [User.mk "u1" "alice" ""; User.mk "u2" "bob" ""]
                      [mkDocumentRow "d1" "u1" "notes" "text/plain" false false "" "" 0%Z]
                      [mkGrantRow "d1" "u2"])
                (User.mk "u2" "robert" "") "" (DocumentFilter.mk "" "" 0%Z)).
  vm_compute in H. inversion H as [| ? ? Hhd _]. discriminate Hhd.
Qed.

(** C3, as the code has it.  A document the query returns is public, or
    owned by the requester's ID, or has a [grants] row whose [user_id] is
    the requester's ID; for a requester that is a row of [users], each such
    document satisfies [hasReadAccess], the login being found in [Grants]
    through the join with [users] that builds it. *)
Theorem FilteredDocuments_visible_to_registered_requester
    (db : DB) (R : User.t) (login : string) (f : DocumentFilter.t)
    (doc : Document.t) :
  In doc (FilteredDocuments db login (User.ID R) f) ->
  (Document.IsPublic doc = true
   \/ Document.OwnerID doc = User.ID R
   \/ exists g, In g (grants db)
                /\ document_id g = Document.ID doc /\ user_id g = User.ID R)
  /\ (In R (users db) ->
      hasReadAccess doc (User.ID R) (User.Login R) = true).
Proof.
  intros Hin. apply FilteredDocuments_row in Hin as (d & u & g & -> & Hj & Hw).
  unfold where_clause in Hw. rewrite !andb_true_iff in Hw.
  destruct Hw as [[Hvis _] _]. rewrite !orb_true_iff in Hvis.
  assert (Hcases : is_public d = true \/ owner_id d = User.ID R
                   \/ exists g0, g = Some g0 /\ user_id g0 = User.ID R).
  { destruct Hvis as [[Hp | Ho] | Hg].
    - now left.
    - right; left. now apply String.eqb_eq.
    - destruct g as [g0 |]; [| discriminate].
      right; right. exists g0. split; [reflexivity | now apply String.eqb_eq]. }
  clear Hvis. split.
  - destruct Hcases as [Hp | [Ho | (g0 & -> & Hu)]]; cbn; auto.
    right; right. apply joined_grant in Hj as [Hg Hd]. eauto.
  - intros HR. unfold hasReadAccess. rewrite !orb_true_iff.
    destruct Hcases as [Hp | [Ho | (g0 & -> & Hu)]]; cbn.
    + left; now left.
    + left; right. now apply String.eqb_eq.
    + right. apply slices_Contains_In.
      apply joined_grant in Hj as [Hg Hd]. rewrite <- Hd.
      now apply getGrants_In.
Qed.
End StoreVisibility.

(** ** Closed examples *)

Module Examples.
Definition alice : User.t := User.mk "u1" "alice" "$2a$10$alice".
Definition bob : User.t := User.mk "u2" "bob" "$2a$10$bob".
Definition carol : User.t := User.mk "u3" "carol" "$2a$10$carol".

Definition no_filter : DocumentFilter.t := DocumentFilter.mk "" "" 0%Z.

Definition db0 : documentrepo.DB :=
  documentrepo.mkDB samplepg.pg [alice; bob; carol] [] [].

(** Alice's private note, shared with bob. *)
Definition note : Document.t :=
  Document.mk "" "u1" "notes" "application/json" false false "" "{}" ["bob"] 0%Z.

(** The same note with the grant given as bob's user ID, the way the upload
    handler fills [Grants] ([UserIDByLogin] on each name of the request). *)
Definition note_by_id : Document.t :=
  Document.mk "" "u1" "notes" "application/json" false false "" "{}" ["u2"] 0%Z.

(** Alice's report, a file, with a grant. *)
Definition report : Document.t :=
  Document.mk "" "u1" "report.pdf" "application/pdf" true false "" "" ["u2"] 0%Z.

(** Bob listed his documents before: his list is cached. *)
Definition bobs_list_key : string := listCacheKey "bob" "" no_filter.

Definition w_listed : World :=
  mkWorld 0 1700000000%Z {[ bobs_list_key := "[]" ]} db0 ∅ 0 ∅.

(** Empty stores where the call numbered [n] fails. *)
Definition w_failing (n : nat) : World :=
  mkWorld 0 1700000000%Z ∅ db0 ∅ 0 {[ n := Foreign "connection refused" ]}.

(** Stores holding alice's report [d1] (private, granted to bob, with its
    blob) and her inline document [d2]. *)
Definition row1 : documentrepo.DocumentRow :=
  documentrepo.mkDocumentRow "d1" "u1" "report.pdf" "application/pdf"
    true false "" "" 1690000000%Z.
Definition row2 : documentrepo.DocumentRow :=
  documentrepo.mkDocumentRow "d2" "u1" "secret" "application/json"
    false false "" "{}" 1690000001%Z.

Definition db1 : documentrepo.DB :=
  documentrepo.mkDB samplepg.pg [alice; bob; carol] [row1; row2]
    [documentrepo.mkGrantRow "d1" "u2"].

Definition doc1 : Document.t := documentrepo.toDocument db1 row1.
Definition doc2 : Document.t := documentrepo.toDocument db1 row2.

Definition w_stored : World :=
  mkWorld 7 1700000000%Z ∅ db1 {[ "d1" := "%PDF-1.7" ]} 0 ∅.

(** The same, with the plan that call [n] fails. *)
Definition w_stored_failing (n : nat) (e : error) : World :=
  mkWorld 7 1700000000%Z ∅ db1 {[ "d1" := "%PDF-1.7" ]} 0 {[ n := e ]}.

(** The blob of [d1] is missing. *)
Definition w_blobless : World := mkWorld 7 1700000000%Z ∅ db1 ∅ 0 ∅.

(** Alice's draft [d3], a file nobody was granted, whose blob is missing. *)
Definition row3 : documentrepo.DocumentRow :=
  documentrepo.mkDocumentRow "d3" "u1" "draft.pdf" "application/pdf"
    true false "" "" 1690000002%Z.

Definition db3 : documentrepo.DB :=
  documentrepo.mkDB samplepg.pg [alice; bob; carol] [row3] [].

Definition doc3 : Document.t := documentrepo.toDocument db3 row3.

Definition w_lost : World := mkWorld 7 1700000000%Z ∅ db3 ∅ 0 ∅.

(** A cache entry for [d1] that is not JSON. *)
Definition w_corrupt : World :=
  mkWorld 7 1700000000%Z {[ "d1" := "not json" ]} db1 ∅ 0 ∅.

Definition Marshal : Document.t -> result string := samplejson.Marshal_doc.
Definition Unmarshal : string -> result Document.t :=
  samplejson.Unmarshal_doc [doc1; doc2].

Definition MarshalDocs : list Document.t -> result string :=
  samplejson.Marshal_docs.
Definition UnmarshalDocs : string -> result (list Document.t) :=
  samplejson.Unmarshal_docs [[]].

(** The state after one call. *)
Definition after {X} (op : Op X) (w : World) : World := snd (world X op w).
End Examples.

Import Examples.

(** C4 on concrete runs.  Bob's list is cached under the key
    [ListDocuments] uses.  Alice uploads a note whose [Grants] names bob.
    Named by login, the grant write is refused by the database (no user has
    the ID ["bob"]) and the upload is undone.  Named by user ID, the way the
    upload handler fills [Grants], every store call succeeds, and the
    invalidation deletes ["docs:u2"] and ["docs:alice"].  Bob's cached list
    is still there afterwards: his next [ListDocuments] answers the old,
    empty list from the cache although the repository query now returns the
    note. *)
Theorem UploadDocument_leaves_grantee_list_cached :
  bobs_list_key = "docs:bob::::0"
  /\ redis w_listed !! bobs_list_key = Some "[]"
  /\ (let '(res, w', tr) := run world (UploadDocument alice note "") w_listed in
      res = ("", Some (Errorf "documentService/UploadDocument" ErrInternal))
      /\ tr = [EvNewV4 "uuid-0"; EvNow 1700000000%Z;
               EvCreateDocument (Document.stamp note "uuid-0" 1700000000%Z) None;
               EvGrantAccess "uuid-0" ["bob"]
                 (Some (Errorf "documentRepo/GrantAccess"
                          documentrepo.foreign_key_violation));
               EvDelete "uuid-0" None]
      /\ redis w' !! bobs_list_key = Some "[]")
  /\ (let '(res, w', tr) := run world (UploadDocument alice note_by_id "") w_listed in
      res = ("uuid-0", None)
      /\ tr = [EvNewV4 "uuid-0"; EvNow 1700000000%Z;
               EvCreateDocument (Document.stamp note_by_id "uuid-0" 1700000000%Z) None;
               EvGrantAccess "uuid-0" ["u2"] None;
               EvCacheDel [userDocsKey "u2"] None;
               EvCacheDel [userDocsKey "alice"] None]
      /\ redis w' !! bobs_list_key = Some "[]"
      /\ map Document.ID
             (documentrepo.FilteredDocuments (db w') "" (User.ID bob) no_filter)
         = ["uuid-0"]
      /\ (let '(docs, _, tr') :=
            run world (ListDocuments MarshalDocs UnmarshalDocs bob "" no_filter) w' in
          docs = Ok [] /\ tr' = [EvCacheGet bobs_list_key ("[]", None)])).
Proof. vm_compute. repeat split; reflexivity. Qed.

Lemma owner_only_delete_and_grant_witness :
  Document.OwnerID note <> User.ID bob
  /\ In (User.Login bob) (Document.Grants note)
  /\ hasReadAccess note (User.ID bob) (User.Login bob) = true
  /\ hasDeleteAccess note (User.ID bob) = false
  /\ hasGrantAccess note (User.ID bob) = false.
Proof.
  assert (Hne : Document.OwnerID note <> User.ID bob) by discriminate.
  assert (Hin : In (User.Login bob) (Document.Grants note)) by (simpl; auto).
  destruct (owner_only_delete_and_grant note bob) as (_ & _ & H).
  destruct (H Hne) as (_ & _ & H'). destruct (H' Hin) as (Hr & Hd & Hg).
  exact (conj Hne (conj Hin (conj Hr (conj Hd Hg)))).
Defined.

Lemma FilteredDocuments_visible_to_registered_requester_witness :
  In doc1 (documentrepo.FilteredDocuments db1 "" (User.ID bob) no_filter)
  /\ In bob (documentrepo.users db1)
  /\ hasReadAccess doc1 (User.ID bob) (User.Login bob) = true.
Proof.
  assert (Hin : In doc1 (documentrepo.FilteredDocuments db1 "" (User.ID bob) no_filter))
    by (vm_compute; auto).
  assert (Hreg : In bob (documentrepo.users db1)) by (simpl; auto).
  exact (conj Hin (conj Hreg
    (proj2 (FilteredDocuments_visible_to_registered_requester
              db1 bob "" no_filter doc1 Hin) Hreg))).
Defined.

Lemma listCacheKey_injective_without_colon_witness :
  listCacheKey "alice" "bob" (DocumentFilter.mk "mime" "text" 10)
  = listCacheKey "alice" "bob" (DocumentFilter.mk "mime" "text" 10)
  /\ ("alice", "bob", DocumentFilter.mk "mime" "text" 10)
     = ("alice", "bob", DocumentFilter.mk "mime" "text" 10).
Proof.
  split; [reflexivity |].
  apply (proj2 (listCacheKey_injective_without_colon
                  "alice" "bob" (DocumentFilter.mk "mime" "text" 10)
                  "alice" "bob" (DocumentFilter.mk "mime" "text" 10)));
    reflexivity.
Defined.

Lemma documentMetaByID_miss_and_corrupt_hit_witness :
  (exists res s3 tr,
     run world (documentMetaByID Marshal Unmarshal "d404") w_stored
     = (res, s3,
        EvCacheGet "d404" ("", None)
        :: EvDocumentByID "d404"
             (Err (Errorf "documentRepo/DocumentByID" ErrDocumentNotFound))
        :: tr)
     /\ tr = [] /\ s3 = tick (tick w_stored)
     /\ res = Err (Errorf "documentService/documentMetaByID" ErrDocumentNotFound))
  /\ run world (documentMetaByID Marshal Unmarshal "d1") w_corrupt
     = (Err (Sentinel ErrInternal), tick w_corrupt,
        [EvCacheGet "d1" ("not json", None)]).
Proof.
  split.
  - exact (proj1 (documentMetaByID_miss_and_corrupt_hit Marshal Unmarshal world
                    "d404" w_stored (tick w_stored) "" None eq_refl)
                 (or_intror eq_refl)
                 (Err (Errorf "documentRepo/DocumentByID" ErrDocumentNotFound))
                 (tick (tick w_stored)) eq_refl).
  - refine (proj2 (documentMetaByID_miss_and_corrupt_hit Marshal Unmarshal world
                     "d1" w_corrupt (tick w_corrupt) "not json" None eq_refl)
                  eq_refl _ (Foreign "invalid character") eq_refl).
    discriminate.
Defined.

(** The outcome of resolving a document in the example stores. *)
Definition resolved_as (docID : string) (w : World)
  : result Document.t * World * list Event :=
  run world (documentMetaByID Marshal Unmarshal docID) w.

Definition resolved (w : World) : result Document.t * World * list Event :=
  resolved_as "d1" w.

Lemma DocumentByID_guards_LoadFile_witness :
  hasReadAccess doc1 (User.ID carol) (User.Login carol) = false
  /\ (run world (DocumentByID Marshal Unmarshal "d1" carol) w_stored
      = (Err (Sentinel ErrForbidden), snd (fst (resolved w_stored)),
         snd (resolved w_stored))
      /\ Forall (fun e => is_LoadFile e = false) (snd (resolved w_stored)))
  /\ (run world (DocumentByID Marshal Unmarshal "d1" bob) w_blobless
      = (Err (Sentinel ErrInternal), tick (snd (fst (resolved w_blobless))),
         snd (resolved w_blobless)
         ++ [EvLoadFile doc1 (Err (Sentinel ErrDocumentNotFound))])
      /\ errors_Is (Sentinel ErrInternal) ErrDocumentNotFound = false)
  /\ (exists s1 tr0,
        run world (documentMetaByID Marshal Unmarshal "d1") w_stored = (Ok doc1, s1, tr0)
        /\ hasReadAccess doc1 (User.ID bob) (User.Login bob) = true
        /\ Document.IsFile doc1 = true
        /\ fst (world _ (fileStorage_LoadFile doc1) s1) = Ok "%PDF-1.7"
        /\ snd (run world (DocumentByID Marshal Unmarshal "d1" bob) w_stored)
           = tr0 ++ [EvLoadFile doc1 (Ok "%PDF-1.7")]).
Proof.
  split; [reflexivity |]. split; [| split].
  - exact (proj1 (proj2 (DocumentByID_guards_LoadFile Marshal Unmarshal world
                           "d1" carol w_stored)
                        doc1 _ _ (eq_refl (resolved w_stored)))
                 eq_refl).
  - refine (proj2 (proj2 (DocumentByID_guards_LoadFile Marshal Unmarshal world
                            "d1" bob w_blobless)
                         doc1 _ _ (eq_refl (resolved w_blobless)))
                  eq_refl eq_refl (Sentinel ErrDocumentNotFound) _ _).
    vm_compute. reflexivity.
  - apply (proj1 (DocumentByID_guards_LoadFile Marshal Unmarshal world
                    "d1" bob w_stored)).
    vm_compute. auto 10.
Defined.

Lemma DeleteDocument_outcomes_witness :
  hasDeleteAccess doc2 (User.ID alice) = true
  /\ fst (fst (run world (DeleteDocument Marshal Unmarshal "d2" alice)
                  (w_stored_failing 3 (Foreign "connection refused"))))
     = Some (Sentinel ErrInternal)
  /\ fst (fst (run world (DeleteDocument Marshal Unmarshal "d2" alice)
                  (w_stored_failing 3 (Sentinel ErrDocumentNotFound))))
     = None
  /\ fst (fst (run world (DeleteDocument Marshal Unmarshal "d3" alice) w_lost))
     = Some (Sentinel ErrDocumentNotFound).
Proof.
  split; [reflexivity |]. split; [| split].
  - set (w := w_stored_failing 3 (Foreign "connection refused")).
    pose proof (DeleteDocument_outcomes Marshal Unmarshal world "d2" alice doc2
                  w (snd (fst (resolved_as "d2" w)))
                  (after (docRepo_Delete "d2") (snd (fst (resolved_as "d2" w))))
                  (snd (resolved_as "d2" w))
                  (Some (Errorf "documentRepo/Delete" (Foreign "connection refused")))
                  eq_refl eq_refl eq_refl) as (Hfail & _ & _).
    destruct (Hfail eq_refl) as [Hrun _]. rewrite Hrun. reflexivity.
  - set (w := w_stored_failing 3 (Sentinel ErrDocumentNotFound)).
    pose proof (DeleteDocument_outcomes Marshal Unmarshal world "d2" alice doc2
                  w (snd (fst (resolved_as "d2" w)))
                  (after (docRepo_Delete "d2") (snd (fst (resolved_as "d2" w))))
                  (snd (resolved_as "d2" w))
                  (Some (Errorf "documentRepo/Delete" (Sentinel ErrDocumentNotFound)))
                  eq_refl eq_refl eq_refl) as (_ & Hgone & _).
    destruct (Hgone eq_refl None _ eq_refl) as [Hrun _].
    rewrite (Hrun eq_refl). reflexivity.
  - set (w := w_lost).
    pose proof (DeleteDocument_outcomes Marshal Unmarshal world "d3" alice doc3
                  w (snd (fst (resolved_as "d3" w)))
                  (after (docRepo_Delete "d3") (snd (fst (resolved_as "d3" w))))
                  (snd (resolved_as "d3" w)) None
                  eq_refl eq_refl eq_refl) as (_ & Hgone & _).
    destruct (Hgone eq_refl None _ eq_refl) as [_ Hrun].
    rewrite (Hrun eq_refl (Some (Sentinel ErrDocumentNotFound)) _ eq_refl).
    reflexivity.
Defined.

(** [report] as upload stamps it in the example stores. *)
Definition report' : Document.t := Document.stamp report "uuid-0" 1700000000%Z.

Definition refused : error := Foreign "connection refused".

Lemma UploadDocument_rollback_witness :
  run world (UploadDocument alice report "%PDF-1.7") (w_failing 2)
  = (("", Some (Errorf "documentService/UploadDocument" ErrInternal)),
     snd (fst (run world (UploadDocument alice report "%PDF-1.7") (w_failing 2))),
     [EvNewV4 "uuid-0"; EvNow 1700000000%Z;
      EvSaveFile report' "%PDF-1.7" (Some refused)])
  /\ (fst (fst (run world (UploadDocument alice report "%PDF-1.7") (w_failing 3)))
      = ("", Some (Errorf "documentService/UploadDocument" ErrInternal))
      /\ snd (run world (UploadDocument alice report "%PDF-1.7") (w_failing 3))
         = [EvNewV4 "uuid-0"; EvNow 1700000000%Z;
            EvSaveFile report' "%PDF-1.7" None;
            EvCreateDocument report'
              (Some (Errorf "documentRepo/CreateDocument" refused));
            EvDeleteFile report' None])
  /\ (fst (fst (run world (UploadDocument alice report "%PDF-1.7") (w_failing 4)))
      = ("", Some (Errorf "documentService/UploadDocument" ErrInternal))
      /\ snd (run world (UploadDocument alice report "%PDF-1.7") (w_failing 4))
         = [EvNewV4 "uuid-0"; EvNow 1700000000%Z;
            EvSaveFile report' "%PDF-1.7" None;
            EvCreateDocument report' None;
            EvGrantAccess "uuid-0" ["u2"]
              (Some (Errorf "documentRepo/GrantAccess" refused));
            EvDelete "uuid-0" None;
            EvDeleteFile report' None]).
Proof.
  split; [| split].
  - set (w := w_failing 2).
    pose proof (UploadDocument_rollback world alice report "%PDF-1.7"
                  w (after uuid_NewV4 w) (after time_Now (after uuid_NewV4 w))
                  "uuid-0" 1700000000%Z eq_refl eq_refl) as (Hsave & _ & _).
    rewrite (proj1 (Hsave eq_refl refused _ eq_refl)). reflexivity.
  - set (w := w_failing 3).
    pose proof (UploadDocument_rollback world alice report "%PDF-1.7"
                  w (after uuid_NewV4 w) (after time_Now (after uuid_NewV4 w))
                  "uuid-0" 1700000000%Z eq_refl eq_refl) as (_ & Hmeta & _).
    set (s2 := after time_Now (after uuid_NewV4 w)) in *.
    set (s3 := after (fileStorage_SaveFile report' "%PDF-1.7") s2).
    set (s4 := after (docRepo_CreateDocument report') s3).
    destruct (Hmeta s3 [EvSaveFile report' "%PDF-1.7" None] eq_refl
                (Errorf "documentRepo/CreateDocument" refused) s4 eq_refl
                None (after (fileStorage_DeleteFile report') s4)
                [EvDeleteFile report' None] eq_refl) as [Hrun _].
    rewrite Hrun. split; reflexivity.
  - set (w := w_failing 4).
    pose proof (UploadDocument_rollback world alice report "%PDF-1.7"
                  w (after uuid_NewV4 w) (after time_Now (after uuid_NewV4 w))
                  "uuid-0" 1700000000%Z eq_refl eq_refl) as (_ & _ & Hgrant).
    set (s2 := after time_Now (after uuid_NewV4 w)) in *.
    set (s3 := after (fileStorage_SaveFile report' "%PDF-1.7") s2).
    set (s4 := after (docRepo_CreateDocument report') s3).
    set (s5 := after (docRepo_GrantAccess "uuid-0" ["u2"]) s4).
    set (s6 := after (docRepo_Delete "uuid-0") s5).
    assert (Hne : Document.Grants report <> []) by discriminate.
    destruct (Hgrant s3 [EvSaveFile report' "%PDF-1.7" None] eq_refl
                s4 eq_refl Hne (Errorf "documentRepo/GrantAccess" refused)
                s5 eq_refl None s6 eq_refl
                None (after (fileStorage_DeleteFile report') s6)
                [EvDeleteFile report' None] eq_refl) as [Hrun _].
    rewrite Hrun. split; reflexivity.
Defined.

(** After [d1] was resolved once: the cache as that call left it, the
    tables gone and the next repository call planned to fail. *)
Definition w_store_down : World :=
  mkWorld 7 1700000100%Z (redis (snd (fst (resolved w_stored))))
          (documentrepo.mkDB samplepg.pg [] [] []) ∅ 0 {[ 1 := refused ]}.

Lemma documentMetaByID_reads_back_witness :
  fst (fst (resolved w_stored)) = Ok doc1
  /\ docToJSON Marshal doc1 = Ok (samplejson.text doc1)
  /\ jsonToDoc Unmarshal (samplejson.text doc1) = Ok doc1
  /\ documentrepo.DocumentByID (db w_store_down) "d1"
     = Err (Errorf "documentRepo/DocumentByID" ErrDocumentNotFound)
  /\ run world (documentMetaByID Marshal Unmarshal "d1") w_store_down
     = (Ok doc1, tick w_store_down,
        [EvCacheGet "d1" (samplejson.text doc1, None)]).
Proof.
  assert (Hrt : json_round_trips Marshal Unmarshal doc1).
  { intros j Hj. injection Hj as <-. split; [discriminate | reflexivity]. }
  pose proof (documentMetaByID_reads_back Marshal Unmarshal "d1" w_stored
                (snd (fst (resolved w_stored))) doc1 (samplejson.text doc1)
                ("", None) eq_refl Hrt) as (Hj & Hback & Hagain).
  split; [reflexivity |]. split; [exact Hj |]. split; [exact Hback |].
  split; [reflexivity |].
  exact (Hagain w_store_down eq_refl eq_refl).
Defined.


(** * Further properties of the service *)

(** The keys of a cache deletion, for any answer. *)
Definition del_keys (e : Event) : option (list string) :=
  match e with
  | EvCacheDel keys _ => Some keys
  | _ => None
  end.

(** The calls resolution can make. *)
Definition is_read_through (e : Event) : bool :=
  match e with
  | EvCacheGet _ _ | EvDocumentByID _ _ | EvCacheSet _ _ _ => true
  | _ => false
  end.

(** The miss test [err != nil || s == ""] of both read-through paths. *)
Lemma miss_test_true (cached : string) (err : option error) :
  err <> None \/ cached = "" -> negb (is_nil err) || String.eqb cached "" = true.
Proof.
  intros [Herr | ->].
  - destruct err; [reflexivity | congruence].
  - apply orb_true_r.
Qed.

Section ServiceMore.
Context (json_Marshal_doc : Document.t -> result string)
        (json_Unmarshal_doc : string -> result Document.t)
        (json_Marshal_docs : list Document.t -> result string)
        (json_Unmarshal_docs : string -> result (list Document.t)).
Context {S : Type} (h : Handler S).

Ltac reduce := cbn beta iota zeta; cbn [negb is_nil length Nat.ltb Nat.leb].
Ltac op_step H := rewrite run_call_bind, H; reduce.

(** The invalidation loop over a list of grants: one deletion per entry, in
    order, whatever the cache answers. *)
Lemma run_invalidate_grants (grants : list string) (s : S) :
  map del_keys
      (snd (run h (for_range grants (fun grant => call (cache_Del [userDocsKey grant]))) s))
  = map (fun grant => Some [userDocsKey grant]) grants.
Proof.
  revert s. induction grants as [| g gs IH]; intros s; [reflexivity |].
  cbn [for_range]. rewrite run_call_bind.
  destruct (h _ (cache_Del [userDocsKey g]) s) as [r s1].
  specialize (IH s1).
  destruct (run h (for_range gs _) s1) as [[u s2] tr].
  cbn in *. now rewrite IH.
Qed.

Lemma documentMetaByID_log_events (docID : string) (s : S) :
  Forall (fun e => is_read_through e = true)
         (snd (run h (documentMetaByID json_Marshal_doc json_Unmarshal_doc docID) s)).
Proof.
  unfold documentMetaByID.
  cbn [run mbind Prog_bind bind call].
  destruct (h _ (cache_Get docID) s) as [[docJSON err] s1].
  destruct (negb (is_nil err) || String.eqb docJSON "").
  - cbn [run mbind Prog_bind bind call].
    destruct (h _ (docRepo_DocumentByID docID) s1) as [[doc | e] s2].
    + destruct (docToJSON json_Marshal_doc doc) as [j | e']; cbn.
      * destruct (h _ (cache_Set docID j) s2); cbn. repeat constructor.
      * repeat constructor.
    + destruct (errors_Is e ErrDocumentNotFound); cbn; repeat constructor.
  - destruct (jsonToDoc json_Unmarshal_doc docJSON); cbn; repeat constructor.
Qed.

(** X1. Resolution on the paths that succeed.  A nonempty cache entry that
    deserialises is returned after the cache read alone.  On a miss with the
    repository answering a document, that document is returned whatever
    serialisation and the cache write do; the write is attempted exactly
    when serialisation succeeds, under the document ID. *)
Theorem documentMetaByID_success_paths
    (docID : string) (s s1 : S) (cached : string) (cerr : option error) :
  h _ (cache_Get docID) s = ((cached, cerr), s1) ->
  (cerr = None -> cached <> "" ->
   forall d, jsonToDoc json_Unmarshal_doc cached = Ok d ->
     run h (documentMetaByID json_Marshal_doc json_Unmarshal_doc docID) s
     = (Ok d, s1, [EvCacheGet docID (cached, cerr)]))
  /\ ((cerr <> None \/ cached = "") ->
      forall d s2,
        h _ (docRepo_DocumentByID docID) s1 = (Ok d, s2) ->
        (forall e, docToJSON json_Marshal_doc d = Err e ->
           run h (documentMetaByID json_Marshal_doc json_Unmarshal_doc docID) s
           = (Ok d, s2,
              [EvCacheGet docID (cached, cerr); EvDocumentByID docID (Ok d)]))
        /\ (forall j wr s3,
              docToJSON json_Marshal_doc d = Ok j ->
              h _ (cache_Set docID j) s2 = (wr, s3) ->
              run h (documentMetaByID json_Marshal_doc json_Unmarshal_doc docID) s
              = (Ok d, s3,
                 [EvCacheGet docID (cached, cerr); EvDocumentByID docID (Ok d);
                  EvCacheSet docID j wr]))).
Proof.
  intros Hget. split.
  - intros Hnil Hne d Hd. unfold documentMetaByID.
    cbn [run mbind Prog_bind bind call]. rewrite Hget. cbn [event_of].
    rewrite (hit_test _ _ Hnil Hne), Hd. reflexivity.
  - intros Hmiss d s2 Hrepo. apply (miss_test json_Unmarshal_doc) in Hmiss.
    split.
    + intros e He. unfold documentMetaByID.
      cbn [run mbind Prog_bind bind call]. rewrite Hget. cbn [event_of].
      rewrite Hmiss. cbn [run mbind Prog_bind bind call]. rewrite Hrepo, He.
      reflexivity.
    + intros j wr s3 Hj Hset. unfold documentMetaByID.
      cbn [run mbind Prog_bind bind call]. rewrite Hget. cbn [event_of].
      rewrite Hmiss. cbn [run mbind Prog_bind bind call]. rewrite Hrepo, Hj.
      cbn [run mbind Prog_bind bind call]. rewrite Hset. reflexivity.
Qed.

(** X2. [DocumentByID] beyond the refusals: a resolution error is returned as it
    is; a readable inline document is returned without any file storage
    call; a readable file is returned with the content [LoadFile] gave. *)
Theorem DocumentByID_returns (docID : string) (R : User.t)
    (s s1 : S) (r : result Document.t) (tr0 : list Event) :
  run h (documentMetaByID json_Marshal_doc json_Unmarshal_doc docID) s = (r, s1, tr0) ->
  (forall e, r = Err e ->
     run h (DocumentByID json_Marshal_doc json_Unmarshal_doc docID R) s
     = (Err e, s1, tr0))
  /\ (forall D, r = Ok D ->
        hasReadAccess D (User.ID R) (User.Login R) = true ->
        (Document.IsFile D = false ->
         run h (DocumentByID json_Marshal_doc json_Unmarshal_doc docID R) s
         = (Ok (D, None), s1, tr0)
         /\ Forall (fun e => is_fileStorage e = false) tr0)
        /\ (Document.IsFile D = true ->
            forall c s2,
              h _ (fileStorage_LoadFile D) s1 = (Ok c, s2) ->
              run h (DocumentByID json_Marshal_doc json_Unmarshal_doc docID R) s
              = (Ok (D, Some c), s2, tr0 ++ [EvLoadFile D (Ok c)]))).
Proof.
  intros Hres.
  pose proof (documentMetaByID_no_fileStorage json_Marshal_doc json_Unmarshal_doc
                h docID s) as Hno.
  rewrite Hres in Hno. cbn [snd] in Hno.
  unfold DocumentByID. rewrite run_bind, Hres. split.
  - intros e ->. rewrite run_ret, app_nil_r. reflexivity.
  - intros D -> Hacc. rewrite Hacc. cbn [negb]. split.
    + intros ->. rewrite run_ret, app_nil_r. split; [reflexivity | exact Hno].
    + intros -> c s2 Hload. op_step Hload. rewrite run_ret. reflexivity.
Qed.

(** X3. [DeleteDocument] before anything is deleted: a resolution error is
    returned as it is, a requester without delete access gets
    [ErrForbidden]; in both cases the calls made are those of the resolution,
    which only reads the cache and the repository and may write the cache. *)
Theorem DeleteDocument_refusals (docID : string) (R : User.t)
    (s s1 : S) (r : result Document.t) (tr0 : list Event) :
  run h (documentMetaByID json_Marshal_doc json_Unmarshal_doc docID) s = (r, s1, tr0) ->
  Forall (fun e => is_read_through e = true) tr0
  /\ (forall e, r = Err e ->
        run h (DeleteDocument json_Marshal_doc json_Unmarshal_doc docID R) s
        = (Some e, s1, tr0))
  /\ (forall D, r = Ok D ->
        hasDeleteAccess D (User.ID R) = false ->
        run h (DeleteDocument json_Marshal_doc json_Unmarshal_doc docID R) s
        = (Some (Sentinel ErrForbidden), s1, tr0)).
Proof.
  intros Hres.
  pose proof (documentMetaByID_log_events docID s) as Hlog.
  rewrite Hres in Hlog. cbn [snd] in Hlog.
  split; [exact Hlog |].
  unfold DeleteDocument. rewrite run_bind, Hres. split.
  - intros e ->. rewrite run_ret, app_nil_r. reflexivity.
  - intros D -> Hacc. rewrite Hacc. cbn [negb].
    rewrite run_ret, app_nil_r. reflexivity.
Qed.

(** X4. [GrantAccess].  Without grant-management access the answer is
    [ErrForbidden] and the repository is not written.  A failing replacement
    gives [ErrInternal] and no cache deletion.  After a replacement that
    went through, the result is nil whatever the cache answers, and the
    deletions are: the document ID with the requester's key, then one key per
    grant the resolved document had before, not per new grant. *)
Theorem GrantAccess_outcomes (docID : string) (R : User.t) (grants : list string)
    (D : Document.t) (s s1 : S) (tr0 : list Event) :
  run h (documentMetaByID json_Marshal_doc json_Unmarshal_doc docID) s = (Ok D, s1, tr0) ->
  (hasGrantAccess D (User.ID R) = false ->
   run h (GrantAccess json_Marshal_doc json_Unmarshal_doc docID R grants) s
   = (Some (Sentinel ErrForbidden), s1, tr0))
  /\ (hasGrantAccess D (User.ID R) = true ->
      forall gr s2,
        h _ (docRepo_GrantAccess docID grants) s1 = (gr, s2) ->
        (forall e, gr = Some e ->
           run h (GrantAccess json_Marshal_doc json_Unmarshal_doc docID R grants) s
           = (Some (Sentinel ErrInternal), s2,
              tr0 ++ [EvGrantAccess docID grants gr]))
        /\ (gr = None ->
            forall cr s3,
              h _ (cache_Del [Document.ID D; userDocsKey (User.Login R)]) s2 = (cr, s3) ->
              exists s4 tail,
                run h (GrantAccess json_Marshal_doc json_Unmarshal_doc docID R grants) s
                = (None, s4,
                   tr0 ++ EvGrantAccess docID grants None
                       :: EvCacheDel [Document.ID D; userDocsKey (User.Login R)] cr
                       :: tail)
                /\ map del_keys tail
                   = map (fun g => Some [userDocsKey g]) (Document.Grants D))).
Proof.
  intros Hres. unfold GrantAccess. rewrite run_bind, Hres. split.
  - intros Hacc. rewrite Hacc. cbn [negb]. rewrite run_ret, app_nil_r. reflexivity.
  - intros Hacc gr s2 Hgrant. rewrite Hacc. cbn [negb]. op_step Hgrant. split.
    + intros e ->. reduce. rewrite run_ret. reflexivity.
    + intros -> cr s3 Hdel. reduce. op_step Hdel. rewrite run_bind.
      pose proof (run_invalidate_grants (Document.Grants D) s3) as Hloop.
      destruct (run h (for_range (Document.Grants D) _) s3) as [[u s4] tail].
      cbn [snd] in Hloop. rewrite run_ret, app_nil_r.
      exists s4, tail. split; [reflexivity | exact Hloop].
Qed.

(** X5. [UploadDocument] when the blob save, the metadata write and the grant
    write go through: the new ID is returned with a nil error whatever the
    cache answers.  With an empty [Grants] no grant write is made and only
    the requester's key is deleted; otherwise one key per grant is deleted,
    in order, and then the requester's key. *)
Theorem UploadDocument_success (R : User.t) (doc : Document.t) (content : Bytes)
    (s s1 s2 s3 s4 : S) (id : string) (now : Time) (tr1 : list Event) :
  h _ uuid_NewV4 s = (id, s1) ->
  h _ time_Now s1 = (now, s2) ->
  let doc' := Document.stamp doc id now in
  run h (save_blob doc' content) s2 = (None, s3, tr1) ->
  h _ (docRepo_CreateDocument doc') s3 = (None, s4) ->
  (Document.Grants doc = [] ->
   forall dr s5,
     h _ (cache_Del [userDocsKey (User.Login R)]) s4 = (dr, s5) ->
     run h (UploadDocument R doc content) s
     = ((id, None), s5,
        [EvNewV4 id; EvNow now] ++ tr1
        ++ [EvCreateDocument doc' None;
            EvCacheDel [userDocsKey (User.Login R)] dr]))
  /\ (Document.Grants doc <> [] ->
      forall s5,
        h _ (docRepo_GrantAccess id (Document.Grants doc)) s4 = (None, s5) ->
        exists s6 tail,
          run h (UploadDocument R doc content) s
          = ((id, None), s6,
             [EvNewV4 id; EvNow now] ++ tr1
             ++ EvCreateDocument doc' None
                :: EvGrantAccess id (Document.Grants doc) None :: tail)
          /\ map del_keys tail
             = map (fun g => Some [userDocsKey g]) (Document.Grants doc)
               ++ [Some [userDocsKey (User.Login R)]]).
Proof.
  intros Hid Hnow doc' Hsave Hcreate.
  assert (HG : Document.Grants doc' = Document.Grants doc) by reflexivity.
  assert (HI : Document.ID doc' = id) by reflexivity.
  split.
  - intros Hempty dr s5 Hdel.
    unfold UploadDocument. reduce. op_step Hid. op_step Hnow. fold doc'.
    fold (save_blob doc' content).
    rewrite run_bind, Hsave. reduce. op_step Hcreate.
    rewrite HG, HI, Hempty. reduce. op_step Hdel. rewrite run_ret. reflexivity.
  - intros Hne s5 Hgrant.
    unfold UploadDocument. reduce. op_step Hid. op_step Hnow. fold doc'.
    fold (save_blob doc' content).
    rewrite run_bind, Hsave. reduce. op_step Hcreate.
    rewrite HG, HI.
    destruct (Document.Grants doc) as [| g gs] eqn:Hg; [congruence |].
    reduce. op_step Hgrant. rewrite run_bind.
    pose proof (run_invalidate_grants (g :: gs) s5) as Hloop.
    destruct (run h (for_range (g :: gs) _) s5) as [[u s6] tail].
    cbn [snd] in Hloop. rewrite run_call_bind.
    destruct (h _ (cache_Del [userDocsKey (User.Login R)]) s6) as [dr s7].
    reduce. rewrite run_ret.
    exists s7, (tail ++ [EvCacheDel [userDocsKey (User.Login R)] dr]).
    split; [reflexivity |].
    rewrite map_app, Hloop. reflexivity.
Qed.

(** X6. [ListDocuments] and its cache.  A nonempty cache entry is decoded and
    returned, or gives [ErrInternal] when it does not decode, without looking
    at the filter at all.  On a miss an invalid filter gives
    [ErrInvalidParams]; in these cases the cache read is the only call. *)
Theorem ListDocuments_cache_and_filter (R : User.t) (login : string)
    (f : DocumentFilter.t) (s s1 : S) (cached : string) (cerr : option error) :
  let key := listCacheKey (User.Login R) login f in
  h _ (cache_Get key) s = ((cached, cerr), s1) ->
  (cerr = None -> cached <> "" ->
   run h (ListDocuments json_Marshal_docs json_Unmarshal_docs R login f) s
   = (match jsonToDocs json_Unmarshal_docs cached with
      | Ok docs => Ok docs
      | Err _ => Err (Sentinel ErrInternal)
      end, s1, [EvCacheGet key (cached, cerr)]))
  /\ ((cerr <> None \/ cached = "") ->
      DocumentFilter.IsValid f = false ->
      run h (ListDocuments json_Marshal_docs json_Unmarshal_docs R login f) s
      = (Err (Sentinel ErrInvalidParams), s1, [EvCacheGet key (cached, cerr)])).
Proof.
  intros key Hget. split.
  - intros Hnil Hne. unfold ListDocuments. reduce. fold key. op_step Hget.
    rewrite (hit_test _ _ Hnil Hne).
    destruct (jsonToDocs json_Unmarshal_docs cached); reflexivity.
  - intros Hmiss Hbad. apply miss_test_true in Hmiss.
    unfold ListDocuments. reduce. fold key. op_step Hget.
    rewrite Hmiss, Hbad. reflexivity.
Qed.

(** X7. [ListDocuments] on a miss with a valid filter.  A not-found error of the
    repository becomes the empty list with a nil error, any other error
    [ErrInternal]; neither is cached.  A list the repository returned is
    returned whatever serialisation and the cache write do, and is written
    under the key that was read. *)
Theorem ListDocuments_repository_outcomes (R : User.t) (login : string)
    (f : DocumentFilter.t) (s s1 s2 : S) (cached : string) (cerr : option error)
    (r : result (list Document.t)) :
  let key := listCacheKey (User.Login R) login f in
  h _ (cache_Get key) s = ((cached, cerr), s1) ->
  (cerr <> None \/ cached = "") ->
  DocumentFilter.IsValid f = true ->
  h _ (docRepo_FilteredDocuments login (User.ID R) f) s1 = (r, s2) ->
  let asked := [EvCacheGet key (cached, cerr);
                EvFilteredDocuments login (User.ID R) f r] in
  (forall e, r = Err e ->
     run h (ListDocuments json_Marshal_docs json_Unmarshal_docs R login f) s
     = (if errors_Is e ErrDocumentNotFound then Ok []
        else Err (Errorf (pkg +:+ "ListDocuments") ErrInternal), s2, asked))
  /\ (forall docs, r = Ok docs ->
        (forall e, docsToJSON json_Marshal_docs docs = Err e ->
           run h (ListDocuments json_Marshal_docs json_Unmarshal_docs R login f) s
           = (Ok docs, s2, asked))
        /\ (forall j wr s3,
              docsToJSON json_Marshal_docs docs = Ok j ->
              h _ (cache_Set key j) s2 = (wr, s3) ->
              run h (ListDocuments json_Marshal_docs json_Unmarshal_docs R login f) s
              = (Ok docs, s3, asked ++ [EvCacheSet key j wr]))).
Proof.
  intros key Hget Hmiss Hvalid Hrepo asked.
  apply miss_test_true in Hmiss.
  assert (Hstart :
    run h (ListDocuments json_Marshal_docs json_Unmarshal_docs R login f) s
    = let '(a, s', tr) :=
        run h (match r with
               | Err err =>
                   if errors_Is err ErrDocumentNotFound then mret (Ok [])
                   else mret (Err (Errorf (pkg +:+ "ListDocuments") ErrInternal))
               | Ok docs =>
                   match docsToJSON json_Marshal_docs docs with
                   | Err _ => mret (Ok docs)
                   | Ok docsJSON => _ ← call (cache_Set key docsJSON); mret (Ok docs)
                   end
               end) s2 in
      (a, s', asked ++ tr)).
  { unfold ListDocuments. reduce. fold key. op_step Hget.
    rewrite Hmiss, Hvalid. reduce. op_step Hrepo.
    destruct (run h _ s2) as [[a s'] tr]. reflexivity. }
  rewrite Hstart. clear Hstart. split.
  - intros e ->. destruct (errors_Is e ErrDocumentNotFound); reflexivity.
  - intros docs ->. split.
    + intros e ->. reflexivity.
    + intros j wr s3 -> Hset. op_step Hset. reflexivity.
Qed.

End ServiceMore.


(** * Further properties of the models and the repository *)

(** [DocumentFilter.IsValid]: no filter at all, or one of the two allowed
    keys with any value (the empty one included). *)
Theorem IsValid_iff (f : DocumentFilter.t) :
  DocumentFilter.IsValid f = true <->
  (DocumentFilter.Key f = "" /\ DocumentFilter.Value f = "")
  \/ DocumentFilter.Key f = "name"
  \/ DocumentFilter.Key f = "mime".
Proof.
  unfold DocumentFilter.IsValid, DocumentFilter.allowedKeys.
  destruct (String.eqb_spec (DocumentFilter.Key f) "") as [Hk | Hk];
    destruct (String.eqb_spec (DocumentFilter.Value f) "") as [Hv | Hv];
    destruct (String.eqb_spec (DocumentFilter.Key f) "name") as [Hn | Hn];
    destruct (String.eqb_spec (DocumentFilter.Key f) "mime") as [Hm | Hm];
    cbn; split; intros H; try discriminate; try tauto;
    try (rewrite Hk in Hn; discriminate);
    try (rewrite Hk in Hm; discriminate);
    try (destruct H as [[? ?] | [? | ?]]; congruence).
Qed.

(** ** Queries of [documentRepo] not used by the service *)

(** [SELECT ... FROM documents d WHERE d.owner_id = $1], then the grants of
    each row. *)
Definition ListByUser (db : documentrepo.DB) (userID : string) : list Document.t :=
  map (documentrepo.toDocument db)
      (List.filter (fun d => String.eqb (documentrepo.owner_id d) userID)
                   (documentrepo.documents db)).

(** [SELECT ... FROM documents d INNER JOIN grants g ON g.document_id = d.id
    WHERE g.user_id = $1], then the grants of each row. *)
Definition DocumentsGrantedTo (db : documentrepo.DB) (userID : string)
  : list Document.t :=
  map (documentrepo.toDocument db)
      (flat_map (fun d =>
         flat_map (fun g =>
           if String.eqb (documentrepo.document_id g) (documentrepo.id d)
              && String.eqb (documentrepo.user_id g) userID
           then [d] else [])
         (documentrepo.grants db))
       (documentrepo.documents db)).

Section RepositoryMore.
Import documentrepo.

Lemma filter_key_cases (f : DocumentFilter.t) (d : DocumentRow) :
  ((String.eqb (DocumentFilter.Key f) "name"
    && String.eqb (name d) (DocumentFilter.Value f))
   || (String.eqb (DocumentFilter.Key f) "mime"
       && String.eqb (mime d) (DocumentFilter.Value f))
   || (String.eqb (DocumentFilter.Key f) "" && true)) = true <->
  (DocumentFilter.Key f = "name" /\ name d = DocumentFilter.Value f)
  \/ (DocumentFilter.Key f = "mime" /\ mime d = DocumentFilter.Value f)
  \/ DocumentFilter.Key f = "".
Proof.
  rewrite !orb_true_iff, !andb_true_iff, !String.eqb_eq. tauto.
Qed.

Lemma joined_In (db : DB) (d : DocumentRow) (u : User.t) (g : option GrantRow) :
  In (d, u, g) (joined db) <->
  In d (documents db) /\ In u (users db) /\ owner_id d = User.ID u
  /\ match g with
     | Some g0 => In g0 (grants db) /\ document_id g0 = id d
     | None => forall g0, In g0 (grants db) -> document_id g0 <> id d
     end.
Proof.
  unfold joined. rewrite in_flat_map. split.
  - intros (d0 & Hd0 & H). rewrite in_flat_map in H.
    destruct H as (u0 & Hu0 & H). apply filter_In in Hu0 as [Hu0 Hown].
    apply String.eqb_eq in Hown.
    destruct (List.filter (fun g => String.eqb (document_id g) (id d0)) (grants db))
      as [| g1 gs] eqn:Hf.
    + destruct H as [[= <- <- <-] | []]. repeat split; try assumption.
      intros g0 Hg0 Heq.
      assert (Hin : In g0 (List.filter (fun g => String.eqb (document_id g) (id d0))
                                        (grants db))).
      { apply filter_In. split; [assumption | now apply String.eqb_eq]. }
      rewrite Hf in Hin. destruct Hin.
    + rewrite in_map_iff in H. destruct H as (g2 & [= <- <- <-] & Hin).
      rewrite <- Hf in Hin. apply filter_In in Hin as [Hin Heq].
      apply String.eqb_eq in Heq. repeat split; assumption.
  - intros (Hd & Hu & Hown & Hg). exists d. split; [assumption |].
    rewrite in_flat_map. exists u. split.
    { apply filter_In. split; [assumption | now apply String.eqb_eq]. }
    destruct (List.filter (fun g => String.eqb (document_id g) (id d)) (grants db))
      as [| g1 gs] eqn:Hf.
    + destruct g as [g0 |]; [| now left].
      destruct Hg as [Hin Heq].
      assert (Hin' : In g0 (List.filter (fun g => String.eqb (document_id g) (id d))
                                         (grants db))).
      { apply filter_In. split; [assumption | now apply String.eqb_eq]. }
      rewrite Hf in Hin'. destruct Hin'.
    + destruct g as [g0 |].
      * destruct Hg as [Hin Heq]. rewrite in_map_iff. exists g0.
        split; [reflexivity |]. rewrite <- Hf. apply filter_In.
        split; [assumption | now apply String.eqb_eq].
      * exfalso.
        assert (Hin : In g1 (List.filter (fun g => String.eqb (document_id g) (id d))
                                          (grants db))) by (rewrite Hf; now left).
        apply filter_In in Hin as [Hin Heq]. apply String.eqb_eq in Heq.
        exact (Hg g1 Hin Heq).
Qed.

Lemma In_order_by_iff (db : DB) (y : DocumentRow) (l : list DocumentRow) :
  In y (order_by db l) <-> In y l.
Proof.
  split; [apply In_order_by |].
  apply Permutation_in. symmetry. apply order_rows_perm.
Qed.

(** What makes a row visible to a requester ID at the repository. *)
Definition visible_row (db : DB) (requesterID : string) (d : DocumentRow) : Prop :=
  is_public d = true
  \/ owner_id d = requesterID
  \/ exists g, In g (grants db) /\ document_id g = id d /\ user_id g = requesterID.

(** The key filter and the owner-login filter of the query. *)
Definition matches_filter (f : DocumentFilter.t) (login : string)
    (d : DocumentRow) (owner : User.t) : Prop :=
  ((DocumentFilter.Key f = "name" /\ name d = DocumentFilter.Value f)
   \/ (DocumentFilter.Key f = "mime" /\ mime d = DocumentFilter.Value f)
   \/ DocumentFilter.Key f = "")
  /\ (login = "" \/ User.Login owner = login).

Lemma where_clause_true (login requesterID : string)
    (f : DocumentFilter.t) (d : DocumentRow) (u : User.t) (g : option GrantRow) :
  where_clause login requesterID f (d, u, g) = true <->
  (is_public d = true \/ owner_id d = requesterID
   \/ exists g0, g = Some g0 /\ user_id g0 = requesterID)
  /\ matches_filter f login d u.
Proof.
  unfold where_clause, matches_filter.
  rewrite !andb_true_iff, filter_key_cases, !orb_true_iff, !String.eqb_eq.
  assert (Hg : match g with
               | Some g0 => String.eqb (user_id g0) requesterID
               | None => false
               end = true <-> exists g0, g = Some g0 /\ user_id g0 = requesterID).
  { destruct g as [g0 |]; split.
    - intros H. apply String.eqb_eq in H. eauto.
    - intros (g1 & [= <-] & H). now apply String.eqb_eq.
    - discriminate.
    - intros (g1 & [=] & _). }
  rewrite Hg. tauto.
Qed.

Lemma FilteredDocuments_member (db : DB) (login requesterID : string)
    (f : DocumentFilter.t) (doc : Document.t) :
  (DocumentFilter.Limit f <= 0)%Z ->
  In doc (FilteredDocuments db login requesterID f) <->
  exists d u,
    In d (documents db) /\ In u (users db) /\ owner_id d = User.ID u
    /\ doc = toDocument db d
    /\ visible_row db requesterID d
    /\ matches_filter f login d u.
Proof.
  intros Hlim. split.
  - intros Hin. apply FilteredDocuments_row in Hin as (d & u & g & -> & Hj & Hw).
    apply joined_In in Hj as (Hd & Hu & Hown & Hg).
    apply where_clause_true in Hw as [Hvis Hm].
    exists d, u. repeat (split; [assumption || reflexivity |]).
    split; [| exact Hm].
    destruct Hvis as [Hp | [Ho | (g0 & -> & Hrid)]].
    + now left.
    + right; now left.
    + right; right. destruct Hg as [Hg Hdoc]. eauto.
  - intros (d & u & Hd & Hu & Hown & -> & Hvis & Hm).
    unfold FilteredDocuments. apply in_map.
    unfold limit. replace (Z.ltb 0 (DocumentFilter.Limit f)) with false
      by (symmetry; apply Z.ltb_ge; exact Hlim).
    apply In_order_by_iff.
    assert (Hrow : exists g, In (d, u, g) (joined db)
                             /\ where_clause login requesterID f (d, u, g) = true).
    { destruct Hvis as [Hp | [Ho | (g0 & Hg0 & Hdoc & Hrid)]].
      - destruct (List.filter (fun g => String.eqb (document_id g) (id d)) (grants db))
          as [| g1 gs] eqn:Hf.
        + exists None. split.
          * apply joined_In. repeat (split; [assumption |]).
            intros g0 Hg0 Heq.
            assert (Hin : In g0 (List.filter
                                   (fun g => String.eqb (document_id g) (id d))
                                   (grants db))).
            { apply filter_In. split; [assumption | now apply String.eqb_eq]. }
            rewrite Hf in Hin. destruct Hin.
          * apply where_clause_true. split; [now left | exact Hm].
        + assert (Hin : In g1 (List.filter
                                 (fun g => String.eqb (document_id g) (id d))
                                 (grants db))) by (rewrite Hf; now left).
          apply filter_In in Hin as [Hin Heq]. apply String.eqb_eq in Heq.
          exists (Some g1). split.
          * apply joined_In. exact (conj Hd (conj Hu (conj Hown (conj Hin Heq)))).
          * apply where_clause_true. split; [now left | exact Hm].
      - destruct (List.filter (fun g => String.eqb (document_id g) (id d)) (grants db))
          as [| g1 gs] eqn:Hf.
        + exists None. split.
          * apply joined_In. repeat (split; [assumption |]).
            intros g0 Hg0 Heq.
            assert (Hin : In g0 (List.filter
                                   (fun g => String.eqb (document_id g) (id d))
                                   (grants db))).
            { apply filter_In. split; [assumption | now apply String.eqb_eq]. }
            rewrite Hf in Hin. destruct Hin.
          * apply where_clause_true. split; [right; now left | exact Hm].
        + assert (Hin : In g1 (List.filter
                                 (fun g => String.eqb (document_id g) (id d))
                                 (grants db))) by (rewrite Hf; now left).
          apply filter_In in Hin as [Hin Heq]. apply String.eqb_eq in Heq.
          exists (Some g1). split.
          * apply joined_In. exact (conj Hd (conj Hu (conj Hown (conj Hin Heq)))).
          * apply where_clause_true. split; [right; now left | exact Hm].
      - exists (Some g0). split.
        + apply joined_In. exact (conj Hd (conj Hu (conj Hown (conj Hg0 Hdoc)))).
        + apply where_clause_true. split; [| exact Hm].
          right; right. eauto. }
    destruct Hrow as (g & Hj & Hw).
    apply in_map_iff. exists (d, u, g). split; [reflexivity |].
    apply filter_In. split; assumption.
Qed.

(** X8. Without a limit ([filter.Limit <= 0]) the query returns exactly the
    documents that have an owner row in [users], are public, owned by the
    requester ID or granted to it, and pass the key filter and the
    owner-login filter. *)
Theorem FilteredDocuments_exact (db : DB) (login requesterID : string)
    (f : DocumentFilter.t) (doc : Document.t) :
  (DocumentFilter.Limit f <= 0)%Z ->
  In doc (FilteredDocuments db login requesterID f) <->
  exists d u,
    In d (documents db) /\ In u (users db) /\ owner_id d = User.ID u
    /\ doc = toDocument db d
    /\ visible_row db requesterID d
    /\ matches_filter f login d u.
Proof. apply FilteredDocuments_member. Qed.

(** X10. Filters that [IsValid] rejects, at the repository: a key other than
    ["name"], ["mime"] and the empty one selects nothing, and with the empty
    key the value is ignored. *)
Theorem FilteredDocuments_invalid_filters (db : DB) (login requesterID : string)
    (f : DocumentFilter.t) :
  (DocumentFilter.Key f <> "" -> DocumentFilter.Key f <> "name" ->
   DocumentFilter.Key f <> "mime" ->
   FilteredDocuments db login requesterID f = [])
  /\ (DocumentFilter.Key f = "" ->
      FilteredDocuments db login requesterID f
      = FilteredDocuments db login requesterID
          (DocumentFilter.mk "" "" (DocumentFilter.Limit f))).
Proof.
  split.
  - intros H0 Hn Hm. unfold FilteredDocuments.
    replace (List.filter (where_clause login requesterID f) (joined db))
      with (@nil (DocumentRow * User.t * option GrantRow)).
    { unfold limit, order_by. cbn [map].
      rewrite (Permutation_nil (Permutation_sym (order_rows_perm (engine db) []))).
      destruct (Z.ltb 0 (DocumentFilter.Limit f)); [| reflexivity].
      now rewrite firstn_nil. }
    symmetry. induction (joined db) as [| [[d u] g] l IH]; [reflexivity |].
    cbn [List.filter]. rewrite IH.
    destruct (where_clause login requesterID f (d, u, g)) eqn:Hw; [| reflexivity].
    apply where_clause_true in Hw as [_ [[[Hk _] | [[Hk _] | Hk]] _]]; congruence.
  - intros Hk. unfold FilteredDocuments.
    replace (List.filter (where_clause login requesterID f) (joined db))
      with (List.filter (where_clause login requesterID
                           (DocumentFilter.mk "" "" (DocumentFilter.Limit f)))
                        (joined db)); [reflexivity |].
    apply filter_ext. intros [[d u] g]. unfold where_clause.
    cbn [DocumentFilter.Key DocumentFilter.Value]. rewrite Hk. reflexivity.
Qed.


Lemma has_user_true (db : DB) (userID : string) :
  has_user db userID = true <-> exists u, In u (users db) /\ User.ID u = userID.
Proof.
  unfold has_user. rewrite existsb_exists.
  split; intros (u & Hu & H); exists u; (split; [assumption |]);
    now apply String.eqb_eq.
Qed.

Lemma has_document_true (db : DB) (docID : string) :
  has_document db docID = true <-> exists d, In d (documents db) /\ id d = docID.
Proof.
  unfold has_document. rewrite existsb_exists.
  split; intros (d & Hd & H); exists d; (split; [assumption |]);
    now apply String.eqb_eq.
Qed.

Lemma has_document_false (db : DB) (docID : string) :
  has_document db docID = false <-> forall d, In d (documents db) -> id d <> docID.
Proof.
  rewrite <- not_true_iff_false, has_document_true. split.
  - intros H d Hd Hid. apply H. eauto.
  - intros H (d & Hd & Hid). exact (H d Hd Hid).
Qed.

Lemma is_granted_true (db : DB) (docID : string) :
  is_granted db docID = true <-> exists g, In g (grants db) /\ document_id g = docID.
Proof.
  unfold is_granted. rewrite existsb_exists.
  split; intros (g & Hg & H); exists g; (split; [assumption |]);
    now apply String.eqb_eq.
Qed.

Lemma is_granted_false (db : DB) (docID : string) :
  is_granted db docID = false <->
  forall g, In g (grants db) -> document_id g <> docID.
Proof.
  rewrite <- not_true_iff_false, is_granted_true. split.
  - intros H g Hg Hid. apply H. eauto.
  - intros H (g & Hg & Hid). exact (H g Hg Hid).
Qed.




Lemma filter_filter_neg (docID other : string) (l : list DocumentRow) :
  List.filter (fun d => String.eqb (id d) other)
              (List.filter (fun d => negb (String.eqb (id d) docID)) l)
  = if String.eqb other docID then []
    else List.filter (fun d => String.eqb (id d) other) l.
Proof.
  induction l as [| d l IH]; cbn.
  - destruct (String.eqb other docID); reflexivity.
  - destruct (String.eqb_spec (id d) docID) as [Hd | Hd]; cbn.
    + rewrite IH. destruct (String.eqb_spec other docID) as [Ho | Ho]; [reflexivity |].
      replace (String.eqb (id d) other) with false; [reflexivity |].
      symmetry. apply String.eqb_neq. congruence.
    + rewrite IH. destruct (String.eqb_spec other docID) as [Ho | Ho].
      * replace (String.eqb (id d) other) with false; [reflexivity |].
        symmetry. apply String.eqb_neq. congruence.
      * reflexivity.
Qed.

Lemma filter_filter_idem (docID : string) (l : list DocumentRow) :
  List.filter (fun d => negb (String.eqb (id d) docID))
              (List.filter (fun d => negb (String.eqb (id d) docID)) l)
  = List.filter (fun d => negb (String.eqb (id d) docID)) l.
Proof.
  induction l as [| d l IH]; cbn; [reflexivity |].
  destruct (negb (String.eqb (id d) docID)) eqn:Hd; cbn; rewrite ?Hd, IH;
    reflexivity.
Qed.

(** X13. [Delete] and the foreign key of [grants].  The delete goes through
    exactly when no row has the ID or no [grants] row refers to it; a
    document that has a grant row cannot be deleted: the statement fails and
    the tables are as before.  After a delete that went through, reading
    the ID gives the not-found error, reads of other IDs are unchanged, and
    deleting again goes through and changes nothing. *)
Theorem Delete_then_DocumentByID (db : DB) (docID : string) :
  let '(err, db') := Delete db docID in
  (err = None <->
   (forall d, In d (documents db) -> id d <> docID)
   \/ (forall g, In g (grants db) -> document_id g <> docID))
  /\ (err <> None -> db' = db)
  /\ (err = None ->
      DocumentByID db' docID
      = Err (Errorf "documentRepo/DocumentByID" ErrDocumentNotFound)
      /\ (forall other, other <> docID ->
            DocumentByID db' other = DocumentByID db other)
      /\ Delete db' docID = (None, db')).
Proof.
  assert (Hgone : has_document
                    (mkDB (engine db) (users db)
                       (List.filter (fun d => negb (String.eqb (id d) docID))
                                    (documents db))
                       (grants db)) docID = false).
  { apply not_true_iff_false. intros H.
    apply existsb_exists in H as (d & Hd & Hid). cbn [documents] in Hd.
    apply filter_In in Hd as [_ Hne]. rewrite Hid in Hne. discriminate. }
  destruct (has_document db docID && is_granted db docID) eqn:Hc;
    unfold Delete at 1; rewrite Hc.
  - apply andb_true_iff in Hc as [Hdoc Hgr].
    split; [| split]; [| reflexivity | discriminate].
    split; [discriminate |]. intros [H | H].
    + pose proof (proj2 (has_document_false _ _) H). congruence.
    + pose proof (proj2 (is_granted_false _ _) H). congruence.
  - split; [| split]; [| congruence |].
    + split; [intros _ | reflexivity].
      apply andb_false_iff in Hc as [H | H].
      * left. exact (proj1 (has_document_false _ _) H).
      * right. exact (proj1 (is_granted_false _ _) H).
    + intros _. split; [| split].
      * unfold DocumentByID. cbn [documents].
        rewrite filter_filter_neg, String.eqb_refl. reflexivity.
      * intros other Hne. unfold DocumentByID. cbn [documents].
        rewrite filter_filter_neg.
        replace (String.eqb other docID) with false
          by (symmetry; now apply String.eqb_neq).
        destruct (List.filter (fun d => String.eqb (id d) other) (documents db));
          reflexivity.
      * unfold Delete. rewrite Hgone. cbn [andb documents engine users grants].
        rewrite filter_filter_idem. reflexivity.
Qed.

(** The logins one grant row contributes to the grants of a document. *)
Definition grant_logins (db : DB) (docID : string) (g : GrantRow) : list string :=
  flat_map (fun u =>
    if String.eqb (user_id g) (User.ID u) && String.eqb (document_id g) docID
    then [User.Login u] else [])
  (users db).

Lemma grant_logins_In (db : DB) (docID : string) (g : GrantRow) (l : string) :
  In l (grant_logins db docID g) <->
  document_id g = docID
  /\ exists u, In u (users db) /\ User.ID u = user_id g /\ User.Login u = l.
Proof.
  unfold grant_logins. rewrite in_flat_map. split.
  - intros (u & Hu & H).
    destruct (String.eqb_spec (user_id g) (User.ID u)) as [Hid | Hid];
      destruct (String.eqb_spec (document_id g) docID) as [Hd | Hd];
      cbn in H; try contradiction.
    destruct H as [<- | []]. split; [assumption |]. exists u. auto.
  - intros (Hd & u & Hu & Hid & <-). exists u. split; [assumption |].
    rewrite <- Hid, Hd, !String.eqb_refl. now left.
Qed.

Lemma grant_logins_other (db : DB) (docID : string) (g : GrantRow) :
  document_id g <> docID -> grant_logins db docID g = [].
Proof.
  intros Hne. unfold grant_logins.
  replace (String.eqb (document_id g) docID) with false
    by (symmetry; now apply String.eqb_neq).
  induction (users db) as [| u l IH]; cbn; [reflexivity |].
  rewrite andb_false_r. exact IH.
Qed.

(** The tables after a replacement of the grants of [docID] by one row
    per element of [userIDs]. *)
Definition replaced (db : DB) (docID : string) (userIDs : list string) : DB :=
  mkDB (engine db) (users db) (documents db)
       (List.filter (fun g => negb (String.eqb (document_id g) docID)) (grants db)
        ++ map (mkGrantRow docID) userIDs).

Lemma getGrants_replaced (db : DB) (docID : string) (userIDs : list string) :
  (forall l,
     In l (getGrants (replaced db docID userIDs) docID) <->
     exists u, In u (users db) /\ In (User.ID u) userIDs /\ User.Login u = l)
  /\ (forall other, other <> docID ->
        getGrants (replaced db docID userIDs) other = getGrants db other).
Proof.
  split.
  - intros l. change (getGrants (replaced db docID userIDs) docID)
      with (flat_map (grant_logins db docID)
              (List.filter (fun g => negb (String.eqb (document_id g) docID)) (grants db)
               ++ map (mkGrantRow docID) userIDs)).
    rewrite flat_map_app, in_app_iff, !in_flat_map. split.
    + intros [(g & Hg & Hl) | (g & Hg & Hl)].
      * apply filter_In in Hg as [_ Hne]. apply grant_logins_In in Hl as [Hd _].
        rewrite Hd, String.eqb_refl in Hne. discriminate.
      * apply in_map_iff in Hg as (uid & <- & Huid).
        apply grant_logins_In in Hl as (_ & u & Hu & Hid & Hlogin).
        cbn in Hid. exists u. rewrite Hid. auto.
    + intros (u & Hu & Hid & Hlogin). right.
      exists (mkGrantRow docID (User.ID u)). split.
      * apply in_map. exact Hid.
      * apply grant_logins_In. split; [reflexivity |]. exists u. auto.
  - intros other Hne.
    change (getGrants (replaced db docID userIDs) other)
      with (flat_map (grant_logins db other)
              (List.filter (fun g => negb (String.eqb (document_id g) docID)) (grants db)
               ++ map (mkGrantRow docID) userIDs)).
    change (getGrants db other) with (flat_map (grant_logins db other) (grants db)).
    rewrite flat_map_app.
    replace (flat_map (grant_logins db other) (map (mkGrantRow docID) userIDs))
      with (@nil string).
    + rewrite app_nil_r. induction (grants db) as [| g l IH]; cbn; [reflexivity |].
      destruct (String.eqb_spec (document_id g) docID) as [Hd | Hd]; cbn.
      * rewrite IH, grant_logins_other; [reflexivity | congruence].
      * now rewrite IH.
    + symmetry. induction userIDs as [| uid l IH]; cbn; [reflexivity |].
      rewrite IH, grant_logins_other; [reflexivity | cbn; congruence].
Qed.

Lemma has_grant_snoc (gs : list GrantRow) (docID uid v : string) :
  has_grant (gs ++ [mkGrantRow docID uid]) docID v
  = has_grant gs docID v || String.eqb uid v.
Proof.
  unfold has_grant. rewrite existsb_app. cbn.
  rewrite String.eqb_refl, orb_false_r. reflexivity.
Qed.

Lemma has_grant_filtered (gs : list GrantRow) (docID uid : string) :
  has_grant (List.filter (fun g => negb (String.eqb (document_id g) docID)) gs)
            docID uid = false.
Proof.
  apply not_true_iff_false. intros H.
  apply existsb_exists in H as (g & Hg & Heq).
  apply filter_In in Hg as [_ Hne]. apply andb_true_iff in Heq as [Heq _].
  rewrite Heq in Hne. discriminate.
Qed.

(** When the inserts of the loop all go through. *)
Lemma insert_grants_Ok (db : DB) (docID : string) (userIDs : list string)
    (gs gs' : list GrantRow) :
  insert_grants db docID userIDs gs = Ok gs' <->
  gs' = gs ++ map (mkGrantRow docID) userIDs
  /\ List.NoDup userIDs
  /\ (forall uid, In uid userIDs ->
        has_grant gs docID uid = false /\ has_user db uid = true)
  /\ (userIDs <> [] -> has_document db docID = true).
Proof.
  revert gs gs'.
  induction userIDs as [| uid ids IH]; intros gs gs'; cbn [insert_grants map].
  - rewrite app_nil_r. split.
    + intros [= <-]. split; [reflexivity |]. split; [constructor |].
      split; [intros uid [] | congruence].
    + intros (-> & _). reflexivity.
  - destruct (has_grant gs docID uid) eqn:Hg.
    { split; [discriminate |]. intros (_ & _ & H & _).
      destruct (H uid (or_introl eq_refl)). congruence. }
    destruct (has_document db docID && has_user db uid) eqn:Hfk; cbn [negb].
    2:{ split; [discriminate |]. intros (_ & _ & H & Hd).
        destruct (H uid (or_introl eq_refl)) as [_ Hu].
        rewrite Hu, Hd in Hfk by discriminate. discriminate. }
    apply andb_true_iff in Hfk as [Hd Hu].
    rewrite IH, <- app_assoc. cbn [app]. split.
    + intros (-> & Hnd & Hall & _). split; [reflexivity |]. split.
      * constructor; [| exact Hnd]. intros Hin.
        destruct (Hall uid Hin) as [Hdup _].
        rewrite has_grant_snoc, String.eqb_refl, orb_true_r in Hdup. discriminate.
      * split; [| auto]. intros v [<- | Hv]; [auto |].
        destruct (Hall v Hv) as [Hdup Huser].
        rewrite has_grant_snoc in Hdup. apply orb_false_iff in Hdup as [Hdup _].
        auto.
    + intros (-> & Hnd & Hall & _). apply List.NoDup_cons_iff in Hnd as [Hnin Hnd].
      split; [reflexivity |]. split; [exact Hnd |]. split; [| auto].
      intros v Hv. destruct (Hall v (or_intror Hv)) as [Hdup Huser].
      split; [| exact Huser]. rewrite has_grant_snoc, Hdup. cbn [orb].
      apply String.eqb_neq. intros ->. exact (Hnin Hv).
Qed.

Lemma classic_ok (db : DB) (docID : string) (userIDs : list string) :
  let ok := List.NoDup userIDs
            /\ (forall uid, In uid userIDs -> has_user db uid = true)
            /\ (userIDs <> [] -> has_document db docID = true) in
  ok \/ ~ ok.
Proof.
  cbn zeta.
  destruct (insert_grants db docID userIDs
              (List.filter (fun g => negb (String.eqb (document_id g) docID))
                           (grants db))) as [gs | e] eqn:Hins.
  - apply insert_grants_Ok in Hins as (_ & Hnd & Hall & Hdoc). left.
    split; [exact Hnd |]. split; [| exact Hdoc].
    intros uid Huid. exact (proj2 (Hall uid Huid)).
  - right. intros (Hnd & Hall & Hdoc).
    assert (Hok : insert_grants db docID userIDs
                    (List.filter (fun g => negb (String.eqb (document_id g) docID))
                                 (grants db))
                  = Ok (List.filter (fun g => negb (String.eqb (document_id g) docID))
                                    (grants db)
                        ++ map (mkGrantRow docID) userIDs)).
    { apply insert_grants_Ok. split; [reflexivity |]. split; [exact Hnd |].
      split; [| exact Hdoc]. intros uid Huid.
      split; [apply has_grant_filtered | auto]. }
    congruence.
Qed.

(** [GrantAccess] goes through exactly when the IDs are pairwise different
    IDs of users and, unless there is none, the document has a row. *)
Lemma GrantAccess_cases (db : DB) (docID : string) (userIDs : list string) :
  let ok := List.NoDup userIDs
            /\ (forall uid, In uid userIDs -> has_user db uid = true)
            /\ (userIDs <> [] -> has_document db docID = true) in
  (ok -> GrantAccess db docID userIDs = (None, replaced db docID userIDs))
  /\ (~ ok -> exists err, GrantAccess db docID userIDs = (Some err, db)).
Proof.
  cbn zeta. unfold GrantAccess.
  destruct (insert_grants db docID userIDs
              (List.filter (fun g => negb (String.eqb (document_id g) docID))
                           (grants db))) as [gs | e] eqn:Hins.
  - apply insert_grants_Ok in Hins as (-> & Hnd & Hall & Hdoc). split.
    + intros _. reflexivity.
    + intros Hno. exfalso. apply Hno. split; [exact Hnd |]. split; [| exact Hdoc].
      intros uid Huid. exact (proj2 (Hall uid Huid)).
  - split.
    + intros (Hnd & Hall & Hdoc). exfalso.
      assert (Hok : insert_grants db docID userIDs
                      (List.filter (fun g => negb (String.eqb (document_id g) docID))
                                   (grants db))
                    = Ok (List.filter (fun g => negb (String.eqb (document_id g) docID))
                                      (grants db)
                          ++ map (mkGrantRow docID) userIDs)).
      { apply insert_grants_Ok. split; [reflexivity |]. split; [exact Hnd |].
        split; [| exact Hdoc]. intros uid Huid.
        split; [apply has_grant_filtered | auto]. }
      congruence.
    + intros _. eauto.
Qed.

(** X14. [GrantAccess] and the constraints of [grants].  The replacement
    goes through exactly when the IDs are pairwise different, each the ID of
    a user, and the document has a row (or no ID is given); otherwise the
    transaction is rolled back: an error is returned and the tables are as
    before.  After a replacement that went through, the grants of the
    document are the logins of the users whose ID is in the new list,
    nothing of the old list is kept unless listed again, and the grants of
    other documents are the same as before. *)
Theorem GrantAccess_replaces (db : DB) (docID : string) (userIDs : list string) :
  let '(err, db') := GrantAccess db docID userIDs in
  (err = None <->
   List.NoDup userIDs
   /\ (forall uid, In uid userIDs -> exists u, In u (users db) /\ User.ID u = uid)
   /\ (userIDs <> [] -> exists d, In d (documents db) /\ id d = docID))
  /\ (err <> None -> db' = db)
  /\ (err = None ->
      (forall l,
         In l (getGrants db' docID) <->
         exists u, In u (users db) /\ In (User.ID u) userIDs /\ User.Login u = l)
      /\ (forall other, other <> docID ->
            getGrants db' other = getGrants db other)).
Proof.
  destruct (GrantAccess_cases db docID userIDs) as [Hok Hfail]. cbn zeta in *.
  destruct (GrantAccess db docID userIDs) as [err db'] eqn:Hrun.
  destruct err as [e |].
  - assert (Hsame : db' = db).
    { destruct (classic_ok db docID userIDs) as [H | H].
      - specialize (Hok H). congruence.
      - destruct (Hfail H) as (e' & He'). congruence. }
    split; [| split]; [| intros _; exact Hsame | discriminate].
    split; [discriminate |]. intros (Hnd & Hall & Hdoc).
    assert (H : (Some e, db') = (None, replaced db docID userIDs)).
    { apply Hok. split; [exact Hnd |]. split.
      - intros uid Huid. apply has_user_true. auto.
      - intros Hne. apply has_document_true. auto. }
    discriminate H.
  - assert (Hcond : List.NoDup userIDs
                    /\ (forall uid, In uid userIDs -> has_user db uid = true)
                    /\ (userIDs <> [] -> has_document db docID = true)).
    { destruct (classic_ok db docID userIDs) as [H | H]; [exact H |].
      destruct (Hfail H) as (e' & He'). congruence. }
    specialize (Hok Hcond). injection Hok as ->.
    split; [| split]; [| congruence |].
    + split; [intros _ | reflexivity]. destruct Hcond as (Hnd & Hall & Hdoc).
      split; [exact Hnd |]. split.
      * intros uid Huid. apply has_user_true. auto.
      * intros Hne. apply has_document_true. auto.
    + intros _. apply getGrants_replaced.
Qed.






(** X15. [ListByUser] returns exactly the documents whose owner is the given ID;
    the service grants that user every access to each of them. *)
Theorem ListByUser_owned (db : DB) (userID : string) (doc : Document.t) :
  (In doc (ListByUser db userID) <->
   exists d, In d (documents db) /\ owner_id d = userID /\ doc = toDocument db d)
  /\ (In doc (ListByUser db userID) ->
      hasDeleteAccess doc userID = true
      /\ hasGrantAccess doc userID = true
      /\ forall login, hasReadAccess doc userID login = true).
Proof.
  assert (Hiff : In doc (ListByUser db userID) <->
                 exists d, In d (documents db) /\ owner_id d = userID
                           /\ doc = toDocument db d).
  { unfold ListByUser. rewrite in_map_iff. split.
    - intros (d & <- & Hd). apply filter_In in Hd as [Hd Ho].
      apply String.eqb_eq in Ho. eauto.
    - intros (d & Hd & Ho & ->). exists d. split; [reflexivity |].
      apply filter_In. split; [assumption | now apply String.eqb_eq]. }
  split; [exact Hiff |].
  intros Hin. apply Hiff in Hin as (d & _ & Ho & ->).
  unfold hasDeleteAccess, hasGrantAccess, hasReadAccess. cbn.
  rewrite Ho, String.eqb_refl. repeat split. intros login.
  rewrite orb_true_r. reflexivity.
Qed.

Lemma DocumentsGrantedTo_In (db : DB) (userID : string) (doc : Document.t) :
  In doc (DocumentsGrantedTo db userID) <->
  exists d g, In d (documents db) /\ In g (grants db)
              /\ document_id g = id d /\ user_id g = userID
              /\ doc = toDocument db d.
Proof.
  unfold DocumentsGrantedTo. rewrite in_map_iff. split.
  - intros (d & <- & Hd). apply in_flat_map in Hd as (d0 & Hd0 & H).
    apply in_flat_map in H as (g & Hg & H).
    destruct (String.eqb_spec (document_id g) (id d0)) as [Hdoc | Hdoc];
      destruct (String.eqb_spec (user_id g) userID) as [Hu | Hu];
      cbn in H; try contradiction.
    destruct H as [<- | []]. exists d0, g. auto.
  - intros (d & g & Hd & Hg & Hdoc & Hu & ->). exists d. split; [reflexivity |].
    apply in_flat_map. exists d. split; [assumption |].
    apply in_flat_map. exists g. split; [assumption |].
    rewrite Hdoc, Hu, !String.eqb_refl. now left.
Qed.

(** X16. A document [DocumentsGrantedTo] returns for the ID of a registered user
    is readable by that user under the service predicate, and, when its
    owner has a row in [users], it is also in that user's unfiltered,
    unlimited [FilteredDocuments] result. *)
Theorem DocumentsGrantedTo_visible (db : DB) (R : User.t) (doc : Document.t) :
  In R (users db) ->
  In doc (DocumentsGrantedTo db (User.ID R)) ->
  hasReadAccess doc (User.ID R) (User.Login R) = true
  /\ ((exists u, In u (users db) /\ User.ID u = Document.OwnerID doc) ->
      In doc (FilteredDocuments db "" (User.ID R) (DocumentFilter.mk "" "" 0))).
Proof.
  intros HR Hin. apply DocumentsGrantedTo_In in Hin as (d & g & Hd & Hg & Hdoc & Hu & ->).
  split.
  - unfold hasReadAccess. rewrite !orb_true_iff. right.
    apply slices_Contains_In. cbn. rewrite <- Hdoc. now apply getGrants_In.
  - intros (u & Hu' & Hown). apply FilteredDocuments_member; [cbn; lia |].
    exists d, u. repeat (split; [assumption || reflexivity || (symmetry; exact Hown) |]).
    split.
    + right; right. exists g. auto.
    + split; [right; right; reflexivity | now left].
Qed.

End RepositoryMore.

(** * The service over the in-memory stores *)




Section WorldMore.


Context (json_Marshal_doc : Document.t -> result string)
        (json_Unmarshal_doc : string -> result Document.t).






End WorldMore.

(** * Grant names of an upload request

    [userRepo.UserByLogin] ([internal/repositories/db/user]),
    [userService.UserIDByLogin] and the loop of the upload handler that turns
    the names of the request into the user IDs it stores in [Grants]. *)

Module userrepo.
(** [SELECT ... FROM users u WHERE u.login = $1] read with [GetContext]: the
    first row, [sql.ErrNoRows] turned into [ErrUserNotFound]; a failure
    [err] of the driver is wrapped. *)
Definition UserByLogin (users : list User.t) (driver : option error)
    (login : string) : result User.t :=
  match driver with
  | Some err => Err (Errorf "userRepo/UserByName" err)
  | None =>
      match List.filter (fun u => String.eqb (User.Login u) login) users with
      | [] => Err (Sentinel ErrUserNotFound)
      | rawUser :: _ => Ok rawUser
      end
  end.
End userrepo.

Module userservice.
(** [UserIDByLogin] over what the provider's [UserByLogin] answered. *)
Definition UserIDByLogin (found : result User.t) : result string :=
  match found with
  | Err err =>
      if errors_Is err ErrUserNotFound
      then Err (Sentinel ErrUserNotFound)
      else Err (Sentinel ErrInternal)
  | Ok user => Ok (User.ID user)
  end.
End userservice.

(** The loop of the upload handler: a name whose lookup fails is skipped
    ([continue]), the ID of any other name is appended. *)
Definition grantsID (UserIDByLogin : string -> result string)
    (names : list string) : list string :=
  flat_map (fun grantName =>
              match UserIDByLogin grantName with
              | Err _ => []
              | Ok grantID => [grantID]
              end) names.

Section GrantNames.
Import documentrepo.

(** The lookup the handler uses, over the [users] table. *)
Definition lookup_id (db : DB) (driver : option error) (name : string)
  : result string :=
  userservice.UserIDByLogin (userrepo.UserByLogin (users db) driver name).

Lemma lookup_id_Ok (db : DB) (name uid : string) :
  lookup_id db None name = Ok uid ->
  exists u, In u (users db) /\ User.Login u = name /\ User.ID u = uid.
Proof.
  unfold lookup_id, userrepo.UserByLogin, userservice.UserIDByLogin.
  destruct (List.filter (fun u => String.eqb (User.Login u) name) (users db))
    as [| u0 l] eqn:Hf; cbn; [discriminate |].
  intros [= <-]. exists u0.
  assert (Hin : In u0 (List.filter (fun u => String.eqb (User.Login u) name)
                                   (users db))) by (rewrite Hf; now left).
  apply filter_In in Hin as [Hin Heq]. apply String.eqb_eq in Heq. auto.
Qed.

Lemma lookup_id_registered (db : DB) (u : User.t) :
  In u (users db) ->
  exists u0, In u0 (users db) /\ User.Login u0 = User.Login u
             /\ lookup_id db None (User.Login u) = Ok (User.ID u0).
Proof.
  intros Hu. unfold lookup_id, userrepo.UserByLogin, userservice.UserIDByLogin.
  destruct (List.filter (fun x => String.eqb (User.Login x) (User.Login u)) (users db))
    as [| u0 l] eqn:Hf.
  - assert (Hin : In u (List.filter
                          (fun x => String.eqb (User.Login x) (User.Login u))
                          (users db))).
    { apply filter_In. split; [assumption | apply String.eqb_refl]. }
    rewrite Hf in Hin. destruct Hin.
  - assert (Hin : In u0 (List.filter
                           (fun x => String.eqb (User.Login x) (User.Login u))
                           (users db))) by (rewrite Hf; now left).
    apply filter_In in Hin as [Hin Heq]. apply String.eqb_eq in Heq.
    exists u0. auto.
Qed.

(** X22. With a failing driver every name is skipped: the upload goes on with
    empty [Grants] instead of failing. *)
Lemma grantsID_driver_down (db : DB) (e : error) (names : list string) :
  grantsID (lookup_id db (Some e)) names = [].
Proof.
  unfold grantsID, lookup_id, userrepo.UserByLogin, userservice.UserIDByLogin.
  cbn [errors_Is].
  destruct (errors_Is e ErrUserNotFound);
    induction names as [| n l IH]; cbn; auto.
Qed.

Lemma grantsID_In (db : DB) (names : list string) (uid : string) :
  In uid (grantsID (lookup_id db None) names) <->
  exists n, In n names /\ lookup_id db None n = Ok uid.
Proof.
  unfold grantsID. rewrite in_flat_map. split.
  - intros (n & Hn & H).
    destruct (lookup_id db None n) as [i |] eqn:Hl; [| destruct H].
    destruct H as [<- | []]. eauto.
  - intros (n & Hn & Hl). exists n. split; [assumption |]. rewrite Hl. now left.
Qed.

(** Different names give different IDs. *)
Lemma grantsID_NoDup (db : DB) (names : list string) :
  (forall u u', In u (users db) -> In u' (users db) ->
                User.ID u = User.ID u' -> u = u') ->
  List.NoDup names -> List.NoDup (grantsID (lookup_id db None) names).
Proof.
  intros Hkey Hnd. induction Hnd as [| n ns Hnin Hnd IH]; [constructor |].
  change (grantsID (lookup_id db None) (n :: ns))
    with (match lookup_id db None n with
          | Err _ => []
          | Ok grantID => [grantID]
          end ++ grantsID (lookup_id db None) ns).
  destruct (lookup_id db None n) as [uid |] eqn:Hl; [| exact IH].
  cbn [app]. constructor; [| exact IH]. intros Hin.
  apply grantsID_In in Hin as (n' & Hn' & Hl').
  apply lookup_id_Ok in Hl as (u & Hu & Hlogin & Hid).
  apply lookup_id_Ok in Hl' as (u' & Hu' & Hlogin' & Hid').
  assert (u = u') by (apply Hkey; congruence). subst u'.
  apply Hnin. congruence.
Qed.

(** X21. Grant names end to end.  The names of an upload request are turned
    into user IDs by the handler's loop and stored by [GrantAccess], for a
    document that has a row.  The grant write goes through exactly when the
    loop produced no ID twice, which is so when no name is given twice: the
    loop does not remove repetitions.  Read back after a write that went
    through, the document's [Grants] are the requested names that are logins
    of users; names of no user are dropped without an error.  The [users]
    table is taken with its key: no two rows share an ID. *)
Theorem grant_names_round_trip (db : DB) (docID : string) (names : list string) :
  (forall u u', In u (users db) -> In u' (users db) ->
                User.ID u = User.ID u' -> u = u') ->
  (exists d, In d (documents db) /\ id d = docID) ->
  let '(err, db') := GrantAccess db docID (grantsID (lookup_id db None) names) in
  (err = None <-> List.NoDup (grantsID (lookup_id db None) names))
  /\ (List.NoDup names -> err = None)
  /\ (err = None ->
      forall l, In l (getGrants db' docID)
                <-> In l names /\ exists u, In u (users db) /\ User.Login u = l).
Proof.
  intros Hkey Hdoc.
  assert (Husers : forall uid, In uid (grantsID (lookup_id db None) names) ->
                     has_user db uid = true).
  { intros uid Hin. apply grantsID_In in Hin as (n & _ & Hl).
    apply lookup_id_Ok in Hl as (u & Hu & _ & Hid).
    apply has_user_true. eauto. }
  assert (Hhas : has_document db docID = true) by (apply has_document_true; exact Hdoc).
  destruct (GrantAccess_cases db docID (grantsID (lookup_id db None) names))
    as [Hok Hfail]. cbn zeta in *.
  assert (Hiff : fst (GrantAccess db docID (grantsID (lookup_id db None) names)) = None
                 <-> List.NoDup (grantsID (lookup_id db None) names)).
  { split.
    - intros Hnone.
      destruct (classic_ok db docID (grantsID (lookup_id db None) names)) as [H | H].
      + exact (proj1 H).
      + destruct (Hfail H) as (e & He). rewrite He in Hnone. discriminate.
    - intros Hnd. rewrite Hok; [reflexivity |]. auto. }
  destruct (GrantAccess db docID (grantsID (lookup_id db None) names))
    as [err db'] eqn:Hrun.
  cbn [fst] in Hiff. split; [exact Hiff |]. split.
  - intros Hnd. apply Hiff. now apply grantsID_NoDup.
  - intros Hnone. apply Hiff in Hnone.
    assert (Heq : (err, db')
                  = (None, replaced db docID (grantsID (lookup_id db None) names)))
      by (apply Hok; auto).
    injection Heq as _ ->. intros l.
    rewrite (proj1 (getGrants_replaced db docID _)). split.
    + intros (u & Hu & Hid & <-). apply grantsID_In in Hid as (n & Hn & Hl).
      apply lookup_id_Ok in Hl as (u0 & Hu0 & Hlogin & Hid0).
      assert (u0 = u) as -> by (apply Hkey; congruence).
      subst n. split; [assumption | eauto].
    + intros (Hn & u & Hu & <-).
      destruct (lookup_id_registered db u Hu) as (u0 & Hu0 & Hlogin & Hl).
      exists u0. split; [assumption |]. split; [| assumption].
      apply grantsID_In. eauto.
Qed.

End GrantNames.

(** * The HTTP handlers of a single document,
    [internal/http/handlers/docs/get.go] and [delete.go]

    What a handler writes to the [http.ResponseWriter], as a value.
    [errutils.WriteJSONError(w, status, message)] is [JSONError]; a handler
    that would dereference the nil [file] is [Panics]. *)

Module dto.
(** [dto.DocumentResponse]: what a listing shows of a document. *)
Record DocumentResponse := mkDocumentResponse {
  ID : string;
  Name : string;
  Mime : string;
  IsFile : bool;
  IsPublic : bool;
  CreatedAt : Time;
  Grants : list string
}.
End dto.

Inductive Response (J : Type) :=
| JSONError (status : nat) (message : string)
| DeleteOK (token : string)
| FileOK (contentDisposition contentType : string) (body : Bytes)
| DataOK (parsed : J)
| DocsOK (docs : list dto.DocumentResponse)
| Panics.
Arguments JSONError {J} status message.
Arguments DeleteOK {J} token.
Arguments FileOK {J} contentDisposition contentType body.
Arguments DataOK {J} parsed.
Arguments DocsOK {J} docs.
Arguments Panics {J}.

(** [parseutil.ParseLimit] over what [strconv.Atoi] answered. *)
Definition ParseLimit (atoi : result Z) : Z :=
  match atoi with
  | Err _ => 0
  | Ok limit => if (limit <=? 0)%Z then 0 else limit
  end.

Definition StatusBadRequest : nat := 400.
Definition StatusForbidden : nat := 403.
Definition StatusInternalServerError : nat := 500.

(** [err.Error()] of the sentinels the handlers print. *)
Definition ErrForbidden_Error : string := "access denied".
Definition ErrInvalidParams_Error : string := "invalid params".
Definition ErrInternal_Error : string := "internal server error".

Section Handlers.
Context (json_Marshal_doc : Document.t -> result string)
        (json_Unmarshal_doc : string -> result Document.t).
(** [json.Unmarshal(doc.JSONData, &parsed)] into [map[string]any]. *)
Context {J : Type} (json_Unmarshal_map : Bytes -> result J).

(** [docs.Delete]; [auth] is what [auth.UserByToken(ctx, token)] answered. *)
Definition Delete_handler (token : string) (auth : result User.t) (docID : string)
  : Prog (Response J) :=
  match auth with
  | Err _ => mret (JSONError StatusForbidden "token is invalid")
  | Ok requester =>
      err ← DeleteDocument json_Marshal_doc json_Unmarshal_doc docID requester;
      match err with
      | Some e =>
          if errors_Is e ErrForbidden
          then mret (JSONError StatusForbidden ErrForbidden_Error)
          else mret (JSONError StatusBadRequest ErrInvalidParams_Error)
      | None => mret (DeleteOK token)
      end
  end.

(** [docs.GetByID]; [requester] is the user found in the request context. *)
Definition GetByID (requester : option User.t) (docID : string)
  : Prog (Response J) :=
  match requester with
  | None => mret (JSONError StatusForbidden ErrForbidden_Error)
  | Some requester =>
      r ← DocumentByID json_Marshal_doc json_Unmarshal_doc docID requester;
      match r with
      | Err e =>
          if errors_Is e ErrForbidden
          then mret (JSONError StatusForbidden ErrForbidden_Error)
          else mret (JSONError StatusBadRequest ErrInvalidParams_Error)
      | Ok (doc, file) =>
          if Document.IsFile doc then
            match file with
            | Some content =>
                mret (FileOK ("attachment; filename=" +:+ samplejson.dquote
                              +:+ Document.Name doc +:+ samplejson.dquote)
                             (Document.Mime doc) content)
            | None => mret Panics
            end
          else
            match json_Unmarshal_map (Document.JSONData doc) with
            | Err _ => mret (JSONError StatusInternalServerError "invalid json data")
            | Ok parsed => mret (DataOK parsed)
            end
      end
  end.

(** [docs.Get]: [login], [key], [value] and [limit] are the query
    parameters, [atoi] what [strconv.Atoi] answers for a string. *)
Definition Get (json_Marshal_docs : list Document.t -> result string)
    (json_Unmarshal_docs : string -> result (list Document.t))
    (atoi : string -> result Z)
    (requester : option User.t) (login key value limit : string)
  : Prog (Response J) :=
  let limit := ParseLimit (atoi limit) in
  match requester with
  | None => mret (JSONError StatusForbidden ErrForbidden_Error)
  | Some requester =>
      let filter := DocumentFilter.mk key value limit in
      r ← ListDocuments json_Marshal_docs json_Unmarshal_docs requester login filter;
      match r with
      | Err _ => mret (JSONError StatusInternalServerError ErrInternal_Error)
      | Ok rawDocs =>
          mret (DocsOK
                  (map (fun doc =>
                          dto.mkDocumentResponse (Document.ID doc) (Document.Name doc)
                            (Document.Mime doc) (Document.IsFile doc)
                            (Document.IsPublic doc) (Document.CreatedAt doc)
                            (Document.Grants doc))
                       rawDocs))
      end
  end.

Context {S : Type} (h : Handler S).

(** The errors resolution returns are not [ErrForbidden]. *)
Lemma documentMetaByID_not_forbidden (docID : string) (s : S) (e : error) :
  fst (fst (run h (documentMetaByID json_Marshal_doc json_Unmarshal_doc docID) s)) = Err e ->
  errors_Is e ErrForbidden = false.
Proof.
  unfold documentMetaByID.
  cbn [run mbind Prog_bind bind call].
  destruct (h _ (cache_Get docID) s) as [[docJSON err] s1].
  destruct (negb (is_nil err) || String.eqb docJSON "").
  - cbn [run mbind Prog_bind bind call].
    destruct (h _ (docRepo_DocumentByID docID) s1) as [[doc | e0] s2].
    + destruct (docToJSON json_Marshal_doc doc) as [j | e']; cbn.
      * destruct (h _ (cache_Set docID j) s2); cbn. discriminate.
      * discriminate.
    + destruct (errors_Is e0 ErrDocumentNotFound); cbn; intros [= <-]; reflexivity.
  - destruct (jsonToDoc json_Unmarshal_doc docJSON); cbn; [discriminate |].
    intros [= <-]. reflexivity.
Qed.

(** [DeleteDocument] answers an error that is [ErrForbidden] exactly when
    the document was resolved and the requester lacks delete access. *)
Lemma DeleteDocument_forbidden_iff (docID : string) (R : User.t) (s : S) :
  (exists e,
     fst (fst (run h (DeleteDocument json_Marshal_doc json_Unmarshal_doc docID R) s))
     = Some e /\ errors_Is e ErrForbidden = true)
  <-> exists D,
        fst (fst (run h (documentMetaByID json_Marshal_doc json_Unmarshal_doc docID) s))
        = Ok D
        /\ hasDeleteAccess D (User.ID R) = false.
Proof.
  pose proof (documentMetaByID_not_forbidden docID s) as Hnf.
  unfold DeleteDocument. rewrite run_bind.
  destruct (run h (documentMetaByID json_Marshal_doc json_Unmarshal_doc docID) s)
    as [[r s1] tr0].
  cbn [fst] in *. destruct r as [D | e0].
  - destruct (hasDeleteAccess D (User.ID R)) eqn:Hacc; cbn [negb].
    + split; [| intros (D' & [= <-] & Hno); congruence].
      intros (e & He & Hforb). exfalso. revert He Hforb.
      rewrite run_call_bind.
      destruct (h _ (docRepo_Delete docID) s1) as [mr s2]. cbn beta iota zeta.
      destruct (match mr with
                | Some e1 => negb (errors_Is e1 ErrDocumentNotFound)
                | None => false
                end).
      * rewrite run_ret. cbn. intros [= <-]. discriminate.
      * rewrite run_call_bind.
        destruct (h _ (cache_Del _) s2) as [cr s3]. cbn beta iota zeta.
        destruct (Document.IsFile D).
        -- rewrite run_call_bind.
           destruct (h _ (fileStorage_DeleteFile D) s3) as [fr s4].
           cbn beta iota zeta. destruct fr as [e1 |].
           ++ destruct (errors_Is e1 ErrDocumentNotFound); rewrite run_ret; cbn;
                intros [= <-]; discriminate.
           ++ rewrite run_ret. cbn. discriminate.
        -- rewrite run_ret. cbn. discriminate.
    + rewrite run_ret. cbn. split.
      * intros _. exists D. auto.
      * intros _. exists (Sentinel ErrForbidden). auto.
  - rewrite run_ret. cbn. split.
    + intros (e & [= <-] & Hforb). rewrite (Hnf e0 eq_refl) in Hforb. discriminate.
    + intros (D & [=] & _).
Qed.

(** X23. [docs.Delete] answers 403 [access denied] exactly when the document was
    resolved and the requester is not its owner; every other failure of the
    service, a missing document included, is answered 400 [invalid params];
    the handler writes no other status. *)
Theorem Delete_handler_statuses (token docID : string) (R : User.t) (s : S) :
  let resp := fst (fst (run h (Delete_handler token (Ok R) docID) s)) in
  let meta := fst (fst (run h (documentMetaByID json_Marshal_doc json_Unmarshal_doc docID) s)) in
  (resp = JSONError StatusForbidden ErrForbidden_Error
   <-> exists D, meta = Ok D /\ hasDeleteAccess D (User.ID R) = false)
  /\ (forall e, meta = Err e ->
      resp = JSONError StatusBadRequest ErrInvalidParams_Error)
  /\ (resp = JSONError StatusForbidden ErrForbidden_Error
      \/ resp = JSONError StatusBadRequest ErrInvalidParams_Error
      \/ resp = DeleteOK token).
Proof.
  cbn zeta.
  pose proof (DeleteDocument_forbidden_iff docID R s) as Hiff.
  pose proof (documentMetaByID_not_forbidden docID s) as Hnf.
  assert (Hmiss : forall e,
    fst (fst (run h (documentMetaByID json_Marshal_doc json_Unmarshal_doc docID) s)) = Err e ->
    fst (fst (run h (DeleteDocument json_Marshal_doc json_Unmarshal_doc docID R) s)) = Some e).
  { intros e. unfold DeleteDocument. rewrite run_bind.
    destruct (run h (documentMetaByID json_Marshal_doc json_Unmarshal_doc docID) s)
      as [[r s1] tr0].
    cbn [fst]. intros ->. rewrite run_ret. reflexivity. }
  unfold Delete_handler. rewrite run_bind.
  destruct (run h (DeleteDocument json_Marshal_doc json_Unmarshal_doc docID R) s)
    as [[err s1] tr0].
  cbn [fst] in *. destruct err as [e |].
  - destruct (errors_Is e ErrForbidden) eqn:Hforb; rewrite run_ret; cbn [fst].
    + split; [| split].
      * split; [intros _ | reflexivity]. apply Hiff. exists e. auto.
      * intros e0 He0. specialize (Hmiss e0 He0). injection Hmiss as <-.
        rewrite (Hnf e He0) in Hforb. discriminate.
      * left. reflexivity.
    + split; [| split].
      * split; [discriminate |]. intros HD. apply Hiff in HD.
        destruct HD as (e' & [= <-] & He'). congruence.
      * reflexivity.
      * right. left. reflexivity.
  - rewrite run_ret. cbn [fst]. split; [| split].
    + split; [discriminate |]. intros HD. apply Hiff in HD.
      destruct HD as (e' & [=] & _).
    + intros e0 He0. specialize (Hmiss e0 He0). discriminate.
    + right. right. reflexivity.
Qed.

(** [DocumentByID] answers an error that is [ErrForbidden] exactly when the
    document was resolved and the requester lacks read access; metadata of a
    file never comes back without its content. *)
Lemma DocumentByID_forbidden_iff (docID : string) (R : User.t) (s : S) :
  let res := fst (fst (run h (DocumentByID json_Marshal_doc json_Unmarshal_doc docID R) s)) in
  let meta := fst (fst (run h (documentMetaByID json_Marshal_doc json_Unmarshal_doc docID) s)) in
  ((exists e, res = Err e /\ errors_Is e ErrForbidden = true)
   <-> exists D, meta = Ok D
                 /\ hasReadAccess D (User.ID R) (User.Login R) = false)
  /\ (forall e, meta = Err e -> res = Err e)
  /\ (forall doc file, res = Ok (doc, file) ->
      Document.IsFile doc = true -> file <> None).
Proof.
  cbn zeta.
  pose proof (documentMetaByID_not_forbidden docID s) as Hnf.
  unfold DocumentByID. rewrite run_bind.
  destruct (run h (documentMetaByID json_Marshal_doc json_Unmarshal_doc docID) s)
    as [[r s1] tr0].
  cbn [fst] in *. destruct r as [D | e0].
  - destruct (hasReadAccess D (User.ID R) (User.Login R)) eqn:Hacc; cbn [negb].
    + destruct (Document.IsFile D) eqn:HF.
      * rewrite run_call_bind.
        destruct (h _ (fileStorage_LoadFile D) s1) as [[file | e1] s2];
          cbn beta iota zeta; rewrite run_ret; cbn [fst].
        -- split; [| split].
           ++ split; [intros (e & [=] & _) | intros (D' & [= <-] & Hno); congruence].
           ++ discriminate.
           ++ intros doc f [= <- <-] _. discriminate.
        -- split; [| split].
           ++ split; [intros (e & [= <-] & Hf); discriminate
                     | intros (D' & [= <-] & Hno); congruence].
           ++ discriminate.
           ++ discriminate.
      * rewrite run_ret. cbn [fst]. split; [| split].
        -- split; [intros (e & [=] & _) | intros (D' & [= <-] & Hno); congruence].
        -- discriminate.
        -- intros doc f [= <- <-] HF'. congruence.
    + rewrite run_ret. cbn [fst]. split; [| split].
      * split; [intros _; exists D; auto
               | intros _; exists (Sentinel ErrForbidden); auto].
      * discriminate.
      * discriminate.
  - rewrite run_ret. cbn [fst]. split; [| split].
    + split.
      * intros (e & [= <-] & Hf). rewrite (Hnf e0 eq_refl) in Hf. discriminate.
      * intros (D & [=] & _).
    + intros e [= <-]. reflexivity.
    + discriminate.
Qed.

(** X24. [docs.GetByID] answers 403 [access denied] exactly when the document was
    resolved and the requester may not read it; a document that could not be
    resolved is answered 400 [invalid params]; the handler never copies from
    a nil file. *)
Theorem GetByID_statuses (docID : string) (R : User.t) (s : S) :
  let resp := fst (fst (run h (GetByID (Some R) docID) s)) in
  let meta := fst (fst (run h (documentMetaByID json_Marshal_doc json_Unmarshal_doc docID) s)) in
  (resp = JSONError StatusForbidden ErrForbidden_Error
   <-> exists D, meta = Ok D
                 /\ hasReadAccess D (User.ID R) (User.Login R) = false)
  /\ (forall e, meta = Err e ->
      resp = JSONError StatusBadRequest ErrInvalidParams_Error)
  /\ resp <> Panics.
Proof.
  cbn zeta.
  pose proof (DocumentByID_forbidden_iff docID R s) as (Hiff & Hmiss & Hfile).
  pose proof (documentMetaByID_not_forbidden docID s) as Hnf.
  unfold GetByID. rewrite run_bind.
  destruct (run h (DocumentByID json_Marshal_doc json_Unmarshal_doc docID R) s)
    as [[res s1] tr0].
  cbn [fst] in *. destruct res as [[doc file] | e].
  - assert (Hno : ~ exists D,
      fst (fst (run h (documentMetaByID json_Marshal_doc json_Unmarshal_doc docID) s)) = Ok D
      /\ hasReadAccess D (User.ID R) (User.Login R) = false).
    { intros HD. apply Hiff in HD. destruct HD as (e & [=] & _). }
    destruct (Document.IsFile doc) eqn:HF.
    + destruct file as [content |].
      * rewrite run_ret. cbn [fst]. split; [| split].
        -- split; [discriminate | intros HD; destruct (Hno HD)].
        -- intros e He. specialize (Hmiss e He). discriminate.
        -- discriminate.
      * destruct (Hfile doc None eq_refl HF eq_refl).
    + destruct (json_Unmarshal_map (Document.JSONData doc)); rewrite run_ret;
        cbn [fst]; (split; [| split]);
        [ split; [discriminate | intros HD; destruct (Hno HD)]
        | intros e0 He; specialize (Hmiss e0 He); discriminate
        | discriminate
        | split; [discriminate | intros HD; destruct (Hno HD)]
        | intros e0 He; specialize (Hmiss e0 He); discriminate
        | discriminate ].
  - destruct (errors_Is e ErrForbidden) eqn:Hforb; rewrite run_ret; cbn [fst].
    + split; [| split].
      * split; [intros _ | reflexivity]. apply Hiff. exists e. auto.
      * intros e0 He0. specialize (Hmiss e0 He0). injection Hmiss as <-.
        rewrite (Hnf e He0) in Hforb. discriminate.
      * discriminate.
    + split; [| split].
      * split; [discriminate |]. intros HD. apply Hiff in HD.
        destruct HD as (e' & [= <-] & He'). congruence.
      * reflexivity.
      * discriminate.
Qed.

(** X25. [docs.Get] for a requester found in the context answers a listing or
    500 [internal server error], and no other status: a filter that
    [ListDocuments] rejects as invalid on a cache miss is answered 500, not
    400.  The limit it passes on is never negative. *)
Theorem Get_statuses (json_Marshal_docs : list Document.t -> result string)
    (json_Unmarshal_docs : string -> result (list Document.t))
    (atoi : string -> result Z)
    (R : User.t) (login key value limit : string) (s : S) :
  let resp := fst (fst (run h (Get json_Marshal_docs json_Unmarshal_docs atoi
                                 (Some R) login key value limit) s)) in
  let filter := DocumentFilter.mk key value (ParseLimit (atoi limit)) in
  (resp = JSONError StatusInternalServerError ErrInternal_Error
   \/ exists docs, resp = DocsOK docs)
  /\ (forall cached cerr s1,
        h _ (cache_Get (listCacheKey (User.Login R) login filter)) s
        = ((cached, cerr), s1) ->
        cerr <> None \/ cached = "" ->
        DocumentFilter.IsValid filter = false ->
        resp = JSONError StatusInternalServerError ErrInternal_Error)
  /\ (0 <= DocumentFilter.Limit filter)%Z.
Proof.
  cbn zeta. split; [| split].
  - unfold Get. cbn zeta. rewrite run_bind.
    destruct (run h (ListDocuments json_Marshal_docs json_Unmarshal_docs R login _) s)
      as [[[docs | e] s1] tr]; rewrite run_ret; cbn [fst]; eauto.
  - intros cached cerr s1 Hget Hmiss Hbad.
    unfold Get, ListDocuments. cbn zeta.
    rewrite run_bind, run_call_bind, Hget. cbn beta iota zeta.
    rewrite (miss_test_true cached cerr Hmiss), Hbad. cbn [negb].
    rewrite run_ret. cbn beta iota zeta. rewrite run_ret. reflexivity.
  - cbn [DocumentFilter.Limit]. unfold ParseLimit.
    destruct (atoi limit) as [n | e]; [| lia].
    destruct (Z.leb_spec n 0); lia.
Qed.

End Handlers.

(** * Reads after writes, through the cache

    The service over the in-memory stores without faults: what a read of a
    document answers after the document was deleted or its grants were
    replaced. *)





Section WorldCoherence.
Context (json_Marshal_doc : Document.t -> result string)
        (json_Unmarshal_doc : string -> result Document.t).






End WorldCoherence.

(** * The further properties on the example stores *)

(** The stores after [d1] was resolved once: its metadata is cached. *)
Definition w_cached : World := snd (fst (resolved w_stored)).

(** An inline document of alice without grants. *)
Definition memo : Document.t :=
  Document.mk "" "u1" "memo" "application/json" false false "" "{}" [] 0%Z.

Definition by_owner : DocumentFilter.t := DocumentFilter.mk "owner" "u1" 0%Z.

Lemma documentMetaByID_success_paths_witness :
  run world (documentMetaByID Marshal Unmarshal "d1") w_cached
  = (Ok doc1, tick w_cached, [EvCacheGet "d1" (samplejson.text doc1, None)])
  /\ run world (documentMetaByID Marshal Unmarshal "d1") w_stored
     = (Ok doc1,
        after (cache_Set "d1" (samplejson.text doc1)) (tick (tick w_stored)),
        [EvCacheGet "d1" ("", None); EvDocumentByID "d1" (Ok doc1);
         EvCacheSet "d1" (samplejson.text doc1) None]).
Proof.
  split.
  - refine (proj1 (documentMetaByID_success_paths Marshal Unmarshal world
                     "d1" w_cached (tick w_cached) (samplejson.text doc1) None
                     eq_refl)
                  eq_refl _ doc1 eq_refl).
    discriminate.
  - exact (proj2 (proj2 (documentMetaByID_success_paths Marshal Unmarshal world
                           "d1" w_stored (tick w_stored) "" None eq_refl)
                        (or_intror eq_refl) doc1 (tick (tick w_stored)) eq_refl)
                 (samplejson.text doc1) None _ eq_refl eq_refl).
Defined.

Lemma DocumentByID_returns_witness :
  run world (DocumentByID Marshal Unmarshal "d404" bob) w_stored
  = (Err (Errorf "documentService/documentMetaByID" ErrDocumentNotFound),
     snd (fst (resolved_as "d404" w_stored)), snd (resolved_as "d404" w_stored))
  /\ (run world (DocumentByID Marshal Unmarshal "d2" alice) w_stored
      = (Ok (doc2, None), snd (fst (resolved_as "d2" w_stored)),
         snd (resolved_as "d2" w_stored))
      /\ Forall (fun e => is_fileStorage e = false) (snd (resolved_as "d2" w_stored)))
  /\ run world (DocumentByID Marshal Unmarshal "d1" bob) w_stored
     = (Ok (doc1, Some "%PDF-1.7"), tick (snd (fst (resolved w_stored))),
        snd (resolved w_stored) ++ [EvLoadFile doc1 (Ok "%PDF-1.7")]).
Proof.
  split; [| split].
  - exact (proj1 (DocumentByID_returns Marshal Unmarshal world "d404" bob
                    w_stored _ _ _ (eq_refl (resolved_as "d404" w_stored)))
                 _ eq_refl).
  - exact (proj1 (proj2 (DocumentByID_returns Marshal Unmarshal world "d2" alice
                           w_stored _ _ _ (eq_refl (resolved_as "d2" w_stored)))
                        doc2 eq_refl eq_refl)
                 eq_refl).
  - exact (proj2 (proj2 (DocumentByID_returns Marshal Unmarshal world "d1" bob
                           w_stored _ _ _ (eq_refl (resolved w_stored)))
                        doc1 eq_refl eq_refl)
                 eq_refl "%PDF-1.7" _ eq_refl).
Defined.

Lemma DeleteDocument_refusals_witness :
  run world (DeleteDocument Marshal Unmarshal "d404" alice) w_stored
  = (Some (Errorf "documentService/documentMetaByID" ErrDocumentNotFound),
     snd (fst (resolved_as "d404" w_stored)), snd (resolved_as "d404" w_stored))
  /\ run world (DeleteDocument Marshal Unmarshal "d1" bob) w_stored
     = (Some (Sentinel ErrForbidden), snd (fst (resolved w_stored)),
        snd (resolved w_stored))
  /\ db (snd (fst (run world (DeleteDocument Marshal Unmarshal "d1" bob) w_stored)))
     = db1.
Proof.
  pose proof (DeleteDocument_refusals Marshal Unmarshal world "d1" bob
                w_stored _ _ _ (eq_refl (resolved w_stored))) as (_ & _ & Hforb).
  split; [| split].
  - exact (proj1 (proj2 (DeleteDocument_refusals Marshal Unmarshal world "d404"
                           alice w_stored _ _ _
                           (eq_refl (resolved_as "d404" w_stored))))
                 _ eq_refl).
  - exact (Hforb doc1 eq_refl eq_refl).
  - rewrite (Hforb doc1 eq_refl eq_refl). reflexivity.
Defined.

Lemma GrantAccess_outcomes_witness :
  run world (GrantAccess Marshal Unmarshal "d1" bob ["u3"]) w_stored
  = (Some (Sentinel ErrForbidden), snd (fst (resolved w_stored)),
     snd (resolved w_stored))
  /\ (exists s4 tail,
        run world (GrantAccess Marshal Unmarshal "d1" alice ["u3"]) w_stored
        = (None, s4,
           snd (resolved w_stored)
           ++ EvGrantAccess "d1" ["u3"] None
              :: EvCacheDel ["d1"; "docs:alice"] None :: tail)
        /\ map del_keys tail = [Some ["docs:bob"]]).
Proof.
  split.
  - exact (proj1 (GrantAccess_outcomes Marshal Unmarshal world "d1" bob ["u3"]
                    doc1 w_stored _ _ (eq_refl (resolved w_stored)))
                 eq_refl).
  - exact (proj2 (proj2 (GrantAccess_outcomes Marshal Unmarshal world "d1" alice
                           ["u3"] doc1 w_stored _ _ (eq_refl (resolved w_stored)))
                        eq_refl None _ eq_refl)
                 eq_refl None _ eq_refl).
Defined.

Lemma UploadDocument_success_witness :
  run world (UploadDocument alice memo "") w_listed
  = (("uuid-0", None),
     snd (fst (run world (UploadDocument alice memo "") w_listed)),
     [EvNewV4 "uuid-0"; EvNow 1700000000%Z;
      EvCreateDocument (Document.stamp memo "uuid-0" 1700000000%Z) None;
      EvCacheDel ["docs:alice"] None])
  /\ (exists s6 tail,
        run world (UploadDocument alice report "%PDF-1.7") w_listed
        = (("uuid-0", None), s6,
           [EvNewV4 "uuid-0"; EvNow 1700000000%Z]
           ++ [EvSaveFile report' "%PDF-1.7" None]
           ++ EvCreateDocument report' None
              :: EvGrantAccess "uuid-0" ["u2"] None :: tail)
        /\ map del_keys tail = [Some ["docs:u2"]; Some ["docs:alice"]]).
Proof.
  split.
  - set (w := w_listed).
    set (s2 := after time_Now (after uuid_NewV4 w)).
    set (memo' := Document.stamp memo "uuid-0" 1700000000%Z).
    set (s4 := after (docRepo_CreateDocument memo') s2).
    pose proof (proj1 (UploadDocument_success world alice memo "" w
                         (after uuid_NewV4 w) s2 s2 s4 "uuid-0" 1700000000%Z []
                         eq_refl eq_refl eq_refl eq_refl)
                      eq_refl None _ eq_refl) as Hrun.
    rewrite Hrun. reflexivity.
  - set (w := w_listed).
    set (s2 := after time_Now (after uuid_NewV4 w)).
    set (s3 := after (fileStorage_SaveFile report' "%PDF-1.7") s2).
    set (s4 := after (docRepo_CreateDocument report') s3).
    assert (Hne : Document.Grants report <> []) by discriminate.
    exact (proj2 (UploadDocument_success world alice report "%PDF-1.7" w
                    (after uuid_NewV4 w) s2 s3 s4 "uuid-0" 1700000000%Z
                    [EvSaveFile report' "%PDF-1.7" None]
                    eq_refl eq_refl eq_refl eq_refl)
                 Hne _ eq_refl).
Defined.

Lemma ListDocuments_cache_and_filter_witness :
  run world (ListDocuments MarshalDocs UnmarshalDocs bob "" no_filter) w_listed
  = (Ok [], tick w_listed, [EvCacheGet bobs_list_key ("[]", None)])
  /\ run world (ListDocuments MarshalDocs UnmarshalDocs bob "" by_owner) w_stored
     = (Err (Sentinel ErrInvalidParams), tick w_stored,
        [EvCacheGet (listCacheKey "bob" "" by_owner) ("", None)]).
Proof.
  split.
  - refine (proj1 (ListDocuments_cache_and_filter MarshalDocs UnmarshalDocs world
                     bob "" no_filter w_listed (tick w_listed) "[]" None eq_refl)
                  eq_refl _).
    discriminate.
  - exact (proj2 (ListDocuments_cache_and_filter MarshalDocs UnmarshalDocs world
                    bob "" by_owner w_stored (tick w_stored) "" None eq_refl)
                 (or_intror eq_refl) eq_refl).
Defined.

(** The repository is down for the query of a listing. *)
Definition w_query_down (e : error) : World := w_stored_failing 1 e.

Lemma ListDocuments_repository_outcomes_witness :
  run world (ListDocuments MarshalDocs UnmarshalDocs bob "" no_filter)
      (w_query_down (Sentinel ErrDocumentNotFound))
  = (Ok [], tick (tick (w_query_down (Sentinel ErrDocumentNotFound))),
     [EvCacheGet bobs_list_key ("", None);
      EvFilteredDocuments "" "u2" no_filter
        (Err (Errorf "documentRepo/FilteredOrders" (Sentinel ErrDocumentNotFound)))])
  /\ fst (fst (run world (ListDocuments MarshalDocs UnmarshalDocs bob "" no_filter)
                   (w_query_down refused)))
     = Err (Errorf "documentService/ListDocuments" ErrInternal)
  /\ (fst (fst (run world (ListDocuments MarshalDocs UnmarshalDocs bob "" no_filter)
                    w_stored))
      = Ok [doc1]
      /\ redis (snd (fst (run world (ListDocuments MarshalDocs UnmarshalDocs bob ""
                                       no_filter) w_stored)))
         !! bobs_list_key = Some (samplejson.texts [doc1])).
Proof.
  split; [| split].
  - set (w := w_query_down (Sentinel ErrDocumentNotFound)).
    exact (proj1 (ListDocuments_repository_outcomes MarshalDocs UnmarshalDocs world
                    bob "" no_filter w (tick w) (tick (tick w)) "" None _
                    eq_refl (or_intror eq_refl) eq_refl eq_refl)
                 _ eq_refl).
  - set (w := w_query_down refused).
    rewrite (proj1 (ListDocuments_repository_outcomes MarshalDocs UnmarshalDocs world
                      bob "" no_filter w (tick w) (tick (tick w)) "" None _
                      eq_refl (or_intror eq_refl) eq_refl eq_refl)
                   _ eq_refl).
    reflexivity.
  - set (w := w_stored).
    rewrite (proj2 (proj2 (ListDocuments_repository_outcomes MarshalDocs
                             UnmarshalDocs world bob "" no_filter w (tick w)
                             (tick (tick w)) "" None _
                             eq_refl (or_intror eq_refl) eq_refl eq_refl)
                          [doc1] eq_refl)
                   (samplejson.texts [doc1]) None _ eq_refl eq_refl).
    split; reflexivity.
Defined.

(** Carol sees nothing of alice's private documents; bob sees [d1]. *)
Lemma FilteredDocuments_exact_witness :
  In doc1 (documentrepo.FilteredDocuments db1 "" "u2" no_filter)
  /\ ~ In doc1 (documentrepo.FilteredDocuments db1 "" "u3" no_filter).
Proof.
  assert (Hlim : (DocumentFilter.Limit no_filter <= 0)%Z) by (cbn; lia).
  split.
  - apply (FilteredDocuments_exact db1 "" "u2" no_filter doc1 Hlim).
    exists row1, alice. split; [left; reflexivity |].
    split; [left; reflexivity |]. split; [reflexivity |].
    split; [reflexivity |]. split.
    + right. right. exists (documentrepo.mkGrantRow "d1" "u2").
      split; [left; reflexivity |]. split; reflexivity.
    + split; [right; right; reflexivity | left; reflexivity].
  - intros Hin.
    apply (FilteredDocuments_exact db1 "" "u3" no_filter doc1 Hlim) in Hin.
    destruct Hin as (d & u & Hd & _ & _ & Hdoc & Hvis & _).
    destruct Hd as [<- | [<- | []]]; [| discriminate Hdoc].
    destruct Hvis as [Hp | [Ho | (g & [<- | []] & _ & Hg)]]; discriminate.
Defined.

Lemma FilteredDocuments_invalid_filters_witness :
  documentrepo.FilteredDocuments db1 "" "u1" by_owner = []
  /\ documentrepo.FilteredDocuments db1 "" "u1" (DocumentFilter.mk "" "report.pdf" 0%Z)
     = documentrepo.FilteredDocuments db1 "" "u1" no_filter.
Proof.
  split.
  - apply (proj1 (FilteredDocuments_invalid_filters db1 "" "u1" by_owner));
      discriminate.
  - exact (proj2 (FilteredDocuments_invalid_filters db1 "" "u1"
                    (DocumentFilter.mk "" "report.pdf" 0%Z))
                 eq_refl).
Defined.



(** [d2] has no grant row and is deleted; [d1] is granted to bob and the
    delete is refused. *)
Lemma Delete_then_DocumentByID_witness :
  (fst (documentrepo.Delete db1 "d2") = None
   /\ documentrepo.DocumentByID (snd (documentrepo.Delete db1 "d2")) "d2"
      = Err (Errorf "documentRepo/DocumentByID" ErrDocumentNotFound)
   /\ documentrepo.DocumentByID (snd (documentrepo.Delete db1 "d2")) "d1" = Ok doc1)
  /\ (fst (documentrepo.Delete db1 "d1") <> None
      /\ snd (documentrepo.Delete db1 "d1") = db1).
Proof.
  split.
  - pose proof (Delete_then_DocumentByID db1 "d2") as H.
    destruct (documentrepo.Delete db1 "d2") as [err db'].
    destruct H as (Hiff & _ & Hafter). cbn [fst snd].
    assert (Herr : err = None).
    { apply Hiff. right. intros g [<- | []]. discriminate. }
    destruct (Hafter Herr) as (Hgone & Hother & _).
    split; [exact Herr |]. split; [exact Hgone |].
    rewrite (Hother "d1"); [reflexivity | discriminate].
  - pose proof (Delete_then_DocumentByID db1 "d1") as H.
    destruct (documentrepo.Delete db1 "d1") as [err db'].
    destruct H as (Hiff & Hsame & _). cbn [fst snd].
    assert (Herr : err <> None).
    { intros Hnone. apply Hiff in Hnone as [Hno | Hno].
      - exact (Hno row1 (or_introl eq_refl) eq_refl).
      - exact (Hno (documentrepo.mkGrantRow "d1" "u2") (or_introl eq_refl) eq_refl). }
    split; [exact Herr | exact (Hsame Herr)].
Defined.

(** Replacing bob's grant on [d1] by one for carol; with an unknown ID in
    the list the replacement is refused. *)
Lemma GrantAccess_replaces_witness :
  (fst (documentrepo.GrantAccess db1 "d1" ["u3"]) = None
   /\ In "carol" (documentrepo.getGrants
                    (snd (documentrepo.GrantAccess db1 "d1" ["u3"])) "d1")
   /\ ~ In "bob" (documentrepo.getGrants
                    (snd (documentrepo.GrantAccess db1 "d1" ["u3"])) "d1"))
  /\ (fst (documentrepo.GrantAccess db1 "d1" ["u3"; "u9"]) <> None
      /\ snd (documentrepo.GrantAccess db1 "d1" ["u3"; "u9"]) = db1).
Proof.
  split.
  - pose proof (GrantAccess_replaces db1 "d1" ["u3"]) as H.
    destruct (documentrepo.GrantAccess db1 "d1" ["u3"]) as [err db'].
    destruct H as (Hiff & _ & Hafter). cbn [fst snd].
    assert (Herr : err = None).
    { apply Hiff. split; [repeat constructor; intros [] |]. split.
      - intros uid [<- | []]. exists carol.
        split; [right; right; left; reflexivity | reflexivity].
      - intros _. exists row1. split; [left; reflexivity | reflexivity]. }
    destruct (Hafter Herr) as [Hnew _].
    split; [exact Herr |]. split.
    + apply Hnew. exists carol.
      split; [right; right; left; reflexivity |].
      split; [left; reflexivity | reflexivity].
    + intros Hin. apply Hnew in Hin.
      destruct Hin as (u & [<- | [<- | [<- | []]]] & Hid & Hl); try discriminate Hl.
      destruct Hid as [Hid | []]; discriminate Hid.
  - pose proof (GrantAccess_replaces db1 "d1" ["u3"; "u9"]) as H.
    destruct (documentrepo.GrantAccess db1 "d1" ["u3"; "u9"]) as [err db'].
    destruct H as (Hiff & Hsame & _). cbn [fst snd].
    assert (Herr : err <> None).
    { intros Hnone. apply Hiff in Hnone as (_ & Hall & _).
      destruct (Hall "u9" (or_intror (or_introl eq_refl)))
        as (u & [<- | [<- | [<- | []]]] & Hid); discriminate Hid. }
    split; [exact Herr | exact (Hsame Herr)].
Defined.

Lemma ListByUser_owned_witness :
  In doc2 (ListByUser db1 "u1")
  /\ hasDeleteAccess doc2 "u1" = true
  /\ ~ In doc2 (ListByUser db1 "u2").
Proof.
  pose proof (ListByUser_owned db1 "u1" doc2) as [Hiff Hacc].
  assert (Hin : In doc2 (ListByUser db1 "u1")).
  { apply Hiff. exists row2. split; [right; left; reflexivity |].
    split; reflexivity. }
  split; [exact Hin |]. split; [exact (proj1 (Hacc Hin)) |].
  intros Hin2. apply (proj1 (ListByUser_owned db1 "u2" doc2)) in Hin2.
  destruct Hin2 as (d & [<- | [<- | []]] & Ho & _); discriminate Ho.
Defined.

Lemma DocumentsGrantedTo_visible_witness :
  In bob (documentrepo.users db1)
  /\ In doc1 (DocumentsGrantedTo db1 "u2")
  /\ hasReadAccess doc1 "u2" "bob" = true
  /\ In doc1 (documentrepo.FilteredDocuments db1 "" "u2" (DocumentFilter.mk "" "" 0)).
Proof.
  assert (Hbob : In bob (documentrepo.users db1)) by (right; left; reflexivity).
  assert (Hdoc : In doc1 (DocumentsGrantedTo db1 (User.ID bob))) by (left; reflexivity).
  pose proof (DocumentsGrantedTo_visible db1 bob doc1 Hbob Hdoc) as [Hread Hlist].
  split; [exact Hbob |]. split; [exact Hdoc |]. split; [exact Hread |].
  apply Hlist. exists alice. split; [left; reflexivity | reflexivity].
Defined.



Lemma grant_names_round_trip_witness :
  (fst (documentrepo.GrantAccess db1 "d2"
          (grantsID (lookup_id db1 None) ["carol"; "nobody"])) = None
   /\ In "carol" (documentrepo.getGrants
                    (snd (documentrepo.GrantAccess db1 "d2"
                            (grantsID (lookup_id db1 None) ["carol"; "nobody"])))
                    "d2")
   /\ ~ In "nobody" (documentrepo.getGrants
                       (snd (documentrepo.GrantAccess db1 "d2"
                               (grantsID (lookup_id db1 None) ["carol"; "nobody"])))
                       "d2"))
  /\ fst (documentrepo.GrantAccess db1 "d2"
            (grantsID (lookup_id db1 None) ["carol"; "carol"])) <> None.
Proof.
  assert (Hkey : forall u u', In u (documentrepo.users db1) ->
                   In u' (documentrepo.users db1) ->
                   User.ID u = User.ID u' -> u = u').
  { intros u u' [<- | [<- | [<- | []]]] [<- | [<- | [<- | []]]] Hid;
      try reflexivity; discriminate Hid. }
  assert (Hrow : exists d, In d (documentrepo.documents db1)
                           /\ documentrepo.id d = "d2").
  { exists row2. split; [right; left; reflexivity | reflexivity]. }
  split.
  - pose proof (grant_names_round_trip db1 "d2" ["carol"; "nobody"] Hkey Hrow) as H.
    destruct (documentrepo.GrantAccess db1 "d2"
                (grantsID (lookup_id db1 None) ["carol"; "nobody"])) as [err db'].
    destruct H as (_ & Hok & Hread). cbn [fst snd].
    assert (Herr : err = None).
    { apply Hok. repeat constructor.
      - intros [Heq | []]. discriminate Heq.
      - intros []. }
    split; [exact Herr |]. split.
    + apply (Hread Herr). split; [left; reflexivity |].
      exists carol. split; [right; right; left; reflexivity | reflexivity].
    + intros Hin. apply (Hread Herr) in Hin.
      destruct Hin as (_ & u & [<- | [<- | [<- | []]]] & Hl); discriminate Hl.
  - pose proof (grant_names_round_trip db1 "d2" ["carol"; "carol"] Hkey Hrow) as H.
    destruct (documentrepo.GrantAccess db1 "d2"
                (grantsID (lookup_id db1 None) ["carol"; "carol"])) as [err db'].
    destruct H as (Hiff & _). cbn [fst].
    intros Hnone. apply Hiff in Hnone.
    apply List.NoDup_cons_iff in Hnone as [Hnin _].
    apply Hnin. left. reflexivity.
Defined.

(** A stand-in for decoding [JSONData] into a map. *)
Definition UnmarshalMap (data : Bytes) : result string :=
  if String.eqb data "{}" then Ok "{}" else Err (Foreign "invalid character").

Lemma Delete_handler_statuses_witness :
  fst (fst (run world (Delete_handler Marshal Unmarshal (J := string) "t0k3n"
                         (Ok bob) "d1") w_stored))
  = JSONError 403 "access denied"
  /\ fst (fst (run world (Delete_handler Marshal Unmarshal (J := string) "t0k3n"
                            (Ok alice) "d404") w_stored))
     = JSONError 400 "invalid params".
Proof.
  split.
  - apply (proj1 (Delete_handler_statuses Marshal Unmarshal (J := string) world
                    "t0k3n" "d1" bob w_stored)).
    exists doc1. split; reflexivity.
  - exact (proj1 (proj2 (Delete_handler_statuses Marshal Unmarshal (J := string)
                           world "t0k3n" "d404" alice w_stored))
                 _ eq_refl).
Defined.

Lemma GetByID_statuses_witness :
  fst (fst (run world (GetByID Marshal Unmarshal UnmarshalMap (Some carol) "d1")
                w_stored))
  = JSONError 403 "access denied"
  /\ fst (fst (run world (GetByID Marshal Unmarshal UnmarshalMap (Some carol) "d404")
                   w_stored))
     = JSONError 400 "invalid params"
  /\ fst (fst (run world (GetByID Marshal Unmarshal UnmarshalMap (Some bob) "d1")
                   w_blobless))
     <> Panics.
Proof.
  split; [| split].
  - apply (proj1 (GetByID_statuses Marshal Unmarshal UnmarshalMap world
                    "d1" carol w_stored)).
    exists doc1. split; reflexivity.
  - exact (proj1 (proj2 (GetByID_statuses Marshal Unmarshal UnmarshalMap world
                           "d404" carol w_stored))
                 _ eq_refl).
  - exact (proj2 (proj2 (GetByID_statuses Marshal Unmarshal UnmarshalMap world
                           "d1" bob w_blobless))).
Defined.



(** A stand-in for [strconv.Atoi] on the strings of the examples. *)
Definition Atoi (s : string) : result Z :=
  if String.eqb s "10" then Ok 10%Z
  else if String.eqb s "-5" then Ok (-5)%Z
  else Err (Foreign "invalid syntax").

Lemma Get_statuses_witness :
  fst (fst (run world (Get (J := string) MarshalDocs UnmarshalDocs Atoi
                         (Some bob) "" "owner" "u1" "-5") w_stored))
  = JSONError 500 "internal server error".
Proof.
  refine (proj1 (proj2 (Get_statuses (J := string) world MarshalDocs UnmarshalDocs
                          Atoi bob "" "owner" "u1" "-5" w_stored))
                "" None (tick w_stored) eq_refl (or_intror eq_refl) eq_refl).
Defined.
